(** * Driver-document compliance lambdas: review, upload and expiry sweep

    A shallow embedding of the three Node.js handlers of
    vehealth-compliance-infra-services

      - document-review  (PUT /admin/documents/{documentId}/review)
      - document-upload  (POST /drivers/documents/upload)
      - document-expiry  (scheduled sweep)

    over an explicit model of the PostgreSQL connection they share: two
    tables, a transaction block, a statement counter, a statement log, a
    fault oracle and a clock.  SQL statements are pure functions on the
    tables; the handlers are written in a small state-and-exception monad
    that mirrors the async/await code.

    Conventions.

    - Rows carry the columns the handlers' SQL names (verified_at,
      verified_by, s3_key, ...) and statuses and document types are the
      strings the JavaScript compares.  Migration 001 of the repository
      names some of these columns differently and its status enum has no
      'processing'; a statement the database refuses is a failing statement
      here.
    - Body fields are JSON strings or absent; the empty string is falsy.
      A date field stands for the day its literal denotes.
    - A failing statement throws and changes no table.  Outside a block
      every statement commits on its own; inside a block a failure aborts
      the block, and COMMIT of an aborted block rolls back.
    - NOW() is the clock at the statement, or at BEGIN inside a block;
      CURRENT_DATE is its day. *)

From Stdlib Require Import Ascii String List ZArith Bool Arith Lia.
Import ListNotations.

Open Scope string_scope.
Open Scope Z_scope.

(** ** JavaScript and SQL value conventions *)

Module Js.

(** A JSON string field of a request body: [None] when the key is absent
    (or null), [Some s] otherwise.  The empty string is falsy. *)
Definition truthy (x : option string) : bool :=
  match x with
  | Some s => negb (s =? "")%string
  | None => false
  end.

(** [x || null] on a string field. *)
Definition orNull (x : option string) : option string :=
  if truthy x then x else None.

(** [arr.includes(x)] on an array of strings. *)
Definition includes (arr : list string) (x : string) : bool :=
  existsb (fun y => (y =? x)%string) arr.

(** [[...new Set(arr)]]: first occurrences, in insertion order. *)
Fixpoint uniqueFrom (seen arr : list string) : list string :=
  match arr with
  | [] => []
  | x :: rest =>
      if includes seen x then uniqueFrom seen rest
      else x :: uniqueFrom (x :: seen) rest
  end.

Definition newSet (arr : list string) : list string := uniqueFrom [] arr.

(** [s.includes(sub)] on strings. *)
Fixpoint contains (sub s : string) : bool :=
  if String.prefix sub s then true
  else match s with
       | EmptyString => false
       | String _ rest => contains sub rest
       end.

End Js.

Module Sql.

(** [COALESCE(a, b)]. *)
Definition COALESCE {A : Type} (a b : option A) : option A :=
  match a with
  | Some _ => a
  | None => b
  end.

(** Timestamps are seconds since the epoch, dates are days since the epoch;
    [CURRENT_DATE] is the day of the current timestamp. *)
Definition CURRENT_DATE (now : Z) : Z := now / 86400.

End Sql.

(** ** Tables *)

(** A row of [driver_documents], with the columns the handlers read or
    write.  Statuses and document types are the strings the code compares. *)
Record Document : Type := mkDocument {
  id : string;
  driver_id : string;
  tenant_id : option string;
  document_type : string;
  document_category : string;
  s3_key : string;
  s3_bucket : string;
  file_name : string;
  file_size_bytes : Z;
  mime_type : string;
  document_number : option string;
  issuing_authority : option string;
  issue_date : option Z;
  expiry_date : option Z;
  status : string;
  verified_at : option Z;
  verified_by : option string;
  rejection_reason : option string;
  notes : option string;
  expiration_notified_at : option Z;
  created_at : Z;
  updated_at : Z
}.

(** The [driver_profiles] columns that a document can be referenced from. *)
Inductive ProfileColumn : Type :=
| license_document_id
| insurance_document_id
| registration_document_id
| inspection_document_id
| profile_photo_document_id.

(** A row of [driver_profiles] (owned by another repository); only the
    columns written here. *)
Record Profile : Type := mkProfile {
  user_id : string;
  license_document : option string;
  insurance_document : option string;
  registration_document : option string;
  inspection_document : option string;
  profile_photo_document : option string;
  documents_complete : bool;
  documents_verified_at : option Z;
  profile_status : string;
  profile_updated_at : Z
}.

Record Store : Type := mkStore {
  driver_documents : list Document;
  driver_profiles : list Profile
}.

(** ** The database connection *)

Module Db.

(** Every SQL statement the three handlers send. *)
Inductive Stmt : Type :=
| BEGIN
| COMMIT
| ROLLBACK
| InsertDocument
| UpdateDocumentStatus (documentId : string)
| UpdateProfileColumn (driverId : string)
| SelectApprovedRequired (driverId : string)
| UpdateProfileComplete (driverId : string)
| UpdateMarkExpired
| UpdateProfileIncomplete (driverId : string)
| SelectExpiring
| UpdateNotificationSent.

(** Statements that change a table. *)
Definition is_write (s : Stmt) : bool :=
  match s with
  | InsertDocument | UpdateDocumentStatus _ | UpdateProfileColumn _
  | UpdateProfileComplete _ | UpdateMarkExpired
  | UpdateProfileIncomplete _ | UpdateNotificationSent => true
  | _ => false
  end.

(** Transaction block of the session.  Inside a block the statements work
    on a private copy and [NOW()] is the time the block started; a failed
    statement leaves the block aborted until [ROLLBACK]. *)
Inductive TxState : Type :=
| Idle
| InTx (work : Store) (started : Z)
| Aborted.

(** The module-level [dbClient]: what other sessions can see
    ([committed]), the open block, the number of statements sent so far and
    their log. *)
Record Conn : Type := mkConn {
  committed : Store;
  tx : TxState;
  seq : nat;
  log : list Stmt
}.

(** What the handlers cannot control: whether connecting works, which
    statement (by sequence number) fails, the wall clock at each statement
    and the identifiers the database generates. *)
Record Env : Type := mkEnv {
  connects : bool;
  fails : nat -> bool;
  clock : nat -> Z;
  uuid_generate_v4 : nat -> string
}.

Inductive Outcome (A : Type) : Type :=
| Return (a : A)
| Throw (message : string).
Arguments Return {A} a.
Arguments Throw {A} message.

(** An async function using the connection. *)
Definition Async (A : Type) : Type := Env -> Conn -> Outcome A * Conn.

Definition ret {A : Type} (a : A) : Async A := fun _ c => (Return a, c).

Definition throw {A : Type} (message : string) : Async A :=
  fun _ c => (Throw message, c).

Definition bind {A B : Type} (m : Async A) (k : A -> Async B) : Async B :=
  fun env c =>
    match m env c with
    | (Return a, c') => k a env c'
    | (Throw e, c') => (Throw e, c')
    end.

(** [try { m } catch (error) { h error }]. *)
Definition try_catch {A : Type} (m : Async A) (h : string -> Async A) : Async A :=
  fun env c =>
    match m env c with
    | (Return a, c') => (Return a, c')
    | (Throw e, c') => h e env c'
    end.

Definition sent (s : Stmt) (c : Conn) (t : TxState) (st : Store) : Conn :=
  {| committed := st; tx := t; seq := S (seq c); log := log c ++ [s] |}.

(** Transaction state after a statement failed. *)
Definition after_failure (t : TxState) : TxState :=
  match t with
  | Idle => Idle
  | _ => Aborted
  end.

(** [db.query(sql, values)] for a data statement whose effect on the tables
    is [run now tables]. *)
Definition query {A : Type} (s : Stmt) (run : Z -> Store -> A * Store) : Async A :=
  fun env c =>
    let n := seq c in
    if fails env n then
      (Throw "database error", sent s c (after_failure (tx c)) (committed c))
    else
      match tx c with
      | Idle =>
          let (a, st) := run (clock env n) (committed c) in
          (Return a, sent s c Idle st)
      | InTx work started =>
          let (a, work') := run started work in
          (Return a, sent s c (InTx work' started) (committed c))
      | Aborted =>
          (Throw "current transaction is aborted", sent s c Aborted (committed c))
      end.

(** [db.query('BEGIN')]. *)
Definition query_BEGIN : Async unit :=
  fun env c =>
    let n := seq c in
    if fails env n then
      (Throw "database error", sent BEGIN c (after_failure (tx c)) (committed c))
    else
      match tx c with
      | Idle => (Return tt, sent BEGIN c (InTx (committed c) (clock env n)) (committed c))
      | InTx work started => (Return tt, sent BEGIN c (InTx work started) (committed c))
      | Aborted => (Throw "current transaction is aborted", sent BEGIN c Aborted (committed c))
      end.

(** [db.query('COMMIT')]: publishes the block; on an aborted block it
    rolls back. *)
Definition query_COMMIT : Async unit :=
  fun env c =>
    let n := seq c in
    if fails env n then
      (Throw "database error", sent COMMIT c (after_failure (tx c)) (committed c))
    else
      match tx c with
      | InTx work _ => (Return tt, sent COMMIT c Idle work)
      | _ => (Return tt, sent COMMIT c Idle (committed c))
      end.

(** [db.query('ROLLBACK')]: drops the block. *)
Definition query_ROLLBACK : Async unit :=
  fun env c =>
    let n := seq c in
    if fails env n then
      (Throw "database error", sent ROLLBACK c (after_failure (tx c)) (committed c))
    else (Return tt, sent ROLLBACK c Idle (committed c)).

(** [getDbConnection()]: reuses the module-level client or connects. *)
Definition getDbConnection : Async unit :=
  fun env c =>
    if connects env then (Return tt, c) else (Throw "connection error", c).

End Db.

Import Db.

Notation "x <- m ;; k" := (bind m (fun x => k))
  (at level 61, m at next level, right associativity).
Notation "m ;;; k" := (bind m (fun _ => k))
  (at level 61, right associativity).

(** ** document-review lambda *)

Module Review.

(** Parsed request body of the review route.  Dates stand for the day a
    non-empty date literal denotes; an absent or empty literal is [None]. *)
Record Body : Type := mkBody {
  b_status : option string;
  b_rejectionReason : option string;
  b_notes : option string;
  b_documentNumber : option string;
  b_issuingAuthority : option string;
  b_issueDate : option Z;
  b_expiryDate : option Z
}.

(** [JSON.parse(event.body || '{}')] either throws or yields a body. *)
Inductive ParsedBody : Type :=
| Malformed
| Parsed (b : Body).

Record Event : Type := mkEvent {
  pathParameters_documentId : option string;
  body : ParsedBody
}.

Record Claims : Type := mkClaims {
  sub : string;
  email : string;
  custom_roles : option string
}.

Record User : Type := mkUser {
  userId : string;
  isAdmin : bool
}.

(** [extractUserFromEvent]: the admin flag is a substring test on the
    comma-separated roles claim. *)
Definition extractUserFromEvent (claims : option Claims) : Outcome User :=
  match claims with
  | None => Throw "Missing JWT claims"
  | Some cl =>
      Return {| userId := sub cl;
                isAdmin := match custom_roles cl with
                           | Some roles => Js.contains "admin" roles
                           | None => false
                           end |}
  end.

Record ReviewData : Type := mkReviewData {
  rd_status : string;
  rd_reviewerId : string;
  rd_rejectionReason : option string;
  rd_notes : option string;
  rd_documentNumber : option string;
  rd_issuingAuthority : option string;
  rd_issueDate : option Z;
  rd_expiryDate : option Z
}.

(** The [RETURNING] columns of the review update. *)
Record DocumentRow : Type := mkDocumentRow {
  r_id : string;
  r_driver_id : string;
  r_document_type : string;
  r_status : string;
  r_verified_at : option Z;
  r_rejection_reason : option string;
  r_notes : option string;
  r_created_at : Z;
  r_updated_at : Z
}.

Definition returning (d : Document) : DocumentRow :=
  {| r_id := id d; r_driver_id := driver_id d;
     r_document_type := document_type d; r_status := status d;
     r_verified_at := verified_at d;
     r_rejection_reason := rejection_reason d; r_notes := notes d;
     r_created_at := created_at d; r_updated_at := updated_at d |}.

(** The [SET] clause of [updateDocumentStatus] applied to one row, with
    the positional values already built by the JavaScript side:
    [$3], [$4] and the four optional fields go through [|| null]. *)
Definition set_review (now : Z) (rd : ReviewData) (d : Document) : Document :=
  {| id := id d;
     driver_id := driver_id d;
     tenant_id := tenant_id d;
     document_type := document_type d;
     document_category := document_category d;
     s3_key := s3_key d;
     s3_bucket := s3_bucket d;
     file_name := file_name d;
     file_size_bytes := file_size_bytes d;
     mime_type := mime_type d;
     document_number :=
       Sql.COALESCE (Js.orNull (rd_documentNumber rd)) (document_number d);
     issuing_authority :=
       Sql.COALESCE (Js.orNull (rd_issuingAuthority rd)) (issuing_authority d);
     issue_date := Sql.COALESCE (rd_issueDate rd) (issue_date d);
     expiry_date := Sql.COALESCE (rd_expiryDate rd) (expiry_date d);
     status := rd_status rd;
     verified_at :=
       if Js.includes ["approved"; "rejected"] (rd_status rd)
       then Some now else verified_at d;
     verified_by := Some (rd_reviewerId rd);
     rejection_reason := Js.orNull (rd_rejectionReason rd);
     notes := Js.orNull (rd_notes rd);
     expiration_notified_at := expiration_notified_at d;
     created_at := created_at d;
     updated_at := now |}.

(** [UPDATE driver_documents SET ... WHERE id = $9 RETURNING ...]. *)
Definition sql_update_document (documentId : string) (rd : ReviewData)
    (now : Z) (st : Store) : list DocumentRow * Store :=
  let hit d := (id d =? documentId)%string in
  let docs := map (fun d => if hit d then set_review now rd d else d)
                  (driver_documents st) in
  (map returning (filter hit docs),
   {| driver_documents := docs; driver_profiles := driver_profiles st |}).

Definition updateDocumentStatus (documentId : string) (reviewData : ReviewData)
    : Async DocumentRow :=
  rows <- query (UpdateDocumentStatus documentId)
                (sql_update_document documentId reviewData) ;;
  match rows with
  | [] => throw "Document not found"
  | row :: _ => ret row
  end.

(** [columnMap[documentType]]. *)
Definition columnMap (documentType : string) : option ProfileColumn :=
  if (documentType =? "license")%string then Some license_document_id
  else if (documentType =? "insurance")%string then Some insurance_document_id
  else if (documentType =? "registration")%string then Some registration_document_id
  else if (documentType =? "inspection")%string then Some inspection_document_id
  else if (documentType =? "profile_photo")%string then Some profile_photo_document_id
  else None.

Definition set_column (col : ProfileColumn) (documentId : string) (now : Z)
    (p : Profile) : Profile :=
  let v := Some documentId in
  {| user_id := user_id p;
     license_document :=
       match col with license_document_id => v | _ => license_document p end;
     insurance_document :=
       match col with insurance_document_id => v | _ => insurance_document p end;
     registration_document :=
       match col with registration_document_id => v | _ => registration_document p end;
     inspection_document :=
       match col with inspection_document_id => v | _ => inspection_document p end;
     profile_photo_document :=
       match col with profile_photo_document_id => v | _ => profile_photo_document p end;
     documents_complete := documents_complete p;
     documents_verified_at := documents_verified_at p;
     profile_status := profile_status p;
     profile_updated_at := now |}.

(** [UPDATE driver_profiles SET <column> = $1, updated_at = NOW()
     WHERE user_id = $2]. *)
Definition sql_update_profile_column (col : ProfileColumn)
    (documentId driverId : string) (now : Z) (st : Store) : unit * Store :=
  (tt,
   {| driver_documents := driver_documents st;
      driver_profiles :=
        map (fun p => if (user_id p =? driverId)%string
                      then set_column col documentId now p else p)
            (driver_profiles st) |}).

Definition updateDriverProfile (driverId documentType documentId : string)
    : Async unit :=
  match columnMap documentType with
  | None => ret tt
  | Some column =>
      query (UpdateProfileColumn driverId)
            (sql_update_profile_column column documentId driverId)
  end.

Definition requiredDocs : list string :=
  ["license"; "insurance"; "registration"; "profile_photo"].

(** [SELECT document_type, status FROM driver_documents WHERE driver_id = $1
     AND document_type = ANY($2) AND status = 'approved']. *)
Definition sql_select_approved (driverId : string) (required : list string)
    (now : Z) (st : Store) : list (string * string) * Store :=
  (map (fun d => (document_type d, status d))
       (filter (fun d => (driver_id d =? driverId)%string
                         && Js.includes required (document_type d)
                         && (status d =? "approved")%string)
               (driver_documents st)),
   st).

(** The [RETURNING] columns of the completeness update. *)
Record ProfileStatusRow : Type := mkProfileStatusRow {
  ps_documents_complete : bool;
  ps_documents_verified_at : option Z;
  ps_status : string
}.

Definition set_complete (now : Z) (p : Profile) : Profile :=
  {| user_id := user_id p;
     license_document := license_document p;
     insurance_document := insurance_document p;
     registration_document := registration_document p;
     inspection_document := inspection_document p;
     profile_photo_document := profile_photo_document p;
     documents_complete := true;
     documents_verified_at := Some now;
     profile_status :=
       if (profile_status p =? "pending_documents")%string
       then "active" else profile_status p;
     profile_updated_at := now |}.

(** [UPDATE driver_profiles SET documents_complete = TRUE,
     documents_verified_at = NOW(), status = CASE ... END, updated_at = NOW()
     WHERE user_id = $1 RETURNING ...]. *)
Definition sql_mark_complete (driverId : string) (now : Z) (st : Store)
    : list ProfileStatusRow * Store :=
  let hit p := (user_id p =? driverId)%string in
  let profiles := map (fun p => if hit p then set_complete now p else p)
                      (driver_profiles st) in
  (map (fun p => {| ps_documents_complete := documents_complete p;
                    ps_documents_verified_at := documents_verified_at p;
                    ps_status := profile_status p |})
       (filter hit profiles),
   {| driver_documents := driver_documents st; driver_profiles := profiles |}).

(** The two shapes of the object [checkAllDocumentsApproved] returns. *)
Inductive VerificationStatus : Type :=
| AllApproved (profileStatus : option ProfileStatusRow)
| NotAllApproved (missingDocuments : list string).

Definition allDocumentsApproved (v : VerificationStatus) : bool :=
  match v with AllApproved _ => true | NotAllApproved _ => false end.

Definition profileUpdated (v : VerificationStatus) : bool :=
  match v with AllApproved _ => true | NotAllApproved _ => false end.

Definition checkAllDocumentsApproved (driverId : string)
    : Async VerificationStatus :=
  rows <- query (SelectApprovedRequired driverId)
                (sql_select_approved driverId requiredDocs) ;;
  let approvedDocs := map fst rows in
  let allApproved := forallb (fun doc => Js.includes approvedDocs doc) requiredDocs in
  if allApproved then
    updateResult <- query (UpdateProfileComplete driverId)
                          (sql_mark_complete driverId) ;;
    ret (AllApproved (hd_error updateResult))
  else
    ret (NotAllApproved
           (filter (fun doc => negb (Js.includes approvedDocs doc)) requiredDocs)).

Inductive ResponseBody : Type :=
| ErrorBody (error : string)
| Reviewed (message : string) (document : DocumentRow)
           (verificationStatus : option VerificationStatus).

Record Response : Type := mkResponse {
  statusCode : Z;
  response_body : ResponseBody
}.

Definition validStatuses : list string :=
  ["approved"; "rejected"; "pending"; "processing"].

Definition handleReviewDocument (event : Event) (user : User) : Async Response :=
  if negb (isAdmin user) then
    ret {| statusCode := 403;
           response_body := ErrorBody "Forbidden: Admin access required" |}
  else if negb (Js.truthy (pathParameters_documentId event)) then
    ret {| statusCode := 400; response_body := ErrorBody "Missing documentId" |}
  else
    let documentId :=
      match pathParameters_documentId event with Some i => i | None => "" end in
    match body event with
    | Malformed => throw "Unexpected token in JSON"
    | Parsed b =>
        if negb (Js.truthy (b_status b))
           || negb (Js.includes validStatuses
                      (match b_status b with Some s => s | None => "" end))
        then
          ret {| statusCode := 400;
                 response_body :=
                   ErrorBody "Invalid status. Must be one of: approved, rejected, pending, processing" |}
        else
          let status := match b_status b with Some s => s | None => "" end in
          if (status =? "rejected")%string && negb (Js.truthy (b_rejectionReason b))
          then
            ret {| statusCode := 400;
                   response_body :=
                     ErrorBody "rejectionReason is required when status is rejected" |}
          else
            getDbConnection ;;;
            try_catch
              (query_BEGIN ;;;
               document <- updateDocumentStatus documentId
                   {| rd_status := status;
                      rd_reviewerId := userId user;
                      rd_rejectionReason := b_rejectionReason b;
                      rd_notes := b_notes b;
                      rd_documentNumber := b_documentNumber b;
                      rd_issuingAuthority := b_issuingAuthority b;
                      rd_issueDate := b_issueDate b;
                      rd_expiryDate := b_expiryDate b |} ;;
               if (status =? "approved")%string then
                 updateDriverProfile (r_driver_id document)
                                     (r_document_type document) documentId ;;;
                 verificationStatus <- checkAllDocumentsApproved (r_driver_id document) ;;
                 query_COMMIT ;;;
                 ret {| statusCode := 200;
                        response_body :=
                          Reviewed "Document reviewed successfully" document
                                   (Some verificationStatus) |}
               else
                 query_COMMIT ;;;
                 ret {| statusCode := 200;
                        response_body :=
                          Reviewed "Document reviewed successfully" document None |})
              (fun error => query_ROLLBACK ;;; throw error)
    end.

End Review.

(** ** document-upload lambda: creation of the registry row *)

Module Upload.

Definition DOCUMENTS_BUCKET : string := "vehealth-dev-driver-documents".

(** Request body; the handler accepts camelCase and snake_case keys. *)
Record Body : Type := mkBody {
  documentType : option string;
  document_type_ : option string;
  fileName : option string;
  file_name_ : option string;
  contentType : option string;
  content_type_ : option string;
  fileSize : option Z;
  file_size_ : option Z
}.

Record User : Type := mkUser {
  userId : string;
  tenantId : option string
}.

(** [a || b] on string fields and on numbers (0 is falsy). *)
Definition orElse (a b : option string) : option string :=
  if Js.truthy a then a else b.

Definition truthyNumber (n : option Z) : bool :=
  match n with Some v => negb (v =? 0) | None => false end.

Definition orElseNumber (a b : option Z) : option Z :=
  if truthyNumber a then a else b.

Definition text (x : option string) : string :=
  match x with Some s => s | None => "" end.

(** The S3 side of [generatePresignedUrl]: the timestamp it reads and the
    signer, which may throw. *)
Record S3 : Type := mkS3 {
  timestamp : string;
  getSignedUrl : string -> Outcome string
}.

Definition keyChar (a : Ascii.ascii) : bool :=
  let n := Ascii.nat_of_ascii a in
  ((97 <=? n) && (n <=? 122) || (65 <=? n) && (n <=? 90)
   || (48 <=? n) && (n <=? 57) || (n =? 46) || (n =? 95) || (n =? 45))%nat.

(** [fileName.replace(/[^a-zA-Z0-9._-]/g, '_')]. *)
Fixpoint sanitize (s : string) : string :=
  match s with
  | EmptyString => EmptyString
  | String a rest => String (if keyChar a then a else "_"%char) (sanitize rest)
  end.

Definition s3KeyOf (s3 : S3) (driverId documentType fileName : string)
    (tenantId : option string) : string :=
  let tail := driverId ++ "/" ++ documentType ++ "/" ++ timestamp s3 ++ "_"
              ++ sanitize fileName in
  if Js.truthy tenantId then text tenantId ++ "/" ++ tail else tail.

Definition generatePresignedUrl (s3 : S3) (driverId documentType fileName : string)
    (tenantId : option string) : Async (string * string) :=
  let s3Key := s3KeyOf s3 driverId documentType fileName tenantId in
  match getSignedUrl s3 s3Key with
  | Return presignedUrl => ret (presignedUrl, s3Key)
  | Throw e => throw e
  end.

Definition getDocumentCategory (documentType : string) : string :=
  if (documentType =? "license")%string then "identity"
  else if (documentType =? "license_back")%string then "identity"
  else if (documentType =? "profile_photo")%string then "identity"
  else if (documentType =? "insurance")%string then "vehicle"
  else if (documentType =? "registration")%string then "vehicle"
  else if (documentType =? "inspection")%string then "compliance"
  else "identity".

Record DocumentData : Type := mkDocumentData {
  dd_driverId : string;
  dd_tenantId : option string;
  dd_documentType : string;
  dd_documentCategory : string;
  dd_s3Key : string;
  dd_fileName : string;
  dd_fileSize : Z;
  dd_mimeType : string
}.

(** [INSERT INTO driver_documents (...) VALUES (...) RETURNING id, created_at];
    the columns not listed take their defaults. *)
Definition sql_insert_document (newId : string) (dd : DocumentData) (now : Z)
    (st : Store) : list (string * Z) * Store :=
  let row :=
    {| id := newId;
       driver_id := dd_driverId dd;
       tenant_id := dd_tenantId dd;
       document_type := dd_documentType dd;
       document_category := dd_documentCategory dd;
       s3_key := dd_s3Key dd;
       s3_bucket := DOCUMENTS_BUCKET;
       file_name := dd_fileName dd;
       file_size_bytes := dd_fileSize dd;
       mime_type := dd_mimeType dd;
       document_number := None;
       issuing_authority := None;
       issue_date := None;
       expiry_date := None;
       status := "pending";
       verified_at := None;
       verified_by := None;
       rejection_reason := None;
       notes := None;
       expiration_notified_at := None;
       created_at := now;
       updated_at := now |} in
  ([(newId, now)],
   {| driver_documents := driver_documents st ++ [row];
      driver_profiles := driver_profiles st |}).

Definition createDocumentRecord (documentData : DocumentData)
    : Async (option (string * Z)) :=
  fun env c =>
    (rows <- query InsertDocument
               (sql_insert_document (uuid_generate_v4 env (seq c)) documentData) ;;
     ret (hd_error rows)) env c.

Inductive ResponseBody : Type :=
| ErrorBody (error : string)
| Granted (presigned_url : string) (document_id : option string)
          (s3_key : string) (expires_in : Z).

Record Response : Type := mkResponse {
  statusCode : Z;
  response_body : ResponseBody
}.

Definition validTypes : list string :=
  ["license"; "license_back"; "insurance"; "registration"; "inspection";
   "profile_photo"].

Definition handleUploadRequest (s3 : S3) (body : Body) (user : User)
    : Async Response :=
  let documentType := orElse (documentType body) (document_type_ body) in
  let fileName := orElse (fileName body) (file_name_ body) in
  let contentType := orElse (contentType body) (content_type_ body) in
  let fileSize := orElseNumber (fileSize body) (file_size_ body) in
  if negb (Js.truthy documentType) || negb (Js.truthy fileName)
     || negb (Js.truthy contentType)
  then
    ret {| statusCode := 400;
           response_body :=
             ErrorBody "Missing required fields: document_type, file_name, content_type" |}
  else if negb (Js.includes validTypes (text documentType)) then
    ret {| statusCode := 400;
           response_body :=
             ErrorBody "Invalid documentType. Must be one of: license, license_back, insurance, registration, inspection, profile_photo" |}
  else if truthyNumber fileSize
          && (10 * 1024 * 1024 <? match fileSize with Some v => v | None => 0 end)
  then
    ret {| statusCode := 400;
           response_body := ErrorBody "File size exceeds 10MB limit" |}
  else
    signed <- generatePresignedUrl s3 (userId user) (text documentType)
                (text fileName) (tenantId user) ;;
    let (presignedUrl, s3Key) := signed in
    getDbConnection ;;;
    document <- createDocumentRecord
        {| dd_driverId := userId user;
           dd_tenantId := tenantId user;
           dd_documentType := text documentType;
           dd_documentCategory := getDocumentCategory (text documentType);
           dd_s3Key := s3Key;
           dd_fileName := text fileName;
           dd_fileSize := match orElseNumber fileSize (Some 0) with
                          | Some v => v | None => 0 end;
           dd_mimeType := text contentType |} ;;
    ret {| statusCode := 200;
           response_body :=
             Granted presignedUrl (option_map fst document) s3Key 900 |}.

End Upload.

(** ** document-expiry lambda: the scheduled sweep *)

Module Expiry.

(** The [RETURNING] columns of the demotion update. *)
Record ExpiredRow : Type := mkExpiredRow {
  x_id : string;
  x_driver_id : string;
  x_document_type : string;
  x_expiry_date : option Z
}.

(** The [WHERE] clause of [markExpiredDocuments]. *)
Definition past_expiry (now : Z) (d : Document) : bool :=
  (status d =? "approved")%string
  && match expiry_date d with
     | Some e => e <? Sql.CURRENT_DATE now
     | None => false
     end.

Definition set_expired (now : Z) (d : Document) : Document :=
  {| id := id d;
     driver_id := driver_id d;
     tenant_id := tenant_id d;
     document_type := document_type d;
     document_category := document_category d;
     s3_key := s3_key d;
     s3_bucket := s3_bucket d;
     file_name := file_name d;
     file_size_bytes := file_size_bytes d;
     mime_type := mime_type d;
     document_number := document_number d;
     issuing_authority := issuing_authority d;
     issue_date := issue_date d;
     expiry_date := expiry_date d;
     status := "expired";
     verified_at := verified_at d;
     verified_by := verified_by d;
     rejection_reason := rejection_reason d;
     notes := notes d;
     expiration_notified_at := expiration_notified_at d;
     created_at := created_at d;
     updated_at := now |}.

(** [UPDATE driver_documents SET status = 'expired', updated_at = NOW()
     WHERE status = 'approved' AND expiry_date IS NOT NULL
       AND expiry_date < CURRENT_DATE RETURNING ...]. *)
Definition sql_mark_expired (now : Z) (st : Store) : list ExpiredRow * Store :=
  (map (fun d => {| x_id := id d; x_driver_id := driver_id d;
                    x_document_type := document_type d;
                    x_expiry_date := expiry_date d |})
       (filter (past_expiry now) (driver_documents st)),
   {| driver_documents :=
        map (fun d => if past_expiry now d then set_expired now d else d)
            (driver_documents st);
      driver_profiles := driver_profiles st |}).

Definition markExpiredDocuments : Async (list ExpiredRow) :=
  query UpdateMarkExpired sql_mark_expired.

(** The columns [findExpiringDocuments] selects. *)
Record ExpiringRow : Type := mkExpiringRow {
  e_id : string;
  e_driver_id : string;
  e_document_type : string;
  e_file_name : string;
  e_expiry_date : Z;
  e_expiration_notified_at : option Z;
  e_days_until_expiry : Z
}.

(** The [WHERE] clause of [findExpiringDocuments]. *)
Definition expiring (daysAhead now : Z) (d : Document) : bool :=
  (status d =? "approved")%string
  && match expiry_date d with
     | Some e => (Sql.CURRENT_DATE now <=? e) && (e <=? Sql.CURRENT_DATE now + daysAhead)
     | None => false
     end
  && match expiration_notified_at d with
     | None => true
     | Some _ => false
     end.

(** [ORDER BY expiry_date ASC], as a stable insertion sort. *)
Fixpoint insert_by_expiry (r : ExpiringRow) (l : list ExpiringRow) : list ExpiringRow :=
  match l with
  | [] => [r]
  | h :: t =>
      if e_expiry_date h <=? e_expiry_date r then h :: insert_by_expiry r t
      else r :: l
  end.

Definition order_by_expiry (l : list ExpiringRow) : list ExpiringRow :=
  fold_left (fun acc r => insert_by_expiry r acc) l [].

Definition sql_find_expiring (daysAhead : Z) (now : Z) (st : Store)
    : list ExpiringRow * Store :=
  (order_by_expiry
     (map (fun d =>
             let e := match expiry_date d with Some e => e | None => 0 end in
             {| e_id := id d; e_driver_id := driver_id d;
                e_document_type := document_type d;
                e_file_name := file_name d;
                e_expiry_date := e;
                e_expiration_notified_at := expiration_notified_at d;
                e_days_until_expiry := e - Sql.CURRENT_DATE now |})
          (filter (expiring daysAhead now) (driver_documents st))),
   st).

Definition findExpiringDocuments (daysAhead : Z) : Async (list ExpiringRow) :=
  query SelectExpiring (sql_find_expiring daysAhead).

Definition set_notified (now : Z) (d : Document) : Document :=
  {| id := id d;
     driver_id := driver_id d;
     tenant_id := tenant_id d;
     document_type := document_type d;
     document_category := document_category d;
     s3_key := s3_key d;
     s3_bucket := s3_bucket d;
     file_name := file_name d;
     file_size_bytes := file_size_bytes d;
     mime_type := mime_type d;
     document_number := document_number d;
     issuing_authority := issuing_authority d;
     issue_date := issue_date d;
     expiry_date := expiry_date d;
     status := status d;
     verified_at := verified_at d;
     verified_by := verified_by d;
     rejection_reason := rejection_reason d;
     notes := notes d;
     expiration_notified_at := Some now;
     created_at := created_at d;
     updated_at := now |}.

(** [UPDATE driver_documents SET expiration_notified_at = NOW(),
     updated_at = NOW() WHERE id = ANY($1)]. *)
Definition sql_mark_notified (documentIds : list string) (now : Z) (st : Store)
    : unit * Store :=
  (tt,
   {| driver_documents :=
        map (fun d => if Js.includes documentIds (id d)
                      then set_notified now d else d)
            (driver_documents st);
      driver_profiles := driver_profiles st |}).

Definition markNotificationSent (documentIds : list string) : Async unit :=
  match documentIds with
  | [] => ret tt
  | _ => query UpdateNotificationSent (sql_mark_notified documentIds)
  end.

(** The check query of the profile pass, with its literal type list. *)
Definition sql_check_approved (driverId : string) (now : Z) (st : Store)
    : list (string * string) * Store :=
  (map (fun d => (document_type d, status d))
       (filter (fun d => (driver_id d =? driverId)%string
                         && Js.includes
                              ["license"; "insurance"; "registration"; "profile_photo"]
                              (document_type d)
                         && (status d =? "approved")%string)
               (driver_documents st)),
   st).

(** The [RETURNING] columns of the incompleteness update. *)
Record IncompleteRow : Type := mkIncompleteRow {
  i_user_id : string;
  i_documents_complete : bool;
  i_status : string
}.

Definition set_incomplete (now : Z) (p : Profile) : Profile :=
  {| user_id := user_id p;
     license_document := license_document p;
     insurance_document := insurance_document p;
     registration_document := registration_document p;
     inspection_document := inspection_document p;
     profile_photo_document := profile_photo_document p;
     documents_complete := false;
     documents_verified_at := documents_verified_at p;
     profile_status :=
       if (profile_status p =? "active")%string
       then "pending_documents" else profile_status p;
     profile_updated_at := now |}.

(** [UPDATE driver_profiles SET documents_complete = FALSE, status = CASE ...
     END, updated_at = NOW() WHERE user_id = $1 RETURNING ...]. *)
Definition sql_mark_incomplete (driverId : string) (now : Z) (st : Store)
    : list IncompleteRow * Store :=
  let hit p := (user_id p =? driverId)%string in
  let profiles := map (fun p => if hit p then set_incomplete now p else p)
                      (driver_profiles st) in
  (map (fun p => {| i_user_id := user_id p;
                    i_documents_complete := documents_complete p;
                    i_status := profile_status p |})
       (filter hit profiles),
   {| driver_documents := driver_documents st; driver_profiles := profiles |}).

Definition requiredDocs : list string :=
  ["license"; "insurance"; "registration"; "profile_photo"].

(** The [for (const driverId of driverIds)] loop; [results] is the array
    being pushed to ([rows[0]] may be undefined). *)
Fixpoint forDriverIds (driverIds : list string)
    (results : list (option IncompleteRow)) : Async (list (option IncompleteRow)) :=
  match driverIds with
  | [] => ret results
  | driverId :: rest =>
      checkResult <- query (SelectApprovedRequired driverId)
                           (sql_check_approved driverId) ;;
      let approvedDocs := map fst checkResult in
      let allApproved :=
        forallb (fun doc => Js.includes approvedDocs doc) requiredDocs in
      if negb allApproved then
        updateResult <- query (UpdateProfileIncomplete driverId)
                              (sql_mark_incomplete driverId) ;;
        forDriverIds rest (results ++ [hd_error updateResult])
      else forDriverIds rest results
  end.

Definition updateDriverProfilesForExpiredDocs (expiredDocs : list ExpiredRow)
    : Async (list (option IncompleteRow)) :=
  match expiredDocs with
  | [] => ret []
  | _ =>
      let driverIds := Js.newSet (map x_driver_id expiredDocs) in
      forDriverIds driverIds []
  end.

(** Logs only; returns the number of documents. *)
Definition sendExpirationNotifications (expiringDocs : list ExpiringRow) : nat :=
  length expiringDocs.

Record Results : Type := mkResults {
  expiringDocuments : nat;
  expiredDocuments : nat;
  notificationsSent : nat;
  profilesUpdated : nat;
  errors : list string
}.

Inductive ResponseBody : Type :=
| Completed (message : string) (results : Results)
| Failed (error : string) (message : option string) (results : Results).

Record Response : Type := mkResponse {
  statusCode : Z;
  response_body : ResponseBody
}.

Definition results_of (r : Response) : Results :=
  match response_body r with
  | Completed _ results => results
  | Failed _ _ results => results
  end.

(** The [catch] block of the handler, entered with the [results] object as
    mutated so far. *)
Definition caught (LOG_LEVEL : string) (results : Results) (error : string)
    : Response :=
  {| statusCode := 500;
     response_body :=
       Failed "Document expiry check failed"
              (if (LOG_LEVEL =? "DEBUG")%string then Some error else None)
              {| expiringDocuments := expiringDocuments results;
                 expiredDocuments := expiredDocuments results;
                 notificationsSent := notificationsSent results;
                 profilesUpdated := profilesUpdated results;
                 errors := errors results ++ [error] |} |}.

(** One awaited step inside the handler's single [try]: a throw goes to the
    [catch] block, otherwise the rest of the body runs. *)
Definition attempt {A : Type} (LOG_LEVEL : string) (results : Results)
    (m : Async A) (k : A -> Env -> Conn -> Response * Conn)
    : Env -> Conn -> Response * Conn :=
  fun env c =>
    match m env c with
    | (Return a, c') => k a env c'
    | (Throw error, c') => (caught LOG_LEVEL results error, c')
    end.

Definition completed (results : Results) : Env -> Conn -> Response * Conn :=
  fun _ c =>
    ({| statusCode := 200;
        response_body := Completed "Document expiry check completed" results |},
     c).

Definition handler (LOG_LEVEL : string) : Env -> Conn -> Response * Conn :=
  let results0 :=
    {| expiringDocuments := 0; expiredDocuments := 0; notificationsSent := 0;
       profilesUpdated := 0; errors := [] |}%nat in
  attempt LOG_LEVEL results0 getDbConnection (fun _ =>
  attempt LOG_LEVEL results0 markExpiredDocuments (fun expiredDocs =>
  let results1 :=
    {| expiringDocuments := expiringDocuments results0;
       expiredDocuments := length expiredDocs;
       notificationsSent := notificationsSent results0;
       profilesUpdated := profilesUpdated results0;
       errors := errors results0 |} in
  attempt LOG_LEVEL results1
    (match expiredDocs with
     | [] => ret None
     | _ => updatedProfiles <- updateDriverProfilesForExpiredDocs expiredDocs ;;
            ret (Some (length updatedProfiles))
     end) (fun updated =>
  let results2 :=
    {| expiringDocuments := expiringDocuments results1;
       expiredDocuments := expiredDocuments results1;
       notificationsSent := notificationsSent results1;
       profilesUpdated := match updated with
                          | Some n => n
                          | None => profilesUpdated results1
                          end;
       errors := errors results1 |} in
  attempt LOG_LEVEL results2 (findExpiringDocuments 30) (fun expiringDocs =>
  let results3 :=
    {| expiringDocuments := length expiringDocs;
       expiredDocuments := expiredDocuments results2;
       notificationsSent := notificationsSent results2;
       profilesUpdated := profilesUpdated results2;
       errors := errors results2 |} in
  match expiringDocs with
  | [] => completed results3
  | _ =>
      let results4 :=
        {| expiringDocuments := expiringDocuments results3;
           expiredDocuments := expiredDocuments results3;
           notificationsSent := sendExpirationNotifications expiringDocs;
           profilesUpdated := profilesUpdated results3;
           errors := errors results3 |} in
      attempt LOG_LEVEL results4
        (markNotificationSent (map e_id expiringDocs))
        (fun _ => completed results4)
  end)))).

End Expiry.

(** ** Vocabulary of the properties *)

(** What a successful review leaves behind, as the composition of the
    statements of the handler's [try] block at transaction time [now]. *)
Module ReviewEffect.

Import Review.

(** The [reviewData] object the handler builds from the body. *)
Definition reviewDataOf (user : User) (b : Body) : ReviewData :=
  {| rd_status := match b_status b with Some s => s | None => "" end;
     rd_reviewerId := userId user;
     rd_rejectionReason := b_rejectionReason b;
     rd_notes := b_notes b;
     rd_documentNumber := b_documentNumber b;
     rd_issuingAuthority := b_issuingAuthority b;
     rd_issueDate := b_issueDate b;
     rd_expiryDate := b_expiryDate b |}.

(** [allApproved] as [checkAllDocumentsApproved] computes it on [st]. *)
Definition allApprovedIn (driverId : string) (now : Z) (st : Store) : bool :=
  forallb
    (fun doc =>
       Js.includes
         (map fst (fst (sql_select_approved driverId requiredDocs now st))) doc)
    requiredDocs.

Definition recompute_writes (driverId : string) (now : Z) (st : Store) : Store :=
  if allApprovedIn driverId now st
  then snd (sql_mark_complete driverId now st) else st.

Definition recompute_result (driverId : string) (now : Z) (st : Store)
    : VerificationStatus :=
  if allApprovedIn driverId now st
  then AllApproved (hd_error (fst (sql_mark_complete driverId now st)))
  else NotAllApproved
         (filter
            (fun doc =>
               negb (Js.includes
                       (map fst (fst (sql_select_approved driverId requiredDocs now st)))
                       doc))
            requiredDocs).

Definition recompute_statements (driverId : string) (now : Z) (st : Store)
    : list Stmt :=
  SelectApprovedRequired driverId ::
  (if allApprovedIn driverId now st then [UpdateProfileComplete driverId] else []).

(** [updateDriverProfile] for the reviewed row. *)
Definition reference_writes (document : DocumentRow) (documentId : string)
    (now : Z) (st : Store) : Store :=
  match columnMap (r_document_type document) with
  | Some column =>
      snd (sql_update_profile_column column documentId (r_driver_id document) now st)
  | None => st
  end.

Definition reference_statements (document : DocumentRow) : list Stmt :=
  match columnMap (r_document_type document) with
  | Some _ => [UpdateProfileColumn (r_driver_id document)]
  | None => []
  end.

Definition review_writes (now : Z) (documentId : string) (rd : ReviewData)
    (st : Store) : Store :=
  let (rows, st1) := sql_update_document documentId rd now st in
  match rows with
  | [] => st
  | document :: _ =>
      if (rd_status rd =? "approved")%string then
        recompute_writes (r_driver_id document) now
          (reference_writes document documentId now st1)
      else st1
  end.

Definition review_verification (now : Z) (documentId : string)
    (rd : ReviewData) (st : Store) : option VerificationStatus :=
  let (rows, st1) := sql_update_document documentId rd now st in
  match rows with
  | [] => None
  | document :: _ =>
      if (rd_status rd =? "approved")%string then
        Some (recompute_result (r_driver_id document) now
                (reference_writes document documentId now st1))
      else None
  end.

(** The statements between [BEGIN] and [COMMIT], after the document update. *)
Definition review_statements (now : Z) (documentId : string)
    (rd : ReviewData) (st : Store) : list Stmt :=
  let (rows, st1) := sql_update_document documentId rd now st in
  match rows with
  | [] => []
  | document :: _ =>
      if (rd_status rd =? "approved")%string then
        (reference_statements document ++
         recompute_statements (r_driver_id document) now
           (reference_writes document documentId now st1))%list
      else []
  end.

(** The cached aggregate of a profile row. *)
Definition aggregate (p : Profile) : string * bool * string :=
  (user_id p, documents_complete p, profile_status p).

End ReviewEffect.

Module Session.

(** No transaction block is left open on the connection. *)
Definition no_open_block (c : Conn) : Prop :=
  match tx c with
  | InTx _ _ => False
  | _ => True
  end.

(** [P] holds of what is committed and of the private copy of an open
    block. *)
Definition conn_ok (P : Store -> Prop) (c : Conn) : Prop :=
  P (committed c) /\
  match tx c with
  | InTx work _ => P work
  | _ => True
  end.

(** The tables as the session itself sees them. *)
Definition visible (c : Conn) : Store :=
  match tx c with
  | InTx work _ => work
  | _ => committed c
  end.

(** [NOW()] for statement number [k] sent on [c]: the start of the open
    block, or else the clock at that statement. *)
Definition statement_time (env : Env) (c : Conn) (k : nat) : Z :=
  match tx c with
  | InTx _ started => started
  | _ => clock env k
  end.

(** A computation on the connection keeps a table invariant. *)
Definition preserves {X : Type} (P : Store -> Prop)
    (m : Env -> Conn -> X * Conn) : Prop :=
  forall env c, conn_ok P c -> conn_ok P (snd (m env c)).

(** No statement numbered in [[a, b)] fails. *)
Definition clean (env : Env) (a b : nat) : Prop :=
  forall k, (a <= k < b)%nat -> fails env k = false.

(** On an idle connection, [m] throws exactly when one of its statements
    fails, and that statement is the last one it sends. *)
Definition stops_at_failure {A : Type} (m : Async A) : Prop :=
  forall env c,
    tx c = Idle ->
    let r := m env c in
    tx (snd r) = Idle /\ (seq c <= seq (snd r))%nat /\
    match fst r with
    | Return _ => clean env (seq c) (seq (snd r))
    | Throw _ =>
        (seq c < seq (snd r))%nat /\
        fails env (pred (seq (snd r))) = true /\
        clean env (seq c) (pred (seq (snd r)))
    end.

(** The statements sent between two states of the connection. *)
Definition new_statements (c c' : Conn) : list Stmt :=
  skipn (length (log c)) (log c').

(** How many times the approved-documents check ran for a driver. *)
Definition checks_of (driverId : string) (l : list Stmt) : nat :=
  length
    (filter
       (fun s =>
          match s with
          | SelectApprovedRequired d => (d =? driverId)%string
          | _ => false
          end)
       l).

End Session.

(** Connections reachable through the public operations, from a registry
    with no documents. *)
Module Lifecycle.

Definition fresh (profiles : list Profile) : Conn :=
  {| committed := {| driver_documents := []; driver_profiles := profiles |};
     tx := Idle; seq := 0; log := [] |}.

Inductive reachable : Conn -> Prop :=
| reach_fresh profiles : reachable (fresh profiles)
| reach_create s3 body user env c :
    reachable c ->
    reachable (snd (Upload.handleUploadRequest s3 body user env c))
| reach_review event user env c :
    reachable c ->
    reachable (snd (Review.handleReviewDocument event user env c))
| reach_sweep LOG_LEVEL env c :
    reachable c ->
    reachable (snd (Expiry.handler LOG_LEVEL env c)).

(** One direction of the rejection-reason rule, on a table. *)
Definition rejected_has_reason (st : Store) : Prop :=
  forall d, In d (driver_documents st) ->
            status d = "rejected" -> rejection_reason d <> None.

(** What a sweep may do to one row: only an approved row changes status,
    and only to expired. *)
Definition sweep_step (d d' : Document) : Prop :=
  id d' = id d /\
  (status d <> "approved" -> status d' = status d) /\
  (status d' = status d \/ status d' = "expired").

End Lifecycle.

Module Sweep.

(** How a sweep that could connect ends: with 200 and no error after a
    clean run, or with 500 and one error, the failing statement being the
    last one sent. *)
Definition ends_at_first_failure (env : Env) (c : Conn)
    (r : Expiry.Response * Conn) : Prop :=
  tx (snd r) = Idle /\ (seq c <= seq (snd r))%nat /\
  ((Expiry.statusCode (fst r) = 200 /\
    Expiry.errors (Expiry.results_of (fst r)) = [] /\
    Session.clean env (seq c) (seq (snd r)))
   \/
   (Expiry.statusCode (fst r) = 500 /\
    (exists e, Expiry.errors (Expiry.results_of (fst r)) = [e]) /\
    (seq c < seq (snd r))%nat /\
    fails env (pred (seq (snd r))) = true /\
    Session.clean env (seq c) (pred (seq (snd r))))).

(** The row the demotion pass returns for a document. *)
Definition expired_row (d : Document) : Expiry.ExpiredRow :=
  {| Expiry.x_id := id d; Expiry.x_driver_id := driver_id d;
     Expiry.x_document_type := document_type d;
     Expiry.x_expiry_date := expiry_date d |}.

End Sweep.

(** ** Sample data *)

Module Sample.

Definition doc (i drv ty st : string) (expiry : option Z) : Document :=
  {| id := i; driver_id := drv; tenant_id := None; document_type := ty;
     document_category := Upload.getDocumentCategory ty;
     s3_key := drv ++ "/" ++ ty ++ "/scan.pdf";
     s3_bucket := Upload.DOCUMENTS_BUCKET;
     file_name := "scan.pdf"; file_size_bytes := 2048;
     mime_type := "application/pdf";
     document_number := None; issuing_authority := None; issue_date := None;
     expiry_date := expiry; status := st;
     verified_at := None; verified_by := None;
     rejection_reason := None; notes := None;
     expiration_notified_at := None;
     created_at := 8000000; updated_at := 8000000 |}.

Definition profile (u : string) (complete : bool) (st : string) : Profile :=
  {| user_id := u;
     license_document := None; insurance_document := None;
     registration_document := None; inspection_document := None;
     profile_photo_document := None;
     documents_complete := complete;
     documents_verified_at := if complete then Some 8000500 else None;
     profile_status := st; profile_updated_at := 8000500 |}.

(** Day 100 after the epoch, one second per statement, nothing fails. *)
Definition env_ok : Env :=
  {| connects := true;
     fails := fun _ => false;
     clock := fun n => 8640000 + Z.of_nat n;
     uuid_generate_v4 := fun _ => "doc-1" |}.

(** The same, except that statement number [k] fails. *)
Definition env_failing (k : nat) : Env :=
  {| connects := true;
     fails := fun n => (n =? k)%nat;
     clock := fun n => 8640000 + Z.of_nat n;
     uuid_generate_v4 := fun _ => "doc-1" |}.

Definition conn (st : Store) : Conn :=
  {| committed := st; tx := Idle; seq := 0; log := [] |}.

Definition admin (name : string) : Review.User :=
  {| Review.userId := name; Review.isAdmin := true |}.

Definition review_body (st : string) (reason notes : option string) : Review.Body :=
  {| Review.b_status := Some st;
     Review.b_rejectionReason := reason;
     Review.b_notes := notes;
     Review.b_documentNumber := None;
     Review.b_issuingAuthority := None;
     Review.b_issueDate := None;
     Review.b_expiryDate := None |}.

Definition review_event (documentId st : string) (reason notes : option string)
    : Review.Event :=
  {| Review.pathParameters_documentId := Some documentId;
     Review.body := Review.Parsed (review_body st reason notes) |}.

(** A driver with the four required documents approved and a profile that
    is still waiting for them, plus a pending inspection report. *)
Definition four_approved : Store :=
  {| driver_documents :=
       [doc "lic" "driver-1" "license" "approved" (Some 400);
        doc "ins" "driver-1" "insurance" "approved" (Some 300);
        doc "reg" "driver-1" "registration" "approved" None;
        doc "pho" "driver-1" "profile_photo" "approved" None;
        doc "isp" "driver-1" "inspection" "pending" None];
     driver_profiles := [profile "driver-1" false "pending_documents"] |}.

(** The same driver once the aggregate says complete. *)
Definition complete_driver : Store :=
  {| driver_documents := driver_documents four_approved;
     driver_profiles := [profile "driver-1" true "active"] |}.

(** The connection after an administrator rejected that driver's license. *)
Definition license_rejected : Conn :=
  snd (Review.handleReviewDocument
         (review_event "lic" "rejected" (Some "forged") None)
         (admin "admin-2") env_ok (conn complete_driver)).

(** A license reviewed earlier by admin-1, and a license that expired. *)
Definition reviewed_license : Document :=
  {| id := "lic"; driver_id := "driver-1"; tenant_id := None;
     document_type := "license"; document_category := "identity";
     s3_key := "driver-1/license/scan.pdf";
     s3_bucket := Upload.DOCUMENTS_BUCKET;
     file_name := "scan.pdf"; file_size_bytes := 2048;
     mime_type := "application/pdf";
     document_number := Some "B-1234"; issuing_authority := Some "DMV";
     issue_date := Some 10; expiry_date := Some 400;
     status := "approved";
     verified_at := Some 8000500; verified_by := Some "admin-1";
     rejection_reason := None; notes := Some "checked against the photo";
     expiration_notified_at := None;
     created_at := 8000000; updated_at := 8000500 |}.

Definition one_reviewed : Store :=
  {| driver_documents := [reviewed_license];
     driver_profiles := [profile "driver-1" false "pending_documents"] |}.

Definition one_expired : Store :=
  {| driver_documents := [doc "lic" "driver-1" "license" "expired" (Some 90)];
     driver_profiles := [profile "driver-1" false "pending_documents"] |}.

(** Two drivers whose approved licenses ran out on day 99; driver-b also
    has an insurance policy that runs out on day 110. *)
Definition two_lapsed : Store :=
  {| driver_documents :=
       [doc "lic-a" "driver-a" "license" "approved" (Some 99);
        doc "lic-b" "driver-b" "license" "approved" (Some 99);
        doc "ins-b" "driver-b" "insurance" "approved" (Some 110)];
     driver_profiles :=
       [profile "driver-a" true "active"; profile "driver-b" true "active"] |}.

Definition s3 : Upload.S3 :=
  {| Upload.timestamp := "2025-01-01_1735689600000";
     Upload.getSignedUrl := fun key => Return ("https://s3.example/" ++ key) |}.

Definition driver : Upload.User :=
  {| Upload.userId := "driver-1"; Upload.tenantId := None |}.

Definition upload_license : Upload.Body :=
  {| Upload.documentType := Some "license";
     Upload.document_type_ := None;
     Upload.fileName := Some "my license.pdf";
     Upload.file_name_ := None;
     Upload.contentType := Some "application/pdf";
     Upload.content_type_ := None;
     Upload.fileSize := Some 2048;
     Upload.file_size_ := None |}.

(** An empty registry, then one upload, then one review of that upload. *)
Definition uploaded : Conn :=
  snd (Upload.handleUploadRequest s3 upload_license driver env_ok
         (Lifecycle.fresh [profile "driver-1" false "pending_documents"])).

Definition reviewed_pending : Conn :=
  snd (Review.handleReviewDocument
         (review_event "doc-1" "pending" (Some "blurry scan") None)
         (admin "admin-2") env_ok uploaded).

Definition reviewed_rejected : Conn :=
  snd (Review.handleReviewDocument
         (review_event "doc-1" "rejected" (Some "forged") None)
         (admin "admin-2") env_ok uploaded).

End Sample.

From Stdlib Require Import Sorting.Sorted.

(** ** document-review lambda: the exported handler *)

Module ReviewRoute.

(** The parts of the API Gateway event the exported handler reads. *)
Record HttpEvent : Type := mkHttpEvent {
  jwt_claims : option Review.Claims;
  http_method : string;
  rawPath : option string;
  http_path : string;
  request : Review.Event
}.

(** [p] taken off the front of [s]. *)
Fixpoint stripPrefix (p s : string) : option string :=
  match p with
  | EmptyString => Some s
  | String a p' =>
      match s with
      | EmptyString => None
      | String b s' => if Ascii.eqb a b then stripPrefix p' s' else None
      end
  end.

(** [[^/]+\/review$] from the start of [s]; [seen] says that the segment
    already has a character. *)
Fixpoint segmentThenReview (s : string) (seen : bool) : bool :=
  match s with
  | EmptyString => false
  | String a rest =>
      if Ascii.eqb a "/"%char then seen && (s =? "/review")%string
      else segmentThenReview rest true
  end.

Definition reviewRouteAt (s : string) : bool :=
  match stripPrefix "/admin/documents/" s with
  | Some rest => segmentThenReview rest false
  | None => false
  end.

(** [path.match(/\/admin\/documents\/[^/]+\/review$/)]: the pattern is tried
    at every position. *)
Fixpoint matchesReviewRoute (path : string) : bool :=
  if reviewRouteAt path then true
  else match path with
       | EmptyString => false
       | String _ rest => matchesReviewRoute rest
       end.

Inductive HttpBody : Type :=
| Routed (b : Review.ResponseBody)
| InternalServerError (error : string) (message : option string).

Record HttpResponse : Type := mkHttpResponse {
  http_statusCode : Z;
  http_headers : list (string * string);
  http_body : HttpBody
}.

Definition handler (LOG_LEVEL : string) (event : HttpEvent)
    : Env -> Conn -> HttpResponse * Conn :=
  fun env c =>
    let routed : Outcome Review.Response * Conn :=
      match Review.extractUserFromEvent (jwt_claims event) with
      | Throw e => (Throw e, c)
      | Return user =>
          let method := http_method event in
          let path := if Js.truthy (rawPath event)
                      then match rawPath event with Some p => p | None => "" end
                      else http_path event in
          if (method =? "PUT")%string && matchesReviewRoute path
          then Review.handleReviewDocument (request event) user env c
          else (Return {| Review.statusCode := 404;
                          Review.response_body := Review.ErrorBody "Not found" |},
                c)
      end in
    match routed with
    | (Return response, c') =>
        ({| http_statusCode := Review.statusCode response;
            http_headers :=
              [("Content-Type", "application/json");
               ("Access-Control-Allow-Origin", "*");
               ("Access-Control-Allow-Headers", "Content-Type,Authorization")];
            http_body := Routed (Review.response_body response) |},
         c')
    | (Throw error, c') =>
        ({| http_statusCode := 500;
            http_headers :=
              [("Content-Type", "application/json");
               ("Access-Control-Allow-Origin", "*")];
            http_body :=
              InternalServerError "Internal server error"
                (if (LOG_LEVEL =? "DEBUG")%string then Some error else None) |},
         c')
    end.

End ReviewRoute.

(** ** document-upload lambda: the verification status query *)

Module Verification.

(** A read of the upload lambda.  It takes a sequence number and can fail
    like any statement; it is not one of the statements of [Stmt], so the
    log does not show it. *)
Definition select {A : Type} (run : Z -> Store -> A) : Async A :=
  fun env c =>
    let n := seq c in
    let after (t : TxState) : Conn :=
      {| committed := committed c; tx := t; seq := S n; log := log c |} in
    if fails env n then (Throw "database error", after (after_failure (tx c)))
    else
      match tx c with
      | Idle => (Return (run (clock env n) (committed c)), after Idle)
      | InTx work started => (Return (run started work), after (InTx work started))
      | Aborted => (Throw "current transaction is aborted", after Aborted)
      end.

(** [ORDER BY created_at DESC], as a stable insertion sort. *)
Fixpoint insert_by_created (d : Document) (l : list Document) : list Document :=
  match l with
  | [] => [d]
  | h :: t =>
      if created_at d <=? created_at h then h :: insert_by_created d t
      else d :: l
  end.

Definition newest_first (l : list Document) : list Document :=
  fold_left (fun acc d => insert_by_created d acc) l [].

(** The columns of the documents query. *)
Record DocRow : Type := mkDocRow {
  q_document_type : string;
  q_status : string;
  q_expiry_date : option Z;
  q_verified_at : option Z
}.

(** [SELECT document_type, status, expiry_date, verified_at
     FROM driver_documents WHERE driver_id = $1 ORDER BY created_at DESC]. *)
Definition sql_driver_documents (driverId : string) (now : Z) (st : Store)
    : list DocRow :=
  map (fun d => {| q_document_type := document_type d; q_status := status d;
                   q_expiry_date := expiry_date d;
                   q_verified_at := verified_at d |})
      (newest_first
         (filter (fun d => (driver_id d =? driverId)%string)
                 (driver_documents st))).

(** The columns of the profile query. *)
Record ProfileRow : Type := mkProfileRow {
  q_documents_complete : bool;
  q_documents_verified_at : option Z;
  q_profile_status : string
}.

(** [SELECT documents_complete, documents_verified_at, status as
     profile_status FROM driver_profiles WHERE user_id = $1]. *)
Definition sql_profile (driverId : string) (now : Z) (st : Store)
    : list ProfileRow :=
  map (fun p => {| q_documents_complete := documents_complete p;
                   q_documents_verified_at := documents_verified_at p;
                   q_profile_status := profile_status p |})
      (filter (fun p => (user_id p =? driverId)%string) (driver_profiles st)).

Record Summary : Type := mkSummary {
  driverId : string;
  verificationComplete : bool;
  documentsComplete : bool;
  verifiedAt : option Z;
  profileStatus : option string;
  requiredDocuments : list (string * string);
  missingDocuments : list string;
  totalDocuments : nat;
  allDocuments : list DocRow
}.

Inductive ResponseBody : Type :=
| ErrorBody (error : string)
| StatusBody (summary : Summary).

Record Response : Type := mkResponse {
  statusCode : Z;
  response_body : ResponseBody
}.

Definition requiredDocs : list string :=
  ["license"; "insurance"; "registration"; "profile_photo"].

(** [rows.find(d => d.document_type === docType)]. *)
Definition findType (rows : list DocRow) (docType : string) : option DocRow :=
  find (fun d => (q_document_type d =? docType)%string) rows.

(** The [requiredDocs.forEach] loop: the status recorded for a type, and
    whether the type is pushed to [missingDocs]. *)
Definition statusOf (rows : list DocRow) (docType : string) : string :=
  match findType rows docType with
  | Some doc => q_status doc
  | None => "missing"
  end.

Definition isMissing (rows : list DocRow) (docType : string) : bool :=
  match findType rows docType with
  | Some doc => negb (q_status doc =? "approved")%string
  | None => true
  end.

Definition handleGetVerificationStatus (pathDriverId : option string)
    (user : Upload.User) : Async Response :=
  if negb (match pathDriverId with
           | Some i => (i =? Upload.userId user)%string
           | None => false
           end)
  then ret {| statusCode := 403; response_body := ErrorBody "Forbidden" |}
  else
    let driverId := Upload.userId user in
    getDbConnection ;;;
    docsResult <- select (sql_driver_documents driverId) ;;
    profileResult <- select (sql_profile driverId) ;;
    let docStatuses := map (fun docType => (docType, statusOf docsResult docType))
                           requiredDocs in
    let missingDocs := filter (isMissing docsResult) requiredDocs in
    let allDocsApproved := (length missingDocs =? 0)%nat in
    ret {| statusCode := 200;
           response_body :=
             StatusBody
               {| driverId := driverId;
                  verificationComplete := allDocsApproved;
                  documentsComplete :=
                    match hd_error profileResult with
                    | Some row => q_documents_complete row
                    | None => false
                    end;
                  verifiedAt :=
                    match hd_error profileResult with
                    | Some row => q_documents_verified_at row
                    | None => None
                    end;
                  profileStatus := option_map q_profile_status (hd_error profileResult);
                  requiredDocuments := docStatuses;
                  missingDocuments := missingDocs;
                  totalDocuments := length docsResult;
                  allDocuments := docsResult |} |}.

End Verification.

Module Outcomes.

(** Whatever [m] returns (rather than throws) satisfies [Q]. *)
Definition returns_only {A : Type} (Q : A -> Prop) (m : Async A) : Prop :=
  forall env c a c', m env c = (Return a, c') -> Q a.

(** No character of [s] is a slash. *)
Definition noSlash (s : string) : Prop :=
  forall a, In a (list_ascii_of_string s) -> a <> "/"%char.

(** [event.rawPath || event.requestContext.http.path]. *)
Definition requestPath (event : ReviewRoute.HttpEvent) : string :=
  if Js.truthy (ReviewRoute.rawPath event)
  then match ReviewRoute.rawPath event with Some p => p | None => "" end
  else ReviewRoute.http_path event.

(** What a write aimed at one driver may do to a profile row. *)
Definition only_driver (driverId : string) (p p' : Profile) : Prop :=
  user_id p' = user_id p /\ (user_id p <> driverId -> p' = p).

(** The number of '/' in a string. *)
Fixpoint slashes (s : string) : nat :=
  match s with
  | EmptyString => 0
  | String a rest =>
      if Ascii.eqb a "/" then S (slashes rest) else slashes rest
  end.

End Outcomes.

Module SweepEffect.

(** [allApproved] as the profile pass of the sweep computes it for a
    driver on [st]. *)
Definition allApprovedFor (driverId : string) (st : Store) : bool :=
  forallb
    (fun doc =>
       Js.includes (map fst (fst (Expiry.sql_check_approved driverId 0 st))) doc)
    Expiry.requiredDocs.

(** What the profile pass for the drivers [driverIds] does to a profile
    row, the documents being those of [st]: the row of a listed driver who
    lacks an approved required document is marked incomplete at some time,
    any other row is kept. *)
Definition pass_rel (driverIds : list string) (st : Store) (p p' : Profile)
    : Prop :=
  if Js.includes driverIds (user_id p) && negb (allApprovedFor (user_id p) st)
  then exists now, p' = Expiry.set_incomplete now p
  else p' = p.

(** The row [findExpiringDocuments] returns for a document. *)
Definition expiring_row (now : Z) (d : Document) : Expiry.ExpiringRow :=
  let e := match expiry_date d with Some e => e | None => 0 end in
  {| Expiry.e_id := id d; Expiry.e_driver_id := driver_id d;
     Expiry.e_document_type := document_type d;
     Expiry.e_file_name := file_name d;
     Expiry.e_expiry_date := e;
     Expiry.e_expiration_notified_at := expiration_notified_at d;
     Expiry.e_days_until_expiry := e - Sql.CURRENT_DATE now |}.

(** Order of the rows of the near-expiry query. *)
Definition by_expiry (a b : Expiry.ExpiringRow) : Prop :=
  Expiry.e_expiry_date a <= Expiry.e_expiry_date b.

(** The statements of the profile pass. *)
Definition pass_statement (s : Stmt) : bool :=
  match s with
  | SelectApprovedRequired _ | UpdateProfileIncomplete _ => true
  | _ => false
  end.

(** Whether the demotion update at [now] expires a document of the
    driver on [st]. *)
Definition affected (now : Z) (st : Store) (driverId : string) : bool :=
  existsb (fun d => Expiry.past_expiry now d
                    && (driver_id d =? driverId)%string)
          (driver_documents st).

End SweepEffect.

(** ** More sample data *)

Module Cases.

(** Day 100 after the epoch for every statement, nothing fails. *)
Definition env_same_day : Env :=
  {| connects := true;
     fails := fun _ => false;
     clock := fun _ => 8640000;
     uuid_generate_v4 := fun _ => "doc-1" |}.

End Cases.

(** * Properties *)

(** ** The connection monad *)

Module SessionFacts.

Import Session.

Section Invariance.

Variable P : Store -> Prop.

Lemma preserves_ret {A : Type} (a : A) : preserves P (ret a).
Proof. intros env c H. exact H. Qed.

Lemma preserves_throw {A : Type} (e : string) : preserves P (@throw A e).
Proof. intros env c H. exact H. Qed.

Lemma preserves_bind {A B : Type} (m : Async A) (k : A -> Async B) :
  preserves P m -> (forall a, preserves P (k a)) -> preserves P (bind m k).
Proof.
  intros Hm Hk env c H. unfold bind.
  specialize (Hm env c H).
  destruct (m env c) as [[a | e] c1]; cbn in *.
  - apply Hk, Hm.
  - exact Hm.
Qed.

Lemma preserves_try_catch {A : Type} (m : Async A) (h : string -> Async A) :
  preserves P m -> (forall e, preserves P (h e)) -> preserves P (try_catch m h).
Proof.
  intros Hm Hh env c H. unfold try_catch.
  specialize (Hm env c H).
  destruct (m env c) as [[a | e] c1]; cbn in *.
  - exact Hm.
  - apply Hh, Hm.
Qed.

Lemma preserves_query {A : Type} (s : Stmt) (run : Z -> Store -> A * Store) :
  (forall now st, P st -> P (snd (run now st))) -> preserves P (query s run).
Proof.
  intros Hrun env [st t n lg] [Hc Ht]; cbn in Hc, Ht.
  unfold query; cbn.
  destruct (fails env n).
  - destruct t; split; cbn; auto.
  - destruct t as [| work started |]; cbn.
    + specialize (Hrun (clock env n) st Hc).
      destruct (run (clock env n) st) as [a st']. split; cbn; auto.
    + specialize (Hrun started work Ht).
      destruct (run started work) as [a work']. split; cbn; auto.
    + split; cbn; auto.
Qed.

Lemma preserves_BEGIN : preserves P query_BEGIN.
Proof.
  intros env [st t n lg] [Hc Ht]; cbn in Hc, Ht.
  unfold query_BEGIN; cbn.
  destruct (fails env n); destruct t; split; cbn; auto.
Qed.

Lemma preserves_COMMIT : preserves P query_COMMIT.
Proof.
  intros env [st t n lg] [Hc Ht]; cbn in Hc, Ht.
  unfold query_COMMIT; cbn.
  destruct (fails env n); destruct t; split; cbn; auto.
Qed.

Lemma preserves_ROLLBACK : preserves P query_ROLLBACK.
Proof.
  intros env [st t n lg] [Hc Ht]; cbn in Hc, Ht.
  unfold query_ROLLBACK; cbn.
  destruct (fails env n); destruct t; split; cbn; auto.
Qed.

Lemma preserves_getDbConnection : preserves P getDbConnection.
Proof.
  intros env c H. unfold getDbConnection.
  destruct (connects env); exact H.
Qed.

End Invariance.

Create HintDb session.

#[export] Hint Resolve preserves_ret preserves_throw preserves_BEGIN
  preserves_COMMIT preserves_ROLLBACK preserves_getDbConnection : session.

(** The log only grows. *)
Lemma new_statements_app (c c' : Conn) (delta : list Stmt) :
  log c' = (log c ++ delta)%list -> new_statements c c' = delta.
Proof.
  intros H. unfold new_statements. rewrite H.
  rewrite skipn_app, skipn_all, Nat.sub_diag. reflexivity.
Qed.

Section Faults.

Lemma clean_empty env a : clean env a a.
Proof. intros k Hk. lia. Qed.

Lemma clean_join env a b c :
  clean env a b -> clean env b c -> clean env a c.
Proof.
  intros H1 H2 k Hk.
  destruct (Nat.lt_ge_cases k b); [apply H1 | apply H2]; lia.
Qed.

Lemma clean_one env a : fails env a = false -> clean env a (S a).
Proof. intros H k Hk. replace k with a by lia. exact H. Qed.

Lemma stops_ret {A : Type} (a : A) : stops_at_failure (ret a).
Proof.
  intros env c H; cbn. repeat split; auto. apply clean_empty.
Qed.

Lemma stops_query {A : Type} (s : Stmt) (run : Z -> Store -> A * Store) :
  stops_at_failure (query s run).
Proof.
  intros env [st t n lg] H; cbn in H; subst t.
  unfold query; cbn.
  destruct (fails env n) eqn:F; cbn.
  - repeat split; auto. apply clean_empty.
  - destruct (run (clock env n) st) as [a st']; cbn.
    repeat split; auto. apply clean_one, F.
Qed.

Lemma stops_bind {A B : Type} (m : Async A) (k : A -> Async B) :
  stops_at_failure m -> (forall a, stops_at_failure (k a)) ->
  stops_at_failure (bind m k).
Proof.
  intros Hm Hk env c H. unfold bind.
  specialize (Hm env c H). cbn in Hm.
  destruct (m env c) as [[a | e] c1]; cbn in *.
  - destruct Hm as (Ht & Hle & Hcl).
    specialize (Hk a env c1 Ht). cbn in Hk.
    destruct (k a env c1) as [[b | e] c2]; cbn in *.
    + destruct Hk as (Ht2 & Hle2 & Hcl2).
      repeat split; auto; [lia | eapply clean_join; eauto].
    + destruct Hk as (Ht2 & Hle2 & Hlt & Hf & Hcl2).
      repeat split; auto; [lia | lia | eapply clean_join; eauto].
  - exact Hm.
Qed.

End Faults.

End SessionFacts.

(** ** The review handler *)

Module ReviewFacts.

Import Review ReviewEffect Session.

#[local] Arguments sql_update_document : simpl never.
#[local] Arguments sql_update_profile_column : simpl never.
#[local] Arguments sql_select_approved : simpl never.
#[local] Arguments sql_mark_complete : simpl never.
#[local] Arguments Js.includes : simpl never.
#[local] Arguments Js.truthy : simpl never.
#[local] Arguments String.eqb : simpl never.
#[local] Arguments columnMap : simpl never.
#[local] Arguments forallb : simpl never.
#[local] Arguments filter : simpl never.
#[local] Arguments reviewDataOf : simpl never.

(** Case split on whether the next statement fails. *)
Ltac fault :=
  match goal with
  | |- context [fails ?e ?k] => destruct (fails e k) eqn:?; cbn
  end.

Ltac recall :=
  repeat match goal with
         | H : ?l = _ |- context [?l] => rewrite H; cbn
         end.

(** A run that ended in the [catch] block. *)
Ltac thrown := right; left; cbn; repeat fault; eexists; cbn; repeat split.

(** A run that reached [COMMIT]. *)
Ltac reviewed b documentId document :=
  right; right; exists b, documentId, document;
  unfold review_writes, review_verification, review_statements,
    reference_writes, reference_statements, recompute_writes,
    recompute_result, recompute_statements, allApprovedIn;
  cbn; recall; rewrite <- ?app_assoc; repeat split; auto.

(** Every run of the handler on an idle connection is of one of three
    kinds: refused before the connection is used, thrown with nothing
    published, or committed with the whole effect published. *)
Lemma handleReviewDocument_cases env event user c :
  tx c = Idle ->
  let out := fst (handleReviewDocument event user env c) in
  let c' := snd (handleReviewDocument event user env c) in
  let now := clock env (seq c) in
  (exists resp, out = Return resp /\ statusCode resp <> 200 /\ c' = c)
  \/ (exists e, out = Throw e /\ committed c' = committed c /\ no_open_block c')
  \/ (exists b documentId document,
        isAdmin user = true /\
        pathParameters_documentId event = Some documentId /\
        body event = Parsed b /\
        Js.includes validStatuses (rd_status (reviewDataOf user b)) = true /\
        ((rd_status (reviewDataOf user b) =? "rejected")%string
         && negb (Js.truthy (b_rejectionReason b)) = false) /\
        hd_error (fst (sql_update_document documentId (reviewDataOf user b)
                         now (committed c))) = Some document /\
        out = Return {| statusCode := 200;
                        response_body :=
                          Reviewed "Document reviewed successfully" document
                            (review_verification now documentId
                               (reviewDataOf user b) (committed c)) |} /\
        tx c' = Idle /\
        committed c' = review_writes now documentId (reviewDataOf user b)
                         (committed c) /\
        log c' = (log c ++ [BEGIN; UpdateDocumentStatus documentId]
                    ++ review_statements now documentId (reviewDataOf user b)
                         (committed c)
                    ++ [COMMIT])%list).
Proof.
  destruct c as [st t n lg]. cbn [tx seq committed log]. intros ->.
  unfold handleReviewDocument.
  destruct (isAdmin user) eqn:Hadm; cbn [negb].
  2:{ left. eexists. cbn. repeat split. discriminate. }
  destruct (pathParameters_documentId event) as [documentId|] eqn:Hid.
  2:{ left. eexists. cbn. repeat split. discriminate. }
  destruct (Js.truthy (Some documentId)) eqn:Htid; cbn [negb].
  2:{ left. eexists. cbn. repeat split. discriminate. }
  destruct (body event) as [|b] eqn:Hb.
  { right. left. eexists. cbn. repeat split. }
  destruct (b_status b) as [s|] eqn:Hs.
  2:{ left. eexists. cbn. repeat split. discriminate. }
  destruct (negb (Js.truthy (Some s)) || negb (Js.includes validStatuses s))
    eqn:Hvalid.
  { left. eexists. cbn. repeat split. discriminate. }
  apply orb_false_elim in Hvalid. destruct Hvalid as [_ Hvalid].
  apply negb_false_iff in Hvalid.
  destruct ((s =? "rejected")%string && negb (Js.truthy (b_rejectionReason b)))
    eqn:Hrej.
  { left. eexists. cbn. repeat split. discriminate. }
  assert (Hrd : reviewDataOf user b =
                {| rd_status := s; rd_reviewerId := userId user;
                   rd_rejectionReason := b_rejectionReason b;
                   rd_notes := b_notes b;
                   rd_documentNumber := b_documentNumber b;
                   rd_issuingAuthority := b_issuingAuthority b;
                   rd_issueDate := b_issueDate b;
                   rd_expiryDate := b_expiryDate b |}).
  { unfold reviewDataOf. rewrite Hs. reflexivity. }
  rewrite <- Hrd.
  assert (Hst : rd_status (reviewDataOf user b) = s) by (rewrite Hrd; reflexivity).
  cbv beta delta [bind try_catch getDbConnection query_BEGIN updateDocumentStatus
    updateDriverProfile checkAllDocumentsApproved
    query query_ROLLBACK query_COMMIT throw ret]. cbn.
  destruct (connects env); cbn.
  2:{ right. left. eexists. cbn. repeat split. }
  fault. { thrown. }
  fault. { thrown. }
  destruct (sql_update_document documentId (reviewDataOf user b) (clock env n) st)
    as [rows st1] eqn:Hupd.
  destruct rows as [|document rows]. { thrown. }
  destruct (s =? "approved")%string eqn:Happ; cbn.
  2:{ fault. { thrown. } reviewed b documentId document. }
  destruct (columnMap (r_document_type document)) as [column|] eqn:Hcol; cbn.
  - fault. { thrown. }
    destruct (sql_update_profile_column column documentId (r_driver_id document)
                (clock env n) st1) as [[] st2] eqn:Hcolw.
    cbn. fault. { thrown. }
    destruct (sql_select_approved (r_driver_id document) requiredDocs
                (clock env n) st2) as [sel st2'] eqn:Hsel.
    assert (st2' = st2) by (unfold sql_select_approved in Hsel; congruence).
    subst st2'. cbn.
    destruct (forallb (fun doc => Js.includes (map fst sel) doc) requiredDocs)
      eqn:Hall; cbn.
    + fault. { thrown. }
      destruct (sql_mark_complete (r_driver_id document) (clock env n) st2)
        as [upd st3] eqn:Hmc.
      cbn. fault. { thrown. }
      reviewed b documentId document.
    + fault. { thrown. }
      reviewed b documentId document.
  - fault. { thrown. }
    destruct (sql_select_approved (r_driver_id document) requiredDocs
                (clock env n) st1) as [sel st2'] eqn:Hsel.
    assert (st2' = st1) by (unfold sql_select_approved in Hsel; congruence).
    subst st2'. cbn.
    destruct (forallb (fun doc => Js.includes (map fst sel) doc) requiredDocs)
      eqn:Hall; cbn.
    + fault. { thrown. }
      destruct (sql_mark_complete (r_driver_id document) (clock env n) st1)
        as [upd st3] eqn:Hmc.
      cbn. fault. { thrown. }
      reviewed b documentId document.
    + fault. { thrown. }
      reviewed b documentId document.
Qed.

(** C7. A review call asking for 'rejected' without a rejectionReason
    (absent or empty) is answered before the connection is used: an
    administrator gets status 400 (with the rejectionReason message when the
    path carries a document id), any other caller 403, and the connection --
    committed tables, transaction block, statement counter and log -- is
    exactly as before. *)
Theorem rejected_without_reason_is_refused env event user c b :
  body event = Parsed b ->
  b_status b = Some "rejected" ->
  Js.truthy (b_rejectionReason b) = false ->
  exists resp,
    handleReviewDocument event user env c = (Return resp, c) /\
    (isAdmin user = true -> statusCode resp = 400) /\
    (isAdmin user = false -> statusCode resp = 403) /\
    (isAdmin user = true ->
     Js.truthy (pathParameters_documentId event) = true ->
     response_body resp =
       ErrorBody "rejectionReason is required when status is rejected").
Proof.
  intros Hb Hs Hr. unfold handleReviewDocument.
  destruct (isAdmin user); cbn [negb].
  2:{ eexists. split; [reflexivity|]. cbn. repeat split; auto; discriminate. }
  destruct (Js.truthy (pathParameters_documentId event)); cbn [negb].
  2:{ eexists. split; [reflexivity|]. cbn. repeat split; auto; discriminate. }
  rewrite Hb, Hs, Hr.
  eexists. split; [reflexivity|]. cbn. repeat split; auto; discriminate.
Qed.

Lemma rejected_without_reason_is_refused_witness :
  exists resp,
    handleReviewDocument (Sample.review_event "lic" "rejected" None None)
      (Sample.admin "admin-2") Sample.env_ok (Sample.conn Sample.one_reviewed)
    = (Return resp, Sample.conn Sample.one_reviewed) /\
    statusCode resp = 400.
Proof.
  destruct (rejected_without_reason_is_refused Sample.env_ok
              (Sample.review_event "lic" "rejected" None None)
              (Sample.admin "admin-2") (Sample.conn Sample.one_reviewed)
              (Sample.review_body "rejected" None None)
              eq_refl eq_refl eq_refl) as (resp & Hrun & Hadmin & _).
  exists resp. split; [exact Hrun | exact (Hadmin eq_refl)].
Defined.

(** A run that threw cannot have returned a response. *)
Ltac failed := repeat fault; intros resp E; discriminate E.

(** A run that reached its end: every statement number it used was met by
    a case split that found no failure. *)
Ltac sent_all :=
  intros resp _ k Hk; cbn in Hk;
  repeat match goal with
         | H : fails _ ?j = false |- _ =>
             destruct (Nat.eq_dec k j) as [-> | ?]; [exact H | clear H]
         end;
  exfalso; lia.

(** A review answered with a response sent no statement that failed. *)
Lemma handleReviewDocument_faults env event user c :
  tx c = Idle ->
  forall resp,
    fst (handleReviewDocument event user env c) = Return resp ->
    clean env (seq c) (seq (snd (handleReviewDocument event user env c))).
Proof.
  destruct c as [st t n lg]. cbn [tx seq committed log]. intros ->.
  unfold handleReviewDocument.
  destruct (isAdmin user); cbn [negb].
  2:{ intros resp _ k Hk. unfold Js.truthy in Hk. cbn in Hk. exfalso. lia. }
  destruct (pathParameters_documentId event) as [documentId|].
  2:{ intros resp _ k Hk. unfold Js.truthy in Hk. cbn in Hk. exfalso. lia. }
  destruct (Js.truthy (Some documentId)); cbn [negb].
  2:{ intros resp _ k Hk. unfold Js.truthy in Hk. cbn in Hk. exfalso. lia. }
  destruct (body event) as [|b].
  { intros resp E. discriminate E. }
  destruct (b_status b) as [s|].
  2:{ intros resp _ k Hk. unfold Js.truthy in Hk. cbn in Hk. exfalso. lia. }
  destruct (negb (Js.truthy (Some s)) || negb (Js.includes validStatuses s)).
  { intros resp _ k Hk. unfold Js.truthy in Hk. cbn in Hk. exfalso. lia. }
  destruct ((s =? "rejected")%string && negb (Js.truthy (b_rejectionReason b))).
  { intros resp _ k Hk. unfold Js.truthy in Hk. cbn in Hk. exfalso. lia. }
  cbv beta delta [bind try_catch getDbConnection query_BEGIN updateDocumentStatus
    updateDriverProfile checkAllDocumentsApproved
    query query_ROLLBACK query_COMMIT throw ret]. cbn.
  destruct (connects env); cbn; [|intros resp E; discriminate E].
  fault. { failed. }
  fault. { failed. }
  destruct (sql_update_document _ _ _ _) as [rows st1].
  destruct rows as [|document rows]. { failed. }
  destruct (s =? "approved")%string; cbn.
  2:{ fault. { failed. } sent_all. }
  destruct (columnMap (r_document_type document)) as [column|]; cbn.
  - fault. { failed. }
    destruct (sql_update_profile_column _ _ _ _ _) as [[] st2].
    cbn. fault. { failed. }
    destruct (sql_select_approved _ _ _ _) as [sel st2'].
    cbn. destruct (forallb _ _); cbn.
    + fault. { failed. }
      destruct (sql_mark_complete _ _ _) as [upd st3].
      cbn. fault. { failed. }
      sent_all.
    + fault. { failed. }
      sent_all.
  - fault. { failed. }
    destruct (sql_select_approved _ _ _ _) as [sel st2'].
    cbn. destruct (forallb _ _); cbn.
    + fault. { failed. }
      destruct (sql_mark_complete _ _ _) as [upd st3].
      cbn. fault. { failed. }
      sent_all.
    + fault. { failed. }
      sent_all.
Qed.

Lemma sql_update_document_hits documentId rd now st :
  (exists d, In d (driver_documents st) /\ id d = documentId) ->
  fst (sql_update_document documentId rd now st) <> [].
Proof.
  unfold sql_update_document; cbn [fst]. intros (d & Hin & Hid) Hnil.
  apply map_eq_nil in Hnil.
  assert (Hd : In (set_review now rd d)
                  (filter (fun d0 => (id d0 =? documentId)%string)
                     (map (fun d0 => if (id d0 =? documentId)%string
                                     then set_review now rd d0 else d0)
                          (driver_documents st)))).
  { apply filter_In. split.
    - apply in_map_iff. exists d. split; [|exact Hin].
      rewrite (proj2 (String.eqb_eq _ _) Hid). reflexivity.
    - cbn [id set_review]. apply String.eqb_eq, Hid. }
  rewrite Hnil in Hd. contradiction.
Qed.

(** The returned row is the rewritten form of a stored document with the
    requested id. *)
Lemma returned_row_fields now documentId rd st document :
  hd_error (fst (sql_update_document documentId rd now st)) = Some document ->
  r_id document = documentId /\ r_status document = rd_status rd.
Proof.
  unfold sql_update_document; cbn [fst]. intros Hrow.
  destruct (filter _ _) as [|d' rest] eqn:Hf in Hrow; [discriminate|].
  cbn in Hrow. injection Hrow as <-.
  assert (Hin : In d' (d' :: rest)) by (left; reflexivity).
  rewrite <- Hf in Hin. apply filter_In in Hin. destruct Hin as [Hin Hhit].
  apply String.eqb_eq in Hhit.
  apply in_map_iff in Hin. destruct Hin as (d & Hd & Hin).
  split; [exact Hhit|].
  destruct (id d =? documentId)%string eqn:E.
  - subst d'. reflexivity.
  - subst d'. apply String.eqb_neq in E. contradiction.
Qed.

(** A well-formed review of a stored document by an administrator, with
    the database reachable and none of its statements failing, is answered
    200. *)
Lemma handleReviewDocument_commits env event user c b documentId s :
  tx c = Idle ->
  isAdmin user = true ->
  pathParameters_documentId event = Some documentId ->
  documentId <> "" ->
  body event = Parsed b ->
  b_status b = Some s ->
  In s validStatuses ->
  (s = "rejected" -> Js.truthy (b_rejectionReason b) = true) ->
  connects env = true ->
  (exists d, In d (driver_documents (committed c)) /\ id d = documentId) ->
  clean env (seq c) (seq c + 6) ->
  exists document vs,
    fst (handleReviewDocument event user env c)
    = Return {| statusCode := 200;
                response_body :=
                  Reviewed "Document reviewed successfully" document vs |}.
Proof.
  destruct c as [st t n lg]. cbn [tx seq committed log].
  intros -> Hadm Hid Hne Hb Hs Hvalid Hreason Hconn Hex Hclean.
  assert (H0 : fails env n = false) by (apply Hclean; lia).
  assert (H1 : fails env (S n) = false) by (apply Hclean; lia).
  assert (H2 : fails env (S (S n)) = false) by (apply Hclean; lia).
  assert (H3 : fails env (S (S (S n))) = false) by (apply Hclean; lia).
  assert (H4 : fails env (S (S (S (S n)))) = false) by (apply Hclean; lia).
  assert (H5 : fails env (S (S (S (S (S n))))) = false) by (apply Hclean; lia).
  unfold handleReviewDocument.
  rewrite Hadm, Hid, Hb, Hs. cbn [negb].
  assert (Htid : Js.truthy (Some documentId) = true).
  { unfold Js.truthy. apply negb_true_iff. apply String.eqb_neq. exact Hne. }
  rewrite Htid. cbn [negb].
  assert (Hnz : Js.truthy (Some s) = true).
  { unfold Js.truthy. apply negb_true_iff. apply String.eqb_neq. intros ->.
    repeat (destruct Hvalid as [Hvalid | Hvalid]; [discriminate|]).
    contradiction. }
  rewrite Hnz.
  assert (Hinc : Js.includes validStatuses s = true).
  { unfold Js.includes. apply existsb_exists. exists s.
    split; [exact Hvalid | apply String.eqb_refl]. }
  rewrite Hinc. cbn [negb orb].
  assert (Hrej : (s =? "rejected")%string
                 && negb (Js.truthy (b_rejectionReason b)) = false).
  { destruct (s =? "rejected")%string eqn:E; [|reflexivity].
    apply String.eqb_eq in E. rewrite (Hreason E). reflexivity. }
  rewrite Hrej.
  cbv beta delta [bind try_catch getDbConnection query_BEGIN updateDocumentStatus
    updateDriverProfile checkAllDocumentsApproved
    query query_ROLLBACK query_COMMIT throw ret]. cbn.
  rewrite Hconn. cbn. rewrite ?H0, ?H1. cbn. rewrite ?H0, ?H1. cbn.
  match goal with
  | |- context [sql_update_document documentId ?rd (clock env n) st] =>
      pose proof (sql_update_document_hits documentId rd (clock env n) st Hex)
        as Hhit;
      destruct (sql_update_document documentId rd (clock env n) st)
        as [rows st1] eqn:Hupd
  end.
  cbn [fst] in Hhit.
  destruct rows as [|document rows]; [exfalso; apply Hhit; reflexivity|].
  cbn. destruct (s =? "approved")%string; cbn.
  - destruct (columnMap (r_document_type document)); cbn;
      rewrite ?H2, ?H3, ?H4, ?H5; cbn.
    + destruct (sql_update_profile_column _ _ _ _ _) as [[] st2]. cbn.
      rewrite ?H2, ?H3, ?H4, ?H5. cbn.
      destruct (sql_select_approved _ _ _ _) as [sel st3]. cbn.
      destruct (forallb _ _); cbn; rewrite ?H2, ?H3, ?H4, ?H5; cbn.
      * destruct (sql_mark_complete _ _ _) as [upd st4]. cbn.
        rewrite ?H2, ?H3, ?H4, ?H5. cbn. eexists. eexists. reflexivity.
      * eexists. eexists. reflexivity.
    + destruct (sql_select_approved _ _ _ _) as [sel st3]. cbn.
      destruct (forallb _ _); cbn; rewrite ?H2, ?H3, ?H4, ?H5; cbn.
      * destruct (sql_mark_complete _ _ _) as [upd st4]. cbn.
        rewrite ?H2, ?H3, ?H4, ?H5. cbn. eexists. eexists. reflexivity.
      * eexists. eexists. reflexivity.
  - rewrite ?H2, ?H3, ?H4, ?H5. cbn. eexists. eexists. reflexivity.
Qed.


(** *** What a committed review did to the documents table *)

Lemma sql_update_document_documents documentId rd now st :
  driver_documents (snd (sql_update_document documentId rd now st)) =
  map (fun d => if (id d =? documentId)%string then set_review now rd d else d)
      (driver_documents st).
Proof. reflexivity. Qed.

Lemma sql_update_document_profiles documentId rd now st :
  driver_profiles (snd (sql_update_document documentId rd now st)) =
  driver_profiles st.
Proof. reflexivity. Qed.

Lemma reference_writes_documents document documentId now st :
  driver_documents (reference_writes document documentId now st) =
  driver_documents st.
Proof.
  unfold reference_writes. destruct (columnMap (r_document_type document));
    reflexivity.
Qed.

Lemma recompute_writes_documents driverId now st :
  driver_documents (recompute_writes driverId now st) = driver_documents st.
Proof.
  unfold recompute_writes. destruct (allApprovedIn driverId now st);
    reflexivity.
Qed.

Lemma review_writes_documents now documentId rd st document :
  hd_error (fst (sql_update_document documentId rd now st)) = Some document ->
  driver_documents (review_writes now documentId rd st) =
  map (fun d => if (id d =? documentId)%string then set_review now rd d else d)
      (driver_documents st).
Proof.
  intros Hrow. unfold review_writes.
  rewrite <- sql_update_document_documents.
  destruct (sql_update_document documentId rd now st) as [rows st1].
  destruct rows as [|row rows]; [discriminate|].
  destruct (rd_status rd =? "approved")%string; [|reflexivity].
  rewrite recompute_writes_documents, reference_writes_documents. reflexivity.
Qed.

(** The row some document of the table was turned into. *)
Lemma returned_row_exists now documentId rd st document :
  hd_error (fst (sql_update_document documentId rd now st)) = Some document ->
  exists d, In d (driver_documents st) /\ id d = documentId.
Proof.
  unfold sql_update_document; cbn [fst]. intros Hrow.
  destruct (filter _ _) as [|d' rest] eqn:Hf in Hrow; [discriminate|].
  assert (Hin : In d' (d' :: rest)) by (left; reflexivity).
  rewrite <- Hf in Hin. apply filter_In in Hin. destruct Hin as [Hin Hhit].
  apply in_map_iff in Hin. destruct Hin as (d & Hd & Hin).
  exists d. split; [exact Hin|].
  destruct (id d =? documentId)%string eqn:E.
  - apply String.eqb_eq, E.
  - subst d'. rewrite E in Hhit. discriminate.
Qed.

(** A call answered 200 went through validation and rewrote exactly the
    rows with the requested id. *)
Lemma review_committed env event user c resp c' :
  tx c = Idle ->
  handleReviewDocument event user env c = (Return resp, c') ->
  statusCode resp = 200 ->
  exists b documentId,
    body event = Parsed b /\
    pathParameters_documentId event = Some documentId /\
    Js.includes validStatuses (rd_status (reviewDataOf user b)) = true /\
    ((rd_status (reviewDataOf user b) =? "rejected")%string
     && negb (Js.truthy (b_rejectionReason b)) = false) /\
    (exists d, In d (driver_documents (committed c)) /\ id d = documentId) /\
    driver_documents (committed c') =
      map (fun d => if (id d =? documentId)%string
                    then set_review (clock env (seq c)) (reviewDataOf user b) d
                    else d)
          (driver_documents (committed c)).
Proof.
  intros Hidle Hrun Hcode.
  destruct (handleReviewDocument_cases env event user c Hidle)
    as [(resp' & Hout & Hne & _) | [(e & Hout & _) |
        (b & documentId & document & _ & Hid & Hb & Hvalid & Hrej & Hrow & _ & _ & Hc & _)]];
    rewrite Hrun in *; cbn [fst snd] in *.
  - injection Hout as <-. contradiction.
  - discriminate.
  - exists b, documentId. repeat split; auto.
    + eapply returned_row_exists, Hrow.
    + rewrite Hc. eapply review_writes_documents, Hrow.
Qed.

(** C2. On an idle connection every review call is all-or-nothing on the
    committed tables.  Either it answers 200, and then the document update
    and every profile write it triggered are committed together, the block
    is closed, and the statements ran between BEGIN and COMMIT -- for
    'approved' the completeness check of the owning driver among them, its
    result in the response; or it does not answer 200 (a 4xx answer or a
    thrown error), and then the committed tables are those from before the
    call and no block stays open.  Which of the two happens is determined:
    if any statement the call sent failed, the call throws and nothing is
    visible; and a well-formed review of a stored document by an
    administrator, with the database reachable and none of its at most six
    statements failing, is answered 200 and committed, the stored row
    carrying the new status and the reviewer. *)
Theorem review_is_atomic env event user c :
  tx c = Idle ->
  let r := handleReviewDocument event user env c in
  let now := clock env (seq c) in
  let published b documentId document :=
    body event = Parsed b /\
    pathParameters_documentId event = Some documentId /\
    fst r = Return {| statusCode := 200;
                      response_body :=
                        Reviewed "Document reviewed successfully" document
                          (review_verification now documentId
                             (reviewDataOf user b) (committed c)) |} /\
    committed (snd r) =
      review_writes now documentId (reviewDataOf user b) (committed c) /\
    tx (snd r) = Idle /\
    log (snd r) =
      (log c ++ [BEGIN; UpdateDocumentStatus documentId]
         ++ review_statements now documentId (reviewDataOf user b) (committed c)
         ++ [COMMIT])%list /\
    (rd_status (reviewDataOf user b) = "approved" ->
     In (SelectApprovedRequired (r_driver_id document))
        (review_statements now documentId (reviewDataOf user b) (committed c))
     /\ exists st, review_verification now documentId (reviewDataOf user b)
                     (committed c)
                   = Some (recompute_result (r_driver_id document) now st)
                /\ committed (snd r)
                   = recompute_writes (r_driver_id document) now st) in
  ((exists b documentId document, published b documentId document)
   \/ ((forall resp, fst r = Return resp -> statusCode resp <> 200) /\
       committed (snd r) = committed c /\
       no_open_block (snd r))) /\
  (forall k,
      (seq c <= k < seq (snd r))%nat ->
      fails env k = true ->
      (exists e, fst r = Throw e) /\
      committed (snd r) = committed c /\
      no_open_block (snd r)) /\
  (forall b documentId s,
      isAdmin user = true ->
      pathParameters_documentId event = Some documentId ->
      documentId <> "" ->
      body event = Parsed b ->
      b_status b = Some s ->
      In s validStatuses ->
      (s = "rejected" -> Js.truthy (b_rejectionReason b) = true) ->
      connects env = true ->
      (exists d, In d (driver_documents (committed c)) /\ id d = documentId) ->
      clean env (seq c) (seq c + 6) ->
      exists document,
        published b documentId document /\
        r_id document = documentId /\
        r_status document = s /\
        (exists d', In d' (driver_documents (committed (snd r))) /\
                    id d' = documentId) /\
        (forall d', In d' (driver_documents (committed (snd r))) ->
                    id d' = documentId ->
                    status d' = s /\ verified_by d' = Some (userId user)) /\
        (forall d', In d' (driver_documents (committed (snd r))) ->
                    id d' <> documentId ->
                    In d' (driver_documents (committed c)))).
Proof.
  intros Hidle.
  assert (Hleft : forall b documentId document,
             pathParameters_documentId event = Some documentId ->
             body event = Parsed b ->
             hd_error (fst (sql_update_document documentId (reviewDataOf user b)
                              (clock env (seq c)) (committed c)))
             = Some document ->
             rd_status (reviewDataOf user b) = "approved" ->
             In (SelectApprovedRequired (r_driver_id document))
                (review_statements (clock env (seq c)) documentId
                   (reviewDataOf user b) (committed c))
             /\ exists st,
                 review_verification (clock env (seq c)) documentId
                   (reviewDataOf user b) (committed c)
                 = Some (recompute_result (r_driver_id document)
                           (clock env (seq c)) st)
                 /\ review_writes (clock env (seq c)) documentId
                      (reviewDataOf user b) (committed c)
                    = recompute_writes (r_driver_id document)
                        (clock env (seq c)) st).
  { intros b documentId document _ _ Hrow H.
    unfold review_statements, review_verification, review_writes.
    destruct (sql_update_document documentId (reviewDataOf user b)
                (clock env (seq c)) (committed c)) as [rows st1].
    destruct rows as [|row rows]; [discriminate|].
    cbn in Hrow. injection Hrow as ->.
    rewrite H. cbn. split.
    - apply in_or_app. right. unfold recompute_statements. left. reflexivity.
    - eexists. split; reflexivity. }
  cbv zeta.
  destruct (handleReviewDocument_cases env event user c Hidle)
    as [(resp & Hout & Hcode & Hc) | [(e & Hout & Hc & Hno) |
        (b & documentId & document & _ & Hid & Hb & _ & _ & Hrow & Hout & Ht & Hc & Hlog)]];
    cbv zeta in *.
  - split; [|split].
    + right. rewrite Hout, Hc. repeat split.
      * intros resp' E. injection E as <-. exact Hcode.
      * unfold no_open_block. rewrite Hidle. exact I.
    + intros k Hk. rewrite Hc in Hk. lia.
    + intros b documentId s Hadm Hid Hne Hb Hs Hvalid Hreason Hconn Hex Hclean.
      destruct (handleReviewDocument_commits env event user c b documentId s
                  Hidle Hadm Hid Hne Hb Hs Hvalid Hreason Hconn Hex Hclean)
        as (document & vs & Hrun).
      rewrite Hrun in Hout. injection Hout as <-. exfalso. apply Hcode.
      reflexivity.
  - split; [|split].
    + right. rewrite Hout, Hc.
      repeat split; [intros resp' E; discriminate | exact Hno].
    + intros k _ _. split; [exists e; exact Hout|]. split; assumption.
    + intros b documentId s Hadm Hid Hne Hb Hs Hvalid Hreason Hconn Hex Hclean.
      destruct (handleReviewDocument_commits env event user c b documentId s
                  Hidle Hadm Hid Hne Hb Hs Hvalid Hreason Hconn Hex Hclean)
        as (document & vs & Hrun).
      rewrite Hrun in Hout. discriminate Hout.
  - assert (Hpub : body event = Parsed b /\
                   pathParameters_documentId event = Some documentId /\
                   fst (handleReviewDocument event user env c)
                   = Return {| statusCode := 200;
                               response_body :=
                                 Reviewed "Document reviewed successfully"
                                   document
                                   (review_verification (clock env (seq c))
                                      documentId (reviewDataOf user b)
                                      (committed c)) |} /\
                   committed (snd (handleReviewDocument event user env c))
                   = review_writes (clock env (seq c)) documentId
                       (reviewDataOf user b) (committed c) /\
                   tx (snd (handleReviewDocument event user env c)) = Idle /\
                   log (snd (handleReviewDocument event user env c))
                   = (log c ++ [BEGIN; UpdateDocumentStatus documentId]
                        ++ review_statements (clock env (seq c)) documentId
                             (reviewDataOf user b) (committed c)
                        ++ [COMMIT])%list /\
                   (rd_status (reviewDataOf user b) = "approved" ->
                    In (SelectApprovedRequired (r_driver_id document))
                       (review_statements (clock env (seq c)) documentId
                          (reviewDataOf user b) (committed c))
                    /\ exists st,
                        review_verification (clock env (seq c)) documentId
                          (reviewDataOf user b) (committed c)
                        = Some (recompute_result (r_driver_id document)
                                  (clock env (seq c)) st)
                        /\ committed (snd (handleReviewDocument event user env c))
                           = recompute_writes (r_driver_id document)
                               (clock env (seq c)) st)).
    { repeat (split; [assumption|]). intros H. rewrite Hc.
      apply (Hleft b documentId document Hid Hb Hrow H). }
    split; [|split].
    + left. exists b, documentId, document. exact Hpub.
    + intros k Hk Hfail. exfalso.
      pose proof (handleReviewDocument_faults env event user c Hidle _ Hout k Hk)
        as Hok.
      rewrite Hok in Hfail. discriminate Hfail.
    + intros b' documentId' s Hadm Hid' Hne Hb' Hs Hvalid Hreason Hconn Hex Hclean.
      rewrite Hb in Hb'. injection Hb' as <-.
      rewrite Hid in Hid'. injection Hid' as <-.
      exists document. split; [exact Hpub|].
      assert (Hrd : rd_status (reviewDataOf user b) = s).
      { unfold reviewDataOf. cbn. rewrite Hs. reflexivity. }
      destruct (returned_row_fields _ _ _ _ _ Hrow) as [Hrid Hrst].
      split; [exact Hrid|]. split; [rewrite Hrst; exact Hrd|].
      rewrite Hc, (review_writes_documents _ _ _ _ _ Hrow).
      split; [|split].
      * destruct Hex as (d & Hin & Hd).
        exists (set_review (clock env (seq c)) (reviewDataOf user b) d).
        split; [|exact Hd]. apply in_map_iff. exists d.
        split; [|exact Hin].
        rewrite (proj2 (String.eqb_eq _ _) Hd). reflexivity.
      * intros d' Hin Hd'. apply in_map_iff in Hin.
        destruct Hin as (d & Hd & Hin).
        destruct (id d =? documentId)%string eqn:E.
        -- subst d'. cbn. split; [exact Hrd | reflexivity].
        -- subst d'. apply String.eqb_neq in E. contradiction.
      * intros d' Hin Hd'. apply in_map_iff in Hin.
        destruct Hin as (d & Hd & Hin).
        destruct (id d =? documentId)%string eqn:E.
        -- subst d'. apply String.eqb_eq in E. cbn in Hd'. contradiction.
        -- subst d'. exact Hin.
Qed.

Lemma review_is_atomic_witness :
  let r := handleReviewDocument (Sample.review_event "pho" "approved" None None)
             (Sample.admin "admin-2") Sample.env_ok
             (Sample.conn Sample.four_approved) in
  (exists document vs,
      fst r = Return {| statusCode := 200;
                        response_body :=
                          Reviewed "Document reviewed successfully" document
                                   (Some vs) |} /\
      r_id document = "pho" /\ r_status document = "approved" /\
      allDocumentsApproved vs = true) /\
  log (snd r)
  = [BEGIN; UpdateDocumentStatus "pho"; UpdateProfileColumn "driver-1";
     SelectApprovedRequired "driver-1"; UpdateProfileComplete "driver-1";
     COMMIT] /\
  map aggregate (driver_profiles (committed (snd r)))
  = [("driver-1", true, "active")] /\
  (forall d', In d' (driver_documents (committed (snd r))) ->
              id d' = "pho" ->
              status d' = "approved" /\ verified_by d' = Some "admin-2").
Proof.
  cbv zeta.
  destruct (proj2 (proj2
              (review_is_atomic Sample.env_ok
                 (Sample.review_event "pho" "approved" None None)
                 (Sample.admin "admin-2") (Sample.conn Sample.four_approved)
                 eq_refl))
              (Sample.review_body "approved" None None) "pho" "approved"
              eq_refl eq_refl ltac:(discriminate) eq_refl eq_refl
              (or_introl eq_refl) ltac:(discriminate) eq_refl
              (ex_intro _ (Sample.doc "pho" "driver-1" "profile_photo"
                             "approved" None)
                 (conj (or_intror (or_intror (or_intror (or_introl eq_refl))))
                       eq_refl))
              (fun k _ => eq_refl))
    as (document & (_ & _ & Hout & Hc & _ & Hlog & Happ) & Hrid & Hrst & _ & Hst & _).
  destruct (Happ eq_refl) as (_ & st & Hvs & _).
  split; [|split; [|split]].
  - exists document. eexists. split; [rewrite Hout, Hvs; reflexivity|].
    split; [exact Hrid|]. split; [exact Hrst|].
    revert Hvs. vm_compute. intros Hvs. injection Hvs as Hvs.
    rewrite <- Hvs. reflexivity.
  - rewrite Hlog. reflexivity.
  - rewrite Hc. reflexivity.
  - exact Hst.
Defined.

Lemma orNull_supplied v : v <> "" -> Js.orNull (Some v) = Some v.
Proof.
  intros H. unfold Js.orNull, Js.truthy.
  rewrite (proj2 (String.eqb_neq v "") H). reflexivity.
Qed.

Lemma Forall2_one {A B : Type} (R : A -> B -> Prop) a l :
  Forall2 R [a] l -> exists b, l = [b] /\ R a b.
Proof.
  intros H. inversion H as [|x b l1 l2 Hr Hrest]; subst.
  inversion Hrest; subst. exists b. split; [reflexivity | exact Hr].
Qed.

(** C10. A review call that is answered 200 overwrites notes and
    rejection_reason of the reviewed document with the value from the
    request, or with NULL when the request omits it (or sends an empty
    string): a non-empty value that was sent is the value stored, and
    stored notes and a stored rejection reason do not survive a review that
    leaves them out, whatever they were.  The reviewed document exists, and
    no other row is touched. *)
Theorem review_overwrites_notes_and_reason env event user c resp c' b documentId :
  tx c = Idle ->
  body event = Parsed b ->
  pathParameters_documentId event = Some documentId ->
  handleReviewDocument event user env c = (Return resp, c') ->
  statusCode resp = 200 ->
  (exists d, In d (driver_documents (committed c)) /\ id d = documentId) /\
  Forall2
    (fun d d' =>
       if (id d =? documentId)%string
       then id d' = documentId /\
            notes d' = Js.orNull (b_notes b) /\
            rejection_reason d' = Js.orNull (b_rejectionReason b) /\
            (b_notes b = None -> notes d' = None) /\
            (b_rejectionReason b = None -> rejection_reason d' = None) /\
            (forall v, b_notes b = Some v -> v <> "" -> notes d' = Some v) /\
            (forall v, b_rejectionReason b = Some v -> v <> "" ->
                       rejection_reason d' = Some v) /\
            (b_notes b = Some "" -> notes d' = None) /\
            (b_rejectionReason b = Some "" -> rejection_reason d' = None)
       else d' = d)
    (driver_documents (committed c)) (driver_documents (committed c')).
Proof.
  intros Hidle Hb Hid Hrun Hcode.
  destruct (review_committed env event user c resp c' Hidle Hrun Hcode)
    as (b' & documentId' & Hb' & Hid' & _ & _ & Hex & Hdocs).
  rewrite Hb in Hb'. injection Hb' as <-.
  rewrite Hid in Hid'. injection Hid' as <-.
  split; [exact Hex|].
  rewrite Hdocs. clear.
  induction (driver_documents (committed c)) as [|d docs IH]; cbn [map].
  - constructor.
  - constructor; [|exact IH].
    destruct (id d =? documentId)%string eqn:E; [|reflexivity].
    apply String.eqb_eq in E. unfold reviewDataOf. cbn.
    split; [exact E|]. split; [reflexivity|]. split; [reflexivity|].
    split; [intros H; rewrite H; reflexivity|].
    split; [intros H; rewrite H; reflexivity|].
    split; [intros v H Hv; rewrite H; apply orNull_supplied, Hv|].
    split; [intros v H Hv; rewrite H; apply orNull_supplied, Hv|].
    split; intros H; rewrite H; reflexivity.
Qed.

Lemma review_overwrites_notes_and_reason_witness :
  notes Sample.reviewed_license = Some "checked against the photo" /\
  map (fun d => (id d, notes d, rejection_reason d))
      (driver_documents
         (committed
            (snd (handleReviewDocument
                    (Sample.review_event "lic" "rejected" (Some "forged") None)
                    (Sample.admin "admin-2") Sample.env_ok
                    (Sample.conn Sample.one_reviewed)))))
  = [("lic", None, Some "forged")].
Proof.
  split; [reflexivity|].
  set (run := handleReviewDocument
                (Sample.review_event "lic" "rejected" (Some "forged") None)
                (Sample.admin "admin-2") Sample.env_ok
                (Sample.conn Sample.one_reviewed)).
  destruct (Forall2_one _ _ _
              (proj2
                 (review_overwrites_notes_and_reason Sample.env_ok
                    (Sample.review_event "lic" "rejected" (Some "forged") None)
                    (Sample.admin "admin-2") (Sample.conn Sample.one_reviewed)
                    _ (snd run)
                    (Sample.review_body "rejected" (Some "forged") None)
                    "lic" eq_refl eq_refl eq_refl eq_refl eq_refl)))
    as (d' & Hl & Hid & _ & _ & Hnotes & _ & _ & Hreason & _).
  rewrite Hl. cbn [map].
  rewrite Hid, (Hnotes eq_refl), (Hreason "forged" eq_refl ltac:(discriminate)).
  reflexivity.
Defined.

(** C6. The request that shows the defect: a license approved by admin-1
    is sent back to 'pending' by admin-2.  The review timestamp is kept, as
    the CASE on the new status says, but verified_by is assigned without
    that CASE and now names admin-2. *)
Theorem pending_review_overwrites_reviewer :
  let c' := snd (handleReviewDocument
                   (Sample.review_event "lic" "pending" None (Some "recheck"))
                   (Sample.admin "admin-2") Sample.env_ok
                   (Sample.conn Sample.one_reviewed)) in
  map (fun d => (status d, verified_by d, verified_at d))
      (driver_documents Sample.one_reviewed)
  = [("approved", Some "admin-1", Some 8000500)] /\
  map (fun d => (status d, verified_by d, verified_at d))
      (driver_documents (committed c'))
  = [("pending", Some "admin-2", Some 8000500)].
Proof. split; reflexivity. Qed.

(** The rest of the field rules of the review update, for any row and any
    request: the timestamp follows the new status, the four optional fields
    keep their stored value unless a non-empty one is supplied, updated_at is
    the statement time, and the reviewer is always the caller. *)
Lemma set_review_fields now rd d :
  verified_at (set_review now rd d)
    = (if Js.includes ["approved"; "rejected"] (rd_status rd)
       then Some now else verified_at d) /\
  verified_by (set_review now rd d) = Some (rd_reviewerId rd) /\
  (Js.truthy (rd_documentNumber rd) = false ->
   document_number (set_review now rd d) = document_number d) /\
  (Js.truthy (rd_issuingAuthority rd) = false ->
   issuing_authority (set_review now rd d) = issuing_authority d) /\
  (rd_issueDate rd = None -> issue_date (set_review now rd d) = issue_date d) /\
  (rd_expiryDate rd = None -> expiry_date (set_review now rd d) = expiry_date d) /\
  updated_at (set_review now rd d) = now /\
  status (set_review now rd d) = rd_status rd.
Proof.
  cbn. unfold Js.orNull. repeat split; auto; intros H; rewrite H; reflexivity.
Qed.

(** *** The completeness check inside a review *)

Lemma aggregate_set_column col documentId now p :
  aggregate (set_column col documentId now p) = aggregate p /\
  documents_verified_at (set_column col documentId now p) = documents_verified_at p.
Proof. split; reflexivity. Qed.

Lemma reference_writes_aggregate document documentId now st :
  map aggregate (driver_profiles (reference_writes document documentId now st))
    = map aggregate (driver_profiles st) /\
  map documents_verified_at
      (driver_profiles (reference_writes document documentId now st))
    = map documents_verified_at (driver_profiles st).
Proof.
  unfold reference_writes.
  destruct (columnMap (r_document_type document)) as [col|]; [|split; reflexivity].
  unfold sql_update_profile_column. cbn [snd driver_profiles]. rewrite !map_map.
  split; apply map_ext; intros p;
    destruct (user_id p =? r_driver_id document)%string; reflexivity.
Qed.

(** C3. When a review is answered 200 and the completeness check it ran
    reports that not all required documents are approved, the check wrote
    nothing: no completeness statement is among the statements of the call,
    and every profile row keeps its documents_complete, documents_verified_at
    and status -- also a row that says complete and active. *)
Theorem review_check_writes_nothing_when_incomplete
    env event user c resp c' message document missing :
  tx c = Idle ->
  handleReviewDocument event user env c = (Return resp, c') ->
  response_body resp = Reviewed message document (Some (NotAllApproved missing)) ->
  map aggregate (driver_profiles (committed c'))
    = map aggregate (driver_profiles (committed c)) /\
  map documents_verified_at (driver_profiles (committed c'))
    = map documents_verified_at (driver_profiles (committed c)) /\
  Forall (fun s => match s with
                   | UpdateProfileComplete _ | UpdateProfileIncomplete _ => False
                   | _ => True
                   end)
         (new_statements c c').
Proof.
  intros Hidle Hrun Hbody.
  destruct (handleReviewDocument_cases env event user c Hidle)
    as [(resp' & Hout & _ & Hc) | [(e & Hout & _) |
        (b & documentId & document' & _ & _ & _ & _ & _ & Hrow & Hout & _ & Hc & Hlog)]];
    rewrite Hrun in *; cbn [fst snd] in *.
  - injection Hout as <-. subst c'.
    repeat split; auto.
    unfold new_statements. rewrite skipn_all. constructor.
  - discriminate.
  - injection Hout as ->. cbn in Hbody. injection Hbody as _ _ Hvs.
    apply SessionFacts.new_statements_app in Hlog. rewrite Hlog, Hc.
    clear Hlog Hc Hrun.
    unfold review_verification in Hvs.
    unfold review_writes, review_statements.
    destruct (sql_update_document documentId (reviewDataOf user b)
                (clock env (seq c)) (committed c)) as [rows st1] eqn:Hupd.
    destruct rows as [|row rows]; [discriminate|].
    destruct (rd_status (reviewDataOf user b) =? "approved")%string;
      [|discriminate].
    injection Hvs as Hvs.
    unfold recompute_result in Hvs. unfold recompute_writes, recompute_statements.
    destruct (allApprovedIn (r_driver_id row) (clock env (seq c))
                (reference_writes row documentId (clock env (seq c)) st1));
      [discriminate|].
    destruct (reference_writes_aggregate row documentId (clock env (seq c)) st1)
      as [Hagg Hver].
    rewrite Hagg, Hver.
    assert (Hp : driver_profiles st1 = driver_profiles (committed c)).
    { rewrite <- (sql_update_document_profiles documentId (reviewDataOf user b)
                    (clock env (seq c)) (committed c)), Hupd. reflexivity. }
    rewrite Hp. repeat split.
    unfold reference_statements.
    destruct (columnMap (r_document_type row)); cbn; repeat constructor.
Qed.

Lemma review_check_writes_nothing_when_incomplete_witness :
  let r2 := handleReviewDocument
              (Sample.review_event "isp" "approved" None None)
              (Sample.admin "admin-2") Sample.env_ok Sample.license_rejected in
  map aggregate (driver_profiles (committed (snd r2)))
  = map aggregate (driver_profiles (committed Sample.license_rejected)).
Proof.
  exact (proj1
    (review_check_writes_nothing_when_incomplete Sample.env_ok
       (Sample.review_event "isp" "approved" None None)
       (Sample.admin "admin-2") Sample.license_rejected _ _ _ _ _
       eq_refl eq_refl eq_refl)).
Defined.

(** C3, refuted as stated.  The driver's aggregate says complete and the
    profile is active; an administrator rejects the license, then approves
    the inspection report.  The check triggered by the approval reports the
    license missing, and afterwards the aggregate still says complete and
    the profile is still active. *)
Lemma review_check_leaves_stale_complete :
  let c1 := Sample.license_rejected in
  let r2 := handleReviewDocument
              (Sample.review_event "isp" "approved" None None)
              (Sample.admin "admin-2") Sample.env_ok c1 in
  map aggregate (driver_profiles (committed c1)) = [("driver-1", true, "active")] /\
  (exists document,
      fst r2 = Return {| statusCode := 200;
                         response_body :=
                           Reviewed "Document reviewed successfully" document
                             (Some (NotAllApproved ["license"])) |}) /\
  ~ (map aggregate (driver_profiles (committed (snd r2)))
     = [("driver-1", false, "pending_documents")]) /\
  map aggregate (driver_profiles (committed (snd r2)))
  = [("driver-1", true, "active")].
Proof.
  cbv zeta. split; [reflexivity|]. split; [eexists; reflexivity|].
  split; [|reflexivity]. vm_compute. discriminate.
Qed.

(** *** Running the completeness check twice *)

Lemma allApprovedIn_documents driverId now now' st st' :
  driver_documents st = driver_documents st' ->
  allApprovedIn driverId now st = allApprovedIn driverId now' st'.
Proof.
  intros H. unfold allApprovedIn, sql_select_approved. cbn [fst].
  rewrite H. reflexivity.
Qed.

(** The check, when it returns, on an idle connection or inside a block. *)
Lemma checkAllDocumentsApproved_returns env c driverId v c1 :
  checkAllDocumentsApproved driverId env c = (Return v, c1) ->
  let all := allApprovedIn driverId 0 (visible c) in
  allDocumentsApproved v = all /\
  (all = false ->
   v = recompute_result driverId 0 (visible c) /\
   visible c1 = visible c /\ committed c1 = committed c /\
   log c1 = (log c ++ [SelectApprovedRequired driverId])%list) /\
  (all = true ->
   visible c1 = snd (sql_mark_complete driverId
                       (statement_time env c (S (seq c))) (visible c)) /\
   log c1 = (log c ++ [SelectApprovedRequired driverId;
                       UpdateProfileComplete driverId])%list).
Proof.
  destruct c as [st t n lg]. unfold visible, statement_time.
  cbn [tx seq committed log].
  unfold recompute_result, allApprovedIn.
  cbv beta delta [checkAllDocumentsApproved bind query ret]. cbn.
  fault; [discriminate|].
  destruct t as [| work started |]; cbn; [| |discriminate].
  - change (sql_select_approved driverId requiredDocs (clock env n) st)
      with (sql_select_approved driverId requiredDocs 0 st).
    destruct (sql_select_approved driverId requiredDocs 0 st)
      as [sel st'] eqn:Hsel.
    assert (st' = st) by (unfold sql_select_approved in Hsel; congruence).
    subst st'. cbn.
    destruct (forallb (fun doc => Js.includes (map fst sel) doc) requiredDocs)
      eqn:Hall; cbn.
    + fault; [discriminate|].
      destruct (sql_mark_complete driverId (clock env (S n)) st)
        as [upd st2] eqn:Hmc.
      cbn. intros E. injection E as <- <-. cbn.
      split; [reflexivity|]. split; [discriminate|]. intros _.
      rewrite ?Hmc, <- ?app_assoc. split; reflexivity.
    + intros E. injection E as <- <-. cbn.
      repeat split; try discriminate.
  - change (sql_select_approved driverId requiredDocs started work)
      with (sql_select_approved driverId requiredDocs 0 work).
    destruct (sql_select_approved driverId requiredDocs 0 work)
      as [sel st'] eqn:Hsel.
    assert (st' = work) by (unfold sql_select_approved in Hsel; congruence).
    subst st'. cbn.
    destruct (forallb (fun doc => Js.includes (map fst sel) doc) requiredDocs)
      eqn:Hall; cbn.
    + fault; [discriminate|].
      destruct (sql_mark_complete driverId started work) as [upd st2] eqn:Hmc.
      cbn. intros E. injection E as <- <-. cbn.
      split; [reflexivity|]. split; [discriminate|]. intros _.
      rewrite ?Hmc, <- ?app_assoc. split; reflexivity.
    + intros E. injection E as <- <-. cbn.
      repeat split; try discriminate.
Qed.

Lemma aggregate_set_complete_twice now now' p :
  aggregate (set_complete now' (set_complete now p))
  = aggregate (set_complete now p).
Proof.
  unfold aggregate; cbn.
  destruct (profile_status p =? "pending_documents")%string eqn:E;
    [reflexivity | rewrite E; reflexivity].
Qed.

Lemma sql_mark_complete_twice driverId now now' st :
  map aggregate
      (driver_profiles
         (snd (sql_mark_complete driverId now'
                 (snd (sql_mark_complete driverId now st)))))
  = map aggregate (driver_profiles (snd (sql_mark_complete driverId now st))).
Proof.
  unfold sql_mark_complete. cbn [snd driver_profiles]. rewrite !map_map.
  apply map_ext. intros p.
  destruct (user_id p =? driverId)%string eqn:E.
  - replace (user_id (set_complete now p)) with (user_id p) by reflexivity.
    rewrite E. apply aggregate_set_complete_twice.
  - rewrite E. reflexivity.
Qed.

Lemma sql_mark_complete_stamps driverId now st p :
  In p (driver_profiles (snd (sql_mark_complete driverId now st))) ->
  user_id p = driverId ->
  documents_complete p = true /\ documents_verified_at p = Some now.
Proof.
  unfold sql_mark_complete; cbn [snd driver_profiles]. intros Hin Hid.
  apply in_map_iff in Hin. destruct Hin as (p0 & <- & _).
  destruct (user_id p0 =? driverId)%string eqn:E.
  - split; reflexivity.
  - apply String.eqb_neq in E. contradiction.
Qed.

(** C4. Two runs of the completeness check for a driver, both
    returning, nothing else in between, on an idle connection or inside a
    block; the tables are taken as the session sees them.  The documents are
    never touched, both runs reach the same verdict, and the second run
    leaves documents_complete and the status of every profile as the first
    one left them.  When the verdict is "not all approved" the second run
    sends only its SELECT, changes nothing and returns the same value as the
    first.  When the verdict is "all approved" the second run sends the
    completeness update again and the driver's profile carries the time of
    that second update in documents_verified_at. *)
Theorem check_twice env1 env2 c driverId v1 c1 v2 c2 :
  checkAllDocumentsApproved driverId env1 c = (Return v1, c1) ->
  checkAllDocumentsApproved driverId env2 c1 = (Return v2, c2) ->
  driver_documents (visible c2) = driver_documents (visible c) /\
  allDocumentsApproved v2 = allDocumentsApproved v1 /\
  map aggregate (driver_profiles (visible c2))
    = map aggregate (driver_profiles (visible c1)) /\
  (allDocumentsApproved v1 = false ->
   v2 = v1 /\ visible c2 = visible c1 /\ committed c2 = committed c1 /\
   new_statements c1 c2 = [SelectApprovedRequired driverId]) /\
  (allDocumentsApproved v1 = true ->
   new_statements c1 c2
   = [SelectApprovedRequired driverId; UpdateProfileComplete driverId] /\
   forall p, In p (driver_profiles (visible c2)) ->
             user_id p = driverId ->
             documents_verified_at p
             = Some (statement_time env2 c1 (S (seq c1)))).
Proof.
  intros H1 H2.
  destruct (checkAllDocumentsApproved_returns env1 c driverId v1 c1 H1)
    as (Hv1 & Hno1 & Hyes1).
  destruct (checkAllDocumentsApproved_returns env2 c1 driverId v2 c2 H2)
    as (Hv2 & Hno2 & Hyes2).
  destruct (allApprovedIn driverId 0 (visible c)) eqn:Hall.
  - destruct (Hyes1 eq_refl) as (Hc1 & _).
    assert (Hall2 : allApprovedIn driverId 0 (visible c1) = true).
    { rewrite <- Hall. apply allApprovedIn_documents. rewrite Hc1. reflexivity. }
    rewrite Hall2 in *. destruct (Hyes2 eq_refl) as (Hc2 & Hlog2).
    rewrite Hv1, Hv2.
    split; [rewrite Hc2, Hc1; reflexivity|]. split; [reflexivity|].
    split; [rewrite Hc2, Hc1; apply sql_mark_complete_twice|].
    split; [discriminate|]. intros _. split.
    + apply SessionFacts.new_statements_app, Hlog2.
    + intros p Hin Hid. rewrite Hc2 in Hin.
      eapply sql_mark_complete_stamps; eassumption.
  - destruct (Hno1 eq_refl) as (Hr1 & Hc1 & _).
    assert (Hall2 : allApprovedIn driverId 0 (visible c1) = false).
    { rewrite <- Hall. apply allApprovedIn_documents. rewrite Hc1. reflexivity. }
    rewrite Hall2 in *. destruct (Hno2 eq_refl) as (Hr2 & Hc2 & Hcc2 & Hlog2).
    rewrite Hv1, Hv2, Hc2, Hc1.
    split; [reflexivity|]. split; [reflexivity|]. split; [reflexivity|].
    split; [|discriminate].
    intros _. split; [|split; [reflexivity|split; [exact Hcc2|]]].
    + rewrite Hr1, Hr2, Hc1. reflexivity.
    + apply SessionFacts.new_statements_app, Hlog2.
Qed.

Lemma check_twice_witness :
  let r1 := checkAllDocumentsApproved "driver-1" Sample.env_ok
              (Sample.conn Sample.four_approved) in
  let r2 := checkAllDocumentsApproved "driver-1" Sample.env_ok (snd r1) in
  map aggregate (driver_profiles (committed (snd r2)))
  = map aggregate (driver_profiles (committed (snd r1))).
Proof.
  exact (proj1 (proj2 (proj2
    (check_twice Sample.env_ok Sample.env_ok
       (Sample.conn Sample.four_approved) "driver-1" _ _ _ _
       eq_refl eq_refl)))).
Defined.

(** C4, refuted as stated.  All four required documents are approved and
    stay so; the check runs twice in a row.  The second run sends a write
    again, stamps documents_verified_at anew, and returns a different
    value.  The same is seen from outside: approving the profile photo a
    second time leaves every status as it was and moves documents_verified_at
    from the first review's time to the second's. *)
Lemma check_twice_restamps :
  let r1 := checkAllDocumentsApproved "driver-1" Sample.env_ok
              (Sample.conn Sample.four_approved) in
  let r2 := checkAllDocumentsApproved "driver-1" Sample.env_ok (snd r1) in
  let approve := handleReviewDocument
                   (Sample.review_event "pho" "approved" None None)
                   (Sample.admin "admin-2") Sample.env_ok in
  let a1 := snd (approve (Sample.conn Sample.four_approved)) in
  let a2 := snd (approve a1) in
  driver_documents (committed (snd r2)) = driver_documents Sample.four_approved /\
  existsb is_write (new_statements (snd r1) (snd r2)) = true /\
  map documents_verified_at (driver_profiles (committed (snd r1)))
    = [Some 8640001] /\
  map documents_verified_at (driver_profiles (committed (snd r2)))
    = [Some 8640003] /\
  fst r2 <> fst r1 /\
  map status (driver_documents (committed a2))
    = map status (driver_documents (committed a1)) /\
  map documents_verified_at (driver_profiles (committed a1)) = [Some 8640000] /\
  map documents_verified_at (driver_profiles (committed a2)) = [Some 8640006].
Proof.
  cbv zeta. repeat split; try reflexivity. vm_compute. discriminate.
Qed.

End ReviewFacts.

(** ** The expiry sweep *)

Module ExpiryFacts.

Import Expiry Session Sweep.

(** *** The demotion update *)

Lemma past_expiry_iff now d :
  past_expiry now d = true <->
  status d = "approved" /\
  exists e, expiry_date d = Some e /\ e < Sql.CURRENT_DATE now.
Proof.
  unfold past_expiry. rewrite andb_true_iff, String.eqb_eq.
  destruct (expiry_date d) as [e|].
  - rewrite Z.ltb_lt. split.
    + intros [Hs He]. split; [exact Hs|]. exists e. split; [reflexivity | exact He].
    + intros [Hs (e' & He' & Hlt)]. injection He' as <-. split; assumption.
  - split.
    + intros [_ H]. discriminate.
    + intros [_ (e' & He' & _)]. discriminate.
Qed.

Lemma past_expiry_same_day now now' d :
  Sql.CURRENT_DATE now' = Sql.CURRENT_DATE now ->
  past_expiry now' d = past_expiry now d.
Proof. intros H. unfold past_expiry. rewrite H. reflexivity. Qed.

Lemma past_expiry_set_expired now now' d :
  past_expiry now' (set_expired now d) = false.
Proof. reflexivity. Qed.

(** Row by row: a due document becomes expired, any other is untouched. *)
Lemma sql_mark_expired_rows now st :
  Forall2
    (fun d d' =>
       if past_expiry now d
       then d' = set_expired now d /\ status d' = "expired"
       else d' = d)
    (driver_documents st) (driver_documents (snd (sql_mark_expired now st))).
Proof.
  unfold sql_mark_expired; cbn [snd driver_documents].
  induction (driver_documents st) as [|d docs IH]; cbn [map]; constructor; auto.
  destruct (past_expiry now d); [split|]; reflexivity.
Qed.

Lemma sql_mark_expired_returning now st :
  fst (sql_mark_expired now st)
  = map expired_row (filter (past_expiry now) (driver_documents st)).
Proof. reflexivity. Qed.

(** After the update no document is due on that day any more. *)
Lemma none_due_after_mark_expired now now' st :
  Sql.CURRENT_DATE now' = Sql.CURRENT_DATE now ->
  forall d, In d (driver_documents (snd (sql_mark_expired now st))) ->
            past_expiry now' d = false.
Proof.
  intros Hday d Hin. unfold sql_mark_expired in Hin; cbn [snd driver_documents] in Hin.
  apply in_map_iff in Hin. destruct Hin as (d0 & Hd & _).
  destruct (past_expiry now d0) eqn:E; subst d.
  - apply past_expiry_set_expired.
  - rewrite (past_expiry_same_day now now' d0 Hday). exact E.
Qed.

Lemma sql_mark_expired_nothing_due now st :
  (forall d, In d (driver_documents st) -> past_expiry now d = false) ->
  sql_mark_expired now st = ([], st).
Proof.
  intros Hnone. unfold sql_mark_expired. destruct st as [docs profiles].
  cbn [driver_documents driver_profiles] in *.
  assert (Hf : filter (past_expiry now) docs = []).
  { induction docs as [|d docs IH]; [reflexivity|]. cbn.
    rewrite (Hnone d (or_introl eq_refl)). apply IH.
    intros d' Hd'. apply Hnone. right. exact Hd'. }
  assert (Hm : map (fun d => if past_expiry now d then set_expired now d else d) docs
               = docs).
  { induction docs as [|d docs IH]; [reflexivity|]. cbn.
    rewrite (Hnone d (or_introl eq_refl)). f_equal. apply IH.
    - intros d' Hd'. apply Hnone. right. exact Hd'.
    - cbn in Hf. rewrite (Hnone d (or_introl eq_refl)) in Hf. exact Hf. }
  rewrite Hf, Hm. reflexivity.
Qed.

(** *** The set of affected drivers *)

Lemma includes_In arr x : Js.includes arr x = true <-> In x arr.
Proof.
  unfold Js.includes. rewrite existsb_exists. split.
  - intros (y & Hin & Heq). apply String.eqb_eq in Heq. subst y. exact Hin.
  - intros Hin. exists x. split; [exact Hin | apply String.eqb_refl].
Qed.

Lemma uniqueFrom_spec arr :
  forall seen,
    NoDup (Js.uniqueFrom seen arr) /\
    forall x, In x (Js.uniqueFrom seen arr) -> In x arr /\ ~ In x seen.
Proof.
  induction arr as [|a arr IH]; intros seen; cbn.
  - split; [constructor | intros x []].
  - destruct (Js.includes seen a) eqn:E.
    + destruct (IH seen) as [Hnd Hin]. split; [exact Hnd|].
      intros x Hx. destruct (Hin x Hx). split; [right|]; assumption.
    + destruct (IH (a :: seen)) as [Hnd Hin]. split.
      * constructor; [|exact Hnd]. intros Ha.
        destruct (Hin a Ha) as [_ Hno]. apply Hno. left. reflexivity.
      * intros x [<- | Hx].
        -- split; [left; reflexivity|]. intros Hs.
           apply includes_In in Hs. rewrite Hs in E. discriminate.
        -- destruct (Hin x Hx) as [Hx1 Hx2]. split; [right; exact Hx1|].
           intros Hs. apply Hx2. right. exact Hs.
Qed.

Lemma newSet_NoDup arr : NoDup (Js.newSet arr).
Proof. apply uniqueFrom_spec. Qed.

Lemma newSet_In arr x : In x (Js.newSet arr) -> In x arr.
Proof. intros H. apply (uniqueFrom_spec arr []), H. Qed.

(** *** Statements of the profile pass *)

Lemma query_log {A : Type} (s : Stmt) (run : Z -> Store -> A * Store) env c :
  log (snd (query s run env c)) = (log c ++ [s])%list.
Proof.
  unfold query. destruct (fails env (seq c)); [reflexivity|].
  destruct (tx c); try reflexivity;
    match goal with |- context [run ?t ?w] => destruct (run t w) end;
    reflexivity.
Qed.

Lemma checks_of_app driverId l1 l2 :
  checks_of driverId (l1 ++ l2) = (checks_of driverId l1 + checks_of driverId l2)%nat.
Proof. unfold checks_of. rewrite filter_app, length_app. reflexivity. Qed.

(** The loop checks each listed driver at most as often as it is listed,
    and nobody else. *)
Lemma forDriverIds_log driverIds :
  forall results env c,
  exists delta,
    log (snd (forDriverIds driverIds results env c)) = (log c ++ delta)%list /\
    forall driverId,
      (checks_of driverId delta <= count_occ string_dec driverIds driverId)%nat.
Proof.
  induction driverIds as [|d rest IH]; intros results env c.
  - exists []. cbn. rewrite app_nil_r. split; [reflexivity|]. intros; cbn; lia.
  - cbn [forDriverIds]. unfold bind at 1.
    pose proof (query_log (SelectApprovedRequired d) (sql_check_approved d) env c)
      as Hq.
    assert (Hone : forall driverId,
               (checks_of driverId [SelectApprovedRequired d]
                <= count_occ string_dec [d] driverId)%nat).
    { intros driverId. cbn.
      destruct (string_dec d driverId) as [->|Hne].
      - rewrite String.eqb_refl. cbn. lia.
      - apply String.eqb_neq in Hne. rewrite Hne. cbn. lia. }
    assert (Htwo : forall driverId,
               checks_of driverId
                 [SelectApprovedRequired d; UpdateProfileIncomplete d]
               = checks_of driverId [SelectApprovedRequired d]).
    { intros driverId. cbn. destruct (d =? driverId)%string; reflexivity. }
    assert (Hcount : forall driverId,
               count_occ string_dec (d :: rest) driverId
               = (count_occ string_dec [d] driverId
                  + count_occ string_dec rest driverId)%nat).
    { intros driverId. cbn. destruct (string_dec d driverId); reflexivity. }
    destruct (query (SelectApprovedRequired d) (sql_check_approved d) env c)
      as [[checkResult | e] c1]; cbn [snd] in Hq.
    + destruct (negb (forallb (fun doc => Js.includes (map fst checkResult) doc)
                        requiredDocs)).
      * unfold bind at 1.
        pose proof (query_log (UpdateProfileIncomplete d) (sql_mark_incomplete d)
                      env c1) as Hu.
        destruct (query (UpdateProfileIncomplete d) (sql_mark_incomplete d) env c1)
          as [[updateResult | e] c2]; cbn [snd] in Hu.
        -- destruct (IH (results ++ [hd_error updateResult])%list env c2)
             as (delta & Hlog & Hle).
           exists ([SelectApprovedRequired d; UpdateProfileIncomplete d] ++ delta)%list.
           split.
           ++ rewrite Hlog, Hu, Hq. rewrite <- !app_assoc. reflexivity.
           ++ intros driverId. rewrite checks_of_app, Hcount.
              specialize (Hle driverId). specialize (Hone driverId).
              rewrite (Htwo driverId). lia.
        -- exists [SelectApprovedRequired d; UpdateProfileIncomplete d].
           split.
           ++ cbn [snd]. rewrite Hu, Hq. rewrite <- !app_assoc. reflexivity.
           ++ intros driverId. rewrite Hcount. specialize (Hone driverId).
              rewrite (Htwo driverId). lia.
      * destruct (IH results env c1) as (delta & Hlog & Hle).
        exists ([SelectApprovedRequired d] ++ delta)%list. split.
        -- rewrite Hlog, Hq. rewrite <- !app_assoc. reflexivity.
        -- intros driverId. rewrite checks_of_app, Hcount.
           specialize (Hle driverId). specialize (Hone driverId). lia.
    + exists [SelectApprovedRequired d]. split; [exact Hq|].
      intros driverId. rewrite Hcount. specialize (Hone driverId). lia.
Qed.

Lemma updateDriverProfilesForExpiredDocs_checks expiredDocs env c :
  forall driverId,
    (checks_of driverId
       (new_statements c (snd (updateDriverProfilesForExpiredDocs expiredDocs env c)))
     <= 1)%nat /\
    (checks_of driverId
       (new_statements c (snd (updateDriverProfilesForExpiredDocs expiredDocs env c)))
     = 1%nat -> In driverId (map x_driver_id expiredDocs)).
Proof.
  intros driverId. unfold updateDriverProfilesForExpiredDocs.
  destruct expiredDocs as [|x rest].
  - cbn. unfold new_statements. rewrite skipn_all. cbn. split; [lia | discriminate].
  - set (ids := Js.newSet (map x_driver_id (x :: rest))).
    destruct (forDriverIds_log ids [] env c) as (delta & Hlog & Hle).
    rewrite (SessionFacts.new_statements_app _ _ _ Hlog).
    specialize (Hle driverId).
    pose proof (newSet_NoDup (map x_driver_id (x :: rest))) as Hnd.
    rewrite (NoDup_count_occ string_dec) in Hnd. specialize (Hnd driverId).
    fold ids in Hnd. split; [lia|].
    intros H1. apply newSet_In. fold ids.
    apply (count_occ_In string_dec). lia.
Qed.

(** *** Failures and invariants of the passes *)

Lemma stops_forDriverIds driverIds :
  forall results, stops_at_failure (forDriverIds driverIds results).
Proof.
  induction driverIds as [|d rest IH]; intros results; cbn [forDriverIds].
  - apply SessionFacts.stops_ret.
  - apply SessionFacts.stops_bind; [apply SessionFacts.stops_query|].
    intros checkResult.
    destruct (negb (forallb (fun doc => Js.includes (map fst checkResult) doc)
                      requiredDocs)).
    + apply SessionFacts.stops_bind; [apply SessionFacts.stops_query|].
      intros updateResult. apply IH.
    + apply IH.
Qed.

Lemma stops_updateDriverProfilesForExpiredDocs expiredDocs :
  stops_at_failure (updateDriverProfilesForExpiredDocs expiredDocs).
Proof.
  unfold updateDriverProfilesForExpiredDocs. destruct expiredDocs.
  - apply SessionFacts.stops_ret.
  - apply stops_forDriverIds.
Qed.

Lemma stops_markNotificationSent documentIds :
  stops_at_failure (markNotificationSent documentIds).
Proof.
  unfold markNotificationSent. destruct documentIds.
  - apply SessionFacts.stops_ret.
  - apply SessionFacts.stops_query.
Qed.

Section SweepInvariant.

Variable P : Store -> Prop.
Hypothesis P_documents :
  forall st st', driver_documents st' = driver_documents st -> P st -> P st'.

Lemma preserves_forDriverIds driverIds :
  forall results, preserves P (forDriverIds driverIds results).
Proof.
  induction driverIds as [|d rest IH]; intros results; cbn [forDriverIds].
  - apply SessionFacts.preserves_ret.
  - apply SessionFacts.preserves_bind.
    + apply SessionFacts.preserves_query. intros now st H. exact H.
    + intros checkResult.
      destruct (negb (forallb (fun doc => Js.includes (map fst checkResult) doc)
                        requiredDocs)); [|apply IH].
      apply SessionFacts.preserves_bind; [|intros; apply IH].
      apply SessionFacts.preserves_query. intros now st H.
      eapply P_documents; [|exact H]. reflexivity.
Qed.

Lemma preserves_updateDriverProfilesForExpiredDocs expiredDocs :
  preserves P (updateDriverProfilesForExpiredDocs expiredDocs).
Proof.
  unfold updateDriverProfilesForExpiredDocs. destruct expiredDocs.
  - apply SessionFacts.preserves_ret.
  - apply preserves_forDriverIds.
Qed.

End SweepInvariant.

(** C8. The demotion pass on an idle connection, its first statement not
    failing.  The update returns and rewrites exactly the documents that are
    approved with an expiry date before the current date: each of them
    becomes expired, every other row is left as it was.  The profile pass
    then runs the approved-documents check at most once per driver, and only
    for drivers of demoted documents, without touching the documents.  A
    second demotion update on the same date, right after, returns no row and
    changes nothing, and the profile pass for no rows sends nothing. *)
Theorem demotion_pass env c :
  tx c = Idle ->
  fails env (seq c) = false ->
  let now := clock env (seq c) in
  let docs := driver_documents (committed c) in
  let rows := map expired_row (filter (past_expiry now) docs) in
  let r1 := markExpiredDocuments env c in
  let r2 := updateDriverProfilesForExpiredDocs rows env (snd r1) in
  fst r1 = Return rows /\
  (forall d, past_expiry now d = true <->
             status d = "approved" /\
             exists e, expiry_date d = Some e /\ e < Sql.CURRENT_DATE now) /\
  Forall2
    (fun d d' =>
       if past_expiry now d
       then d' = set_expired now d /\ status d' = "expired"
       else d' = d)
    docs (driver_documents (committed (snd r1))) /\
  (forall driverId,
      (checks_of driverId (new_statements (snd r1) (snd r2)) <= 1)%nat /\
      (checks_of driverId (new_statements (snd r1) (snd r2)) = 1%nat ->
       In driverId (map x_driver_id rows))) /\
  driver_documents (committed (snd r2)) = driver_documents (committed (snd r1)) /\
  (fails env (seq (snd r2)) = false ->
   Sql.CURRENT_DATE (clock env (seq (snd r2))) = Sql.CURRENT_DATE now ->
   let r3 := markExpiredDocuments env (snd r2) in
   fst r3 = Return [] /\
   committed (snd r3) = committed (snd r2) /\
   updateDriverProfilesForExpiredDocs [] env (snd r3) = (Return [], snd r3)).
Proof.
  intros Hidle Hok now docs rows r1 r2.
  assert (Hr1 : r1 = (Return rows,
                      sent UpdateMarkExpired c Idle
                           (snd (sql_mark_expired now (committed c))))).
  { subst r1. unfold markExpiredDocuments, query. rewrite Hok, Hidle.
    reflexivity. }
  assert (Hdocs1 : driver_documents (committed (snd r1))
                   = driver_documents (snd (sql_mark_expired now (committed c)))).
  { rewrite Hr1. reflexivity. }
  assert (Hidle1 : tx (snd r1) = Idle) by (rewrite Hr1; reflexivity).
  assert (Hkeep : driver_documents (committed (snd r2))
                  = driver_documents (committed (snd r1))).
  { pose proof (preserves_updateDriverProfilesForExpiredDocs
                  (fun st => driver_documents st
                             = driver_documents (committed (snd r1)))) as Hp.
    destruct (Hp (fun st st' E H => eq_trans E H) rows env (snd r1)) as [Hc _].
    - split; [reflexivity|]. rewrite Hidle1. exact I.
    - exact Hc. }
  split; [rewrite Hr1; reflexivity|].
  split; [intros d; apply past_expiry_iff|].
  split; [rewrite Hdocs1; apply sql_mark_expired_rows|].
  split; [intros driverId; apply updateDriverProfilesForExpiredDocs_checks|].
  split; [exact Hkeep|].
  intros Hok2 Hday r3.
  destruct (stops_updateDriverProfilesForExpiredDocs rows env (snd r1) Hidle1)
    as (Hidle2 & _). fold r2 in Hidle2.
  assert (Hnone : sql_mark_expired (clock env (seq (snd r2))) (committed (snd r2))
                  = ([], committed (snd r2))).
  { apply sql_mark_expired_nothing_due. intros d Hin.
    rewrite Hkeep, Hdocs1 in Hin.
    eapply none_due_after_mark_expired; [exact Hday | exact Hin]. }
  subst r3. unfold markExpiredDocuments, query.
  rewrite Hok2, Hidle2, Hnone. cbn. repeat split.
Qed.

Lemma demotion_pass_witness :
  fst (markExpiredDocuments Sample.env_ok (Sample.conn Sample.two_lapsed))
  = Return
      (map expired_row
         (filter (past_expiry (clock Sample.env_ok 0))
                 (driver_documents Sample.two_lapsed))).
Proof.
  exact (proj1 (demotion_pass Sample.env_ok (Sample.conn Sample.two_lapsed)
                  eq_refl eq_refl)).
Defined.

(** *** The handler's single try block *)

Lemma preserves_attempt {A : Type} (P : Store -> Prop) lvl results
    (m : Async A) (k : A -> Env -> Conn -> Response * Conn) :
  preserves P m -> (forall a, preserves P (k a)) ->
  preserves P (attempt lvl results m k).
Proof.
  intros Hm Hk env c H. unfold attempt.
  specialize (Hm env c H).
  destruct (m env c) as [[a | e] c1]; cbn in *.
  - apply Hk, Hm.
  - exact Hm.
Qed.

Lemma attempt_response {A : Type} (Q : Response -> Prop) lvl results
    (m : Async A) (k : A -> Env -> Conn -> Response * Conn) env c :
  (forall e, Q (caught lvl results e)) ->
  (forall a env' c', Q (fst (k a env' c'))) ->
  Q (fst (attempt lvl results m k env c)).
Proof.
  intros Hc Hk. unfold attempt.
  destruct (m env c) as [[a | e] c1]; cbn; auto.
Qed.

Lemma completed_ends results env c :
  tx c = Idle -> errors results = [] ->
  ends_at_first_failure env c (completed results env c).
Proof.
  intros Hidle He. unfold ends_at_first_failure, completed; cbn.
  repeat split; auto. left. repeat split; auto.
  apply SessionFacts.clean_empty.
Qed.

Lemma attempt_ends {A : Type} lvl results
    (m : Async A) (k : A -> Env -> Conn -> Response * Conn) :
  stops_at_failure m ->
  errors results = [] ->
  (forall a env c, tx c = Idle -> ends_at_first_failure env c (k a env c)) ->
  forall env c, tx c = Idle ->
                ends_at_first_failure env c (attempt lvl results m k env c).
Proof.
  intros Hm He Hk env c Hidle. unfold attempt.
  specialize (Hm env c Hidle). cbn in Hm.
  destruct (m env c) as [[a | e] c1]; cbn [fst snd] in Hm.
  - destruct Hm as (Ht & Hle & Hcl).
    destruct (Hk a env c1 Ht) as (Ht' & Hle' & Hends).
    split; [exact Ht'|]. split; [lia|].
    destruct Hends as [(Hcode & Herr & Hcl') | (Hcode & Herr & Hlt & Hf & Hcl')].
    + left. repeat split; auto. eapply SessionFacts.clean_join; eauto.
    + right. repeat split; auto; [lia|].
      eapply SessionFacts.clean_join; eauto.
  - destruct Hm as (Ht & Hle & Hlt & Hf & Hcl).
    unfold ends_at_first_failure; cbn.
    split; [exact Ht|]. split; [exact Hle|].
    right. repeat split; auto. exists e. rewrite He. reflexivity.
Qed.

Lemma sql_mark_notified_statuses documentIds now st :
  map status (driver_documents (snd (sql_mark_notified documentIds now st)))
  = map status (driver_documents st).
Proof.
  unfold sql_mark_notified; cbn [snd driver_documents]. rewrite map_map.
  apply map_ext. intros d. destruct (Js.includes documentIds (id d)); reflexivity.
Qed.

Lemma handler_ends lvl env c :
  connects env = true ->
  tx c = Idle ->
  ends_at_first_failure env c (handler lvl env c).
Proof.
  intros Hconn Hidle.
  unfold handler. unfold attempt at 1. unfold getDbConnection.
  rewrite Hconn.
  apply attempt_ends; auto; [apply SessionFacts.stops_query|].
  intros expiredDocs env1 c1 H1.
  apply attempt_ends; auto.
  { destruct expiredDocs; [apply SessionFacts.stops_ret|].
    apply SessionFacts.stops_bind;
      [apply stops_updateDriverProfilesForExpiredDocs|].
    intros; apply SessionFacts.stops_ret. }
  intros updated env2 c2 H2.
  apply attempt_ends; auto; [apply SessionFacts.stops_query|].
  intros expiringDocs env3 c3 H3.
  destruct expiringDocs; [apply completed_ends; auto|].
  apply attempt_ends; auto; [apply stops_markNotificationSent|].
  intros _ env4 c4 H4. apply completed_ends; auto.
Qed.

Lemma handler_without_connection lvl env c :
  connects env = false ->
  statusCode (fst (handler lvl env c)) = 500 /\
  errors (results_of (fst (handler lvl env c))) = ["connection error"] /\
  snd (handler lvl env c) = c.
Proof.
  intros Hconn.
  assert (E : exists results,
             errors results = [] /\
             handler lvl env c = (caught lvl results "connection error", c)).
  { unfold handler. unfold attempt at 1. unfold getDbConnection.
    rewrite Hconn. eexists. split; [|reflexivity]. reflexivity. }
  destruct E as (results & He & E). rewrite E. cbn. rewrite He.
  repeat split.
Qed.

Lemma markExpiredDocuments_idle env c :
  tx c = Idle ->
  fails env (seq c) = false ->
  markExpiredDocuments env c
  = (Return (fst (sql_mark_expired (clock env (seq c)) (committed c))),
     sent UpdateMarkExpired c Idle
          (snd (sql_mark_expired (clock env (seq c)) (committed c)))).
Proof.
  intros Hidle Hok. unfold markExpiredDocuments, query.
  rewrite Hok, Hidle. reflexivity.
Qed.

(** Statuses of the documents table are what the demotion update wrote,
    from then to the end of the run. *)
Lemma handler_keeps_statuses lvl env c :
  connects env = true ->
  tx c = Idle ->
  fails env (seq c) = false ->
  map status (driver_documents (committed (snd (handler lvl env c))))
  = map status
      (driver_documents
         (snd (sql_mark_expired (clock env (seq c)) (committed c)))).
Proof.
  intros Hconn Hidle Hok.
  set (L := map status
              (driver_documents
                 (snd (sql_mark_expired (clock env (seq c)) (committed c))))).
  set (P := fun st => map status (driver_documents st) = L).
  assert (Pdocs : forall st st',
             driver_documents st' = driver_documents st -> P st -> P st').
  { unfold P. intros st st' E H. rewrite E. exact H. }
  unfold handler. unfold attempt at 1. unfold getDbConnection. rewrite Hconn.
  unfold attempt at 1. rewrite (markExpiredDocuments_idle env c Hidle Hok).
  match goal with
  | |- context [attempt lvl ?res ?m ?k env ?c1] =>
      assert (Hp : preserves P (attempt lvl res m k))
  end.
  { apply preserves_attempt.
    - destruct (fst (sql_mark_expired (clock env (seq c)) (committed c)));
        [apply SessionFacts.preserves_ret|].
      apply SessionFacts.preserves_bind;
        [apply preserves_updateDriverProfilesForExpiredDocs; exact Pdocs|].
      intros; apply SessionFacts.preserves_ret.
    - intros updated. apply preserves_attempt.
      + apply SessionFacts.preserves_query. intros now st H. exact H.
      + intros expiringDocs. destruct expiringDocs.
        * intros env' c' H. exact H.
        * apply preserves_attempt.
          -- unfold markNotificationSent. cbn [map].
             apply SessionFacts.preserves_query. intros now st H.
             unfold P. rewrite sql_mark_notified_statuses. exact H.
          -- intros _ env' c' H. exact H. }
  apply Hp. split; [reflexivity | exact I].
Qed.

(** The answer carries the number of demoted documents. *)
Lemma handler_counts_demotions lvl env c :
  connects env = true ->
  tx c = Idle ->
  fails env (seq c) = false ->
  expiredDocuments (results_of (fst (handler lvl env c)))
  = length (filter (past_expiry (clock env (seq c)))
                   (driver_documents (committed c))).
Proof.
  intros Hconn Hidle Hok.
  unfold handler. unfold attempt at 1. unfold getDbConnection. rewrite Hconn.
  unfold attempt at 1. rewrite (markExpiredDocuments_idle env c Hidle Hok).
  rewrite sql_mark_expired_returning, <- (length_map expired_row).
  set (rows := map expired_row _).
  apply attempt_response; [reflexivity|].
  intros updated env2 c2.
  apply attempt_response; [reflexivity|].
  intros expiringDocs env3 c3.
  destruct expiringDocs; [reflexivity|].
  apply attempt_response; [reflexivity|].
  intros; reflexivity.
Qed.

(** C9, refuted as stated.  Two drivers each lost their license yesterday
    and a third document runs out in ten days; the approved-documents check
    for the first driver fails.  The sweep answers 500 with that one error
    and stops there: the failing check is the last statement sent, the
    second driver, whose license is now expired, is still complete and
    active, and the notification pass never ran. *)
Lemma one_failure_aborts_the_sweep :
  let r := handler "INFO" (Sample.env_failing 1) (Sample.conn Sample.two_lapsed) in
  statusCode (fst r) = 500 /\
  errors (results_of (fst r)) = ["database error"] /\
  log (snd r) = [UpdateMarkExpired; SelectApprovedRequired "driver-a"] /\
  map (fun d => (id d, status d)) (driver_documents (committed (snd r)))
  = [("lic-a", "expired"); ("lic-b", "expired"); ("ins-b", "approved")] /\
  map ReviewEffect.aggregate (driver_profiles (committed (snd r)))
  = [("driver-a", true, "active"); ("driver-b", true, "active")] /\
  expiringDocuments (results_of (fst r)) = 0%nat /\
  expiringDocuments
    (results_of (fst (handler "INFO" Sample.env_ok (Sample.conn Sample.two_lapsed))))
  = 1%nat.
Proof. cbv zeta. repeat split. Qed.

(** *** Invariants of a whole sweep *)

Lemma handler_preserves (P : Store -> Prop) lvl :
  (forall st st', driver_documents st' = driver_documents st -> P st -> P st') ->
  (forall now st, P st -> P (snd (sql_mark_expired now st))) ->
  (forall documentIds now st, P st -> P (snd (sql_mark_notified documentIds now st))) ->
  preserves P (handler lvl).
Proof.
  intros Pdocs Pexp Pnot. unfold handler.
  apply preserves_attempt; [apply SessionFacts.preserves_getDbConnection|].
  intros _. apply preserves_attempt.
  { apply SessionFacts.preserves_query. exact Pexp. }
  intros expiredDocs. apply preserves_attempt.
  { destruct expiredDocs; [apply SessionFacts.preserves_ret|].
    apply SessionFacts.preserves_bind;
      [apply preserves_updateDriverProfilesForExpiredDocs; exact Pdocs|].
    intros; apply SessionFacts.preserves_ret. }
  intros updated. apply preserves_attempt.
  { apply SessionFacts.preserves_query. intros now st H. exact H. }
  intros expiringDocs. destruct expiringDocs.
  - intros env' c' H. exact H.
  - apply preserves_attempt.
    + unfold markNotificationSent. cbn [map].
      apply SessionFacts.preserves_query. intros now st H. apply Pnot, H.
    + intros _ env' c' H. exact H.
Qed.

End ExpiryFacts.

(** ** The document lifecycle across the three handlers *)

Module LifecycleFacts.

Import Session Lifecycle.

(** *** Rejected documents carry a reason *)

Lemma rejected_has_reason_documents st st' :
  driver_documents st' = driver_documents st ->
  rejected_has_reason st -> rejected_has_reason st'.
Proof. unfold rejected_has_reason. intros E H d. rewrite E. apply H. Qed.

Lemma rejected_has_reason_map (f : Document -> Document) st st' :
  driver_documents st' = map f (driver_documents st) ->
  (forall d, (status d = "rejected" -> rejection_reason d <> None) ->
             status (f d) = "rejected" -> rejection_reason (f d) <> None) ->
  rejected_has_reason st -> rejected_has_reason st'.
Proof.
  unfold rejected_has_reason. intros E Hf H d' Hin. rewrite E in Hin.
  apply in_map_iff in Hin. destruct Hin as (d & <- & Hin).
  apply Hf. apply H, Hin.
Qed.

Lemma insert_keeps_reason newId dd now st :
  rejected_has_reason st ->
  rejected_has_reason (snd (Upload.sql_insert_document newId dd now st)).
Proof.
  unfold rejected_has_reason, Upload.sql_insert_document; cbn [snd driver_documents].
  intros H d Hin. apply in_app_or in Hin. destruct Hin as [Hin | [<- | []]].
  - apply H, Hin.
  - cbn. discriminate.
Qed.

Lemma review_keeps_reason documentId rd now st :
  (Review.rd_status rd =? "rejected")%string
  && negb (Js.truthy (Review.rd_rejectionReason rd)) = false ->
  rejected_has_reason st ->
  rejected_has_reason (snd (Review.sql_update_document documentId rd now st)).
Proof.
  intros Hok.
  apply (rejected_has_reason_map
           (fun d => if (id d =? documentId)%string
                     then Review.set_review now rd d else d));
    [reflexivity|].
  intros d Hd. destruct (id d =? documentId)%string; [|exact Hd].
  cbn. intros Hs. rewrite Hs in Hok. cbn in Hok.
  apply negb_false_iff in Hok. unfold Js.orNull. rewrite Hok.
  unfold Js.truthy in Hok. destruct (Review.rd_rejectionReason rd); discriminate.
Qed.

Lemma mark_expired_keeps_reason now st :
  rejected_has_reason st ->
  rejected_has_reason (snd (Expiry.sql_mark_expired now st)).
Proof.
  apply (rejected_has_reason_map
           (fun d => if Expiry.past_expiry now d
                     then Expiry.set_expired now d else d));
    [reflexivity|].
  intros d Hd. destruct (Expiry.past_expiry now d); [|exact Hd].
  cbn. discriminate.
Qed.

Lemma mark_notified_keeps_reason documentIds now st :
  rejected_has_reason st ->
  rejected_has_reason (snd (Expiry.sql_mark_notified documentIds now st)).
Proof.
  apply (rejected_has_reason_map
           (fun d => if Js.includes documentIds (id d)
                     then Expiry.set_notified now d else d));
    [reflexivity|].
  intros d Hd. destruct (Js.includes documentIds (id d)); exact Hd.
Qed.

Lemma handleUploadRequest_keeps_reason s3 body user :
  preserves rejected_has_reason (Upload.handleUploadRequest s3 body user).
Proof.
  unfold Upload.handleUploadRequest.
  repeat match goal with
         | |- preserves _ (if ?b then _ else _) => destruct b
         end;
    try apply SessionFacts.preserves_ret.
  apply SessionFacts.preserves_bind.
  { unfold Upload.generatePresignedUrl.
    destruct (Upload.getSignedUrl s3 _);
      [apply SessionFacts.preserves_ret | apply SessionFacts.preserves_throw]. }
  intros [presignedUrl s3Key].
  apply SessionFacts.preserves_bind;
    [apply SessionFacts.preserves_getDbConnection|].
  intros _. apply SessionFacts.preserves_bind.
  - intros env c. unfold Upload.createDocumentRecord.
    apply SessionFacts.preserves_bind.
    + apply SessionFacts.preserves_query. intros now st.
      apply insert_keeps_reason.
    + intros rows. apply SessionFacts.preserves_ret.
  - intros document. apply SessionFacts.preserves_ret.
Qed.

Lemma checkAllDocumentsApproved_keeps_reason driverId :
  preserves rejected_has_reason (Review.checkAllDocumentsApproved driverId).
Proof.
  unfold Review.checkAllDocumentsApproved.
  apply SessionFacts.preserves_bind.
  - apply SessionFacts.preserves_query. intros now st H. exact H.
  - intros rows.
    destruct (forallb _ Review.requiredDocs);
      [|apply SessionFacts.preserves_ret].
    apply SessionFacts.preserves_bind; [|intros; apply SessionFacts.preserves_ret].
    apply SessionFacts.preserves_query. intros now st.
    apply rejected_has_reason_documents. reflexivity.
Qed.

Lemma handleReviewDocument_keeps_reason event user :
  preserves rejected_has_reason (Review.handleReviewDocument event user).
Proof.
  unfold Review.handleReviewDocument.
  destruct (negb (Review.isAdmin user)); [apply SessionFacts.preserves_ret|].
  destruct (negb (Js.truthy (Review.pathParameters_documentId event)));
    [apply SessionFacts.preserves_ret|].
  destruct (Review.body event) as [|b]; [apply SessionFacts.preserves_throw|].
  destruct (negb (Js.truthy (Review.b_status b)) || _);
    [apply SessionFacts.preserves_ret|].
  destruct ((_ =? "rejected")%string && _) eqn:Hrej;
    [apply SessionFacts.preserves_ret|].
  apply SessionFacts.preserves_bind;
    [apply SessionFacts.preserves_getDbConnection|].
  intros _. apply SessionFacts.preserves_try_catch.
  2:{ intros e. apply SessionFacts.preserves_bind;
        [apply SessionFacts.preserves_ROLLBACK|].
      intros; apply SessionFacts.preserves_throw. }
  apply SessionFacts.preserves_bind; [apply SessionFacts.preserves_BEGIN|].
  intros _. apply SessionFacts.preserves_bind.
  { unfold Review.updateDocumentStatus.
    apply SessionFacts.preserves_bind.
    - apply SessionFacts.preserves_query. intros now st.
      apply review_keeps_reason. exact Hrej.
    - intros rows. destruct rows;
        [apply SessionFacts.preserves_throw | apply SessionFacts.preserves_ret]. }
  intros document.
  destruct (_ =? "approved")%string.
  - apply SessionFacts.preserves_bind.
    { unfold Review.updateDriverProfile.
      destruct (Review.columnMap _); [|apply SessionFacts.preserves_ret].
      apply SessionFacts.preserves_query. intros now st.
      apply rejected_has_reason_documents. reflexivity. }
    intros _. apply SessionFacts.preserves_bind;
      [apply checkAllDocumentsApproved_keeps_reason|].
    intros vs. apply SessionFacts.preserves_bind;
      [apply SessionFacts.preserves_COMMIT|].
    intros; apply SessionFacts.preserves_ret.
  - apply SessionFacts.preserves_bind; [apply SessionFacts.preserves_COMMIT|].
    intros; apply SessionFacts.preserves_ret.
Qed.

Lemma handler_keeps_reason lvl :
  preserves rejected_has_reason (Expiry.handler lvl).
Proof.
  apply ExpiryFacts.handler_preserves.
  - apply rejected_has_reason_documents.
  - apply mark_expired_keeps_reason.
  - apply mark_notified_keeps_reason.
Qed.

Lemma reachable_ok c : reachable c -> conn_ok rejected_has_reason c.
Proof.
  induction 1 as [profiles | s3 body user env c _ IH | event user env c _ IH
                  | lvl env c _ IH].
  - split; [|exact I]. intros d [].
  - apply handleUploadRequest_keeps_reason, IH.
  - apply handleReviewDocument_keeps_reason, IH.
  - apply handler_keeps_reason, IH.
Qed.

(** C1. Every document of a registry reachable through create, review and
    the expiry sweep that has status 'rejected' has a non-null
    rejection_reason. *)
Theorem rejected_documents_have_a_reason c d :
  reachable c ->
  In d (driver_documents (committed c)) ->
  status d = "rejected" ->
  rejection_reason d <> None.
Proof.
  intros Hr. destruct (reachable_ok c Hr) as [H _]. apply H.
Qed.

Lemma rejected_documents_have_a_reason_witness :
  rejection_reason
    (hd Sample.reviewed_license
        (driver_documents (committed Sample.reviewed_rejected)))
  <> None.
Proof.
  apply (rejected_documents_have_a_reason Sample.reviewed_rejected).
  - apply reach_review, reach_create, reach_fresh.
  - left. reflexivity.
  - reflexivity.
Defined.

(** C1, refuted as stated.  A license is uploaded into an empty registry
    and an administrator reviews it with status 'pending' and a
    rejectionReason in the body: the stored record is pending and carries
    the reason. *)
Lemma pending_document_with_a_reason :
  reachable Sample.reviewed_pending /\
  exists d,
    In d (driver_documents (committed Sample.reviewed_pending)) /\
    status d = "pending" /\
    rejection_reason d = Some "blurry scan" /\
    ~ (rejection_reason d <> None <-> status d = "rejected").
Proof.
  split.
  - apply reach_review, reach_create, reach_fresh.
  - eexists. split; [left; reflexivity|].
    split; [reflexivity|]. split; [reflexivity|].
    intros [H _]. cbn in H. discriminate H. discriminate.
Qed.

(** *** Which way a status can move *)

Lemma sweep_step_refl d : sweep_step d d.
Proof. unfold sweep_step. auto. Qed.

Lemma sweep_step_trans d1 d2 d3 :
  sweep_step d1 d2 -> sweep_step d2 d3 -> sweep_step d1 d3.
Proof.
  unfold sweep_step. intros (Hi & Hk & Hm) (Hi' & Hk' & Hm').
  split; [congruence|]. split.
  - intros Hne. rewrite <- (Hk Hne). apply Hk'. rewrite (Hk Hne). exact Hne.
  - destruct Hm as [E | E].
    + rewrite <- E. exact Hm'.
    + right. rewrite <- E. apply Hk'. rewrite E. discriminate.
Qed.

Lemma sweep_steps_refl docs : Forall2 sweep_step docs docs.
Proof. induction docs; constructor; auto using sweep_step_refl. Qed.

Lemma sweep_steps_map (f : Document -> Document) docs0 docs :
  (forall d, sweep_step d (f d)) ->
  Forall2 sweep_step docs0 docs -> Forall2 sweep_step docs0 (map f docs).
Proof.
  intros Hf H. induction H as [|d0 d docs0 docs Hd _ IH]; cbn; constructor.
  - eapply sweep_step_trans; [exact Hd | apply Hf].
  - exact IH.
Qed.

Lemma sweep_step_expire now d :
  sweep_step d (if Expiry.past_expiry now d then Expiry.set_expired now d else d).
Proof.
  destruct (Expiry.past_expiry now d) eqn:E; [|apply sweep_step_refl].
  unfold sweep_step; cbn. split; [reflexivity|]. split; [|right; reflexivity].
  intros Hne. apply ExpiryFacts.past_expiry_iff in E. destruct E as [Hs _].
  contradiction.
Qed.

Lemma sweep_step_notify documentIds now d :
  sweep_step d (if Js.includes documentIds (id d)
                then Expiry.set_notified now d else d).
Proof.
  destruct (Js.includes documentIds (id d)); [|apply sweep_step_refl].
  unfold sweep_step; cbn. auto.
Qed.

(** C5. What each operation can do to a status, on an idle connection.
    A sweep changes the status of approved documents only, and only to
    'expired': row by row the id is kept, a document that is not approved
    -- an expired one in particular -- keeps its status.  A review answered
    200 stores the requested status, one of approved, rejected, pending and
    processing, on the reviewed document whatever its current status, and
    leaves the other rows alone. *)
Theorem status_moves lvl env c event user resp c' b documentId :
  tx c = Idle ->
  Forall2 sweep_step
    (driver_documents (committed c))
    (driver_documents (committed (snd (Expiry.handler lvl env c)))) /\
  (Review.body event = Review.Parsed b ->
   Review.pathParameters_documentId event = Some documentId ->
   Review.handleReviewDocument event user env c = (Return resp, c') ->
   Review.statusCode resp = 200 ->
   (exists newStatus,
       Review.b_status b = Some newStatus /\
       In newStatus Review.validStatuses /\
       Forall2
         (fun d d' =>
            if (id d =? documentId)%string
            then status d' = newStatus
            else d' = d)
         (driver_documents (committed c)) (driver_documents (committed c')))).
Proof.
  intros Hidle. split.
  - pose proof (ExpiryFacts.handler_preserves
                  (fun st => Forall2 sweep_step (driver_documents (committed c))
                                     (driver_documents st)) lvl) as Hp.
    destruct (Hp
                (fun st st' E H => eq_ind_r (Forall2 sweep_step _) H E)
                (fun now st H => sweep_steps_map _ _ _ (sweep_step_expire now) H)
                (fun ids now st H => sweep_steps_map _ _ _ (sweep_step_notify ids now) H)
                env c) as [Hc _]; [|exact Hc].
    split; [apply sweep_steps_refl | rewrite Hidle; exact I].
  - intros Hb Hid Hrun Hcode.
    destruct (ReviewFacts.review_committed env event user c resp c' Hidle Hrun Hcode)
      as (b' & documentId' & Hb' & Hid' & Hvalid & _ & _ & Hdocs).
    rewrite Hb in Hb'. injection Hb' as <-.
    rewrite Hid in Hid'. injection Hid' as <-.
    unfold ReviewEffect.reviewDataOf in Hvalid, Hdocs; cbn in Hvalid.
    exists (match Review.b_status b with Some s => s | None => "" end).
    split; [|split].
    + destruct (Review.b_status b); [reflexivity|]. discriminate.
    + apply ExpiryFacts.includes_In, Hvalid.
    + rewrite Hdocs. clear.
      induction (driver_documents (committed c)) as [|d docs IH]; cbn [map];
        constructor; auto.
      destruct (id d =? documentId)%string; reflexivity.
Qed.

Lemma status_moves_witness :
  Forall2 sweep_step
    (driver_documents Sample.one_expired)
    (driver_documents
       (committed (snd (Expiry.handler "INFO" Sample.env_ok
                          (Sample.conn Sample.one_expired))))) /\
  exists newStatus,
    Some "approved" = Some newStatus /\
    In newStatus Review.validStatuses /\
    Forall2
      (fun d d' =>
         if (id d =? "lic")%string then status d' = newStatus else d' = d)
      (driver_documents Sample.one_expired)
      (driver_documents
         (committed
            (snd (Review.handleReviewDocument
                    (Sample.review_event "lic" "approved" None None)
                    (Sample.admin "admin-2") Sample.env_ok
                    (Sample.conn Sample.one_expired))))).
Proof.
  set (run := Review.handleReviewDocument
                (Sample.review_event "lic" "approved" None None)
                (Sample.admin "admin-2") Sample.env_ok
                (Sample.conn Sample.one_expired)).
  pose proof (status_moves "INFO" Sample.env_ok (Sample.conn Sample.one_expired)
                (Sample.review_event "lic" "approved" None None)
                (Sample.admin "admin-2")
                (match fst run with
                 | Return resp => resp
                 | Throw e => {| Review.statusCode := 500;
                                 Review.response_body := Review.ErrorBody e |}
                 end)
                (snd run)
                (Sample.review_body "approved" None None) "lic" eq_refl)
    as [Hsweep Hreview].
  split; [exact Hsweep|].
  exact (Hreview eq_refl eq_refl eq_refl eq_refl).
Defined.

(** C5, refuted as stated.  An administrator approves an expired license:
    it is approved again.  An administrator sends an approved license back
    to 'pending': it is pending again. *)
Lemma review_leaves_expired_and_approved :
  map status (driver_documents Sample.one_expired) = ["expired"] /\
  map status
      (driver_documents
         (committed
            (snd (Review.handleReviewDocument
                    (Sample.review_event "lic" "approved" None None)
                    (Sample.admin "admin-2") Sample.env_ok
                    (Sample.conn Sample.one_expired)))))
  = ["approved"] /\
  map status (driver_documents Sample.one_reviewed) = ["approved"] /\
  map status
      (driver_documents
         (committed
            (snd (Review.handleReviewDocument
                    (Sample.review_event "lic" "pending" None None)
                    (Sample.admin "admin-2") Sample.env_ok
                    (Sample.conn Sample.one_reviewed)))))
  = ["pending"].
Proof. repeat split. Qed.

End LifecycleFacts.

(** ** The upload handler *)

Module UploadFacts.

Import Upload Session.

(** *** File names in object keys *)

Lemma sanitize_length s : String.length (sanitize s) = String.length s.
Proof. induction s as [|a s IH]; cbn; [reflexivity | rewrite IH; reflexivity]. Qed.

Lemma sanitize_keyChar s :
  forall a, In a (list_ascii_of_string (sanitize s)) -> keyChar a = true.
Proof.
  induction s as [|b s IH]; cbn; intros a Hin; [contradiction|].
  destruct Hin as [<- | Hin]; [|apply IH, Hin].
  destruct (keyChar b) eqn:E; [exact E | reflexivity].
Qed.

Lemma sanitize_clean s :
  (forall a, In a (list_ascii_of_string s) -> keyChar a = true) ->
  sanitize s = s.
Proof.
  induction s as [|b s IH]; cbn; intros H; [reflexivity|].
  rewrite (H b (or_introl eq_refl)). f_equal. apply IH.
  intros a Ha. apply H. right. exact Ha.
Qed.

(** X1. The sanitised file name has the length of the original, consists
    of letters, digits, '.', '_' and '-' only -- so it holds no '/' --, is
    left alone by a second sanitisation, and equals the original when that
    was clean already. *)
Theorem sanitize_file_name s :
  String.length (sanitize s) = String.length s /\
  (forall a, In a (list_ascii_of_string (sanitize s)) ->
             keyChar a = true /\ a <> "/"%char) /\
  sanitize (sanitize s) = sanitize s /\
  ((forall a, In a (list_ascii_of_string s) -> keyChar a = true) ->
   sanitize s = s).
Proof.
  split; [apply sanitize_length|]. split; [|split].
  - intros a Hin. pose proof (sanitize_keyChar s a Hin) as Hk.
    split; [exact Hk|]. intros ->. discriminate Hk.
  - apply sanitize_clean, sanitize_keyChar.
  - apply sanitize_clean.
Qed.

(** *** Path segments of the object key *)

Lemma slashes_app a b :
  Outcomes.slashes (a ++ b) = (Outcomes.slashes a + Outcomes.slashes b)%nat.
Proof.
  induction a as [|x a IH]; [reflexivity|]. cbn [append Outcomes.slashes].
  rewrite IH. destruct (Ascii.eqb x "/"); reflexivity.
Qed.

Lemma slashes_sanitize s : Outcomes.slashes (sanitize s) = 0%nat.
Proof.
  induction s as [|x s IH]; [reflexivity|]. cbn [sanitize Outcomes.slashes].
  rewrite IH. destruct (keyChar x) eqn:E; [|reflexivity].
  destruct (Ascii.eqb x "/") eqn:Ex; [|reflexivity].
  apply Ascii.eqb_eq in Ex. subst x. discriminate E.
Qed.

(** X18. The file name a client sends cannot add a path segment to the
    object key: whatever the name, the key has as many '/' as the key for
    the empty name, it ends with the sanitised name, and the name changes
    the length of the key by exactly its own length. *)
Theorem file_name_adds_no_segment s3 driverId documentType fileName tenantId :
  Outcomes.slashes (s3KeyOf s3 driverId documentType fileName tenantId)
  = Outcomes.slashes (s3KeyOf s3 driverId documentType "" tenantId) /\
  s3KeyOf s3 driverId documentType fileName tenantId
  = s3KeyOf s3 driverId documentType "" tenantId ++ sanitize fileName /\
  String.length (s3KeyOf s3 driverId documentType fileName tenantId)
  = (String.length (s3KeyOf s3 driverId documentType "" tenantId)
     + String.length fileName)%nat.
Proof.
  assert (Happ : forall a b c : string, (a ++ b) ++ c = a ++ (b ++ c)).
  { intros a b c. induction a as [|x a IH]; [reflexivity|]. cbn.
    rewrite IH. reflexivity. }
  assert (Hlen : forall a b : string,
             String.length (a ++ b) = (String.length a + String.length b)%nat).
  { intros a b. induction a as [|x a IH]; [reflexivity|]. cbn.
    rewrite IH. reflexivity. }
  assert (Hkey : s3KeyOf s3 driverId documentType fileName tenantId
                 = s3KeyOf s3 driverId documentType "" tenantId
                   ++ sanitize fileName).
  { unfold s3KeyOf. cbn [sanitize].
    destruct (Js.truthy tenantId); rewrite !Happ; reflexivity. }
  split; [|split; [exact Hkey|]].
  - rewrite Hkey, slashes_app, slashes_sanitize. apply Nat.add_0_r.
  - rewrite Hkey, Hlen, sanitize_length. reflexivity.
Qed.

(** *** Outcomes of an upload request *)

#[local] Arguments Js.includes : simpl never.
#[local] Arguments Js.truthy : simpl never.
#[local] Arguments String.eqb : simpl never.
#[local] Arguments getDocumentCategory : simpl never.
#[local] Arguments s3KeyOf : simpl never.
#[local] Arguments sql_insert_document : simpl never.
#[local] Arguments Z.ltb : simpl never.
#[local] Arguments Z.mul : simpl never.

(** X2. An upload request on an idle connection ends in one of three
    ways.  It is refused with 400 and the connection is untouched; or it
    throws (signing, connecting or the insert failed) and the tables are as
    before; or it is answered 200, and then exactly one row was appended:
    pending, owned by the caller, of a valid type with the category of that
    type, stored under the signed key, with a size of at most 10 MiB, no
    review data, created at the time of the insert, and the answer carries
    its id and the signed URL.  Profiles are never touched. *)
Theorem upload_outcomes s3 body user env c :
  tx c = Idle ->
  let r := handleUploadRequest s3 body user env c in
  match fst r with
  | Return resp =>
      (statusCode resp = 400 /\ snd r = c)
      \/
      (statusCode resp = 200 /\
       exists row url,
         committed (snd r)
         = {| driver_documents := driver_documents (committed c) ++ [row];
              driver_profiles := driver_profiles (committed c) |} /\
         getSignedUrl s3 (s3_key row) = Return url /\
         response_body resp = Granted url (Some (id row)) (s3_key row) 900 /\
         tx (snd r) = Idle /\
         id row = uuid_generate_v4 env (seq c) /\
         status row = "pending" /\
         driver_id row = userId user /\
         tenant_id row = tenantId user /\
         In (document_type row) validTypes /\
         document_category row = getDocumentCategory (document_type row) /\
         file_size_bytes row <= 10 * 1024 * 1024 /\
         verified_at row = None /\ verified_by row = None /\
         rejection_reason row = None /\ expiry_date row = None /\
         expiration_notified_at row = None /\
         created_at row = clock env (seq c) /\
         updated_at row = clock env (seq c))
  | Throw _ => committed (snd r) = committed c /\ tx (snd r) = Idle
  end.
Proof.
  destruct c as [st t n lg]. cbn [tx seq committed log]. intros ->.
  unfold handleUploadRequest.
  set (dt := orElse (documentType body) (document_type_ body)).
  set (fn := orElse (fileName body) (file_name_ body)).
  set (ct := orElse (contentType body) (content_type_ body)).
  set (fs := orElseNumber (fileSize body) (file_size_ body)).
  destruct (negb (Js.truthy dt) || negb (Js.truthy fn) || negb (Js.truthy ct));
    [cbn; left; split; reflexivity|].
  destruct (negb (Js.includes validTypes (text dt))) eqn:Hty;
    [cbn; left; split; reflexivity|].
  apply negb_false_iff in Hty.
  destruct (truthyNumber fs
            && (10 * 1024 * 1024 <? match fs with Some v => v | None => 0 end))
    eqn:Hsize; [cbn; left; split; reflexivity|].
  cbv beta zeta delta [bind generatePresignedUrl getDbConnection
                       createDocumentRecord query ret throw].
  destruct (getSignedUrl s3 (s3KeyOf s3 (userId user) (text dt) (text fn)
                               (tenantId user))) as [url | e] eqn:Hsign;
    cbn; [|split; reflexivity].
  destruct (connects env); cbn; [|split; reflexivity].
  destruct (fails env n); cbn; [split; reflexivity|].
  right. split; [reflexivity|].
  eexists. exists url. unfold sql_insert_document. cbn.
  split; [reflexivity|]. cbn. split; [exact Hsign|].
  repeat split; try reflexivity.
  - exact (proj1 (ExpiryFacts.includes_In validTypes (text dt)) Hty).
  - unfold orElseNumber at 1. destruct (truthyNumber fs) eqn:Ht.
    + cbn in Hsize. destruct fs as [v|]; [|discriminate Ht].
      apply Z.ltb_ge in Hsize. exact Hsize.
    + cbn. unfold Z.mul; cbn. lia.
Qed.

Lemma upload_outcomes_witness :
  let r := handleUploadRequest Sample.s3 Sample.upload_license Sample.driver
             Sample.env_ok (Sample.conn Sample.one_expired) in
  exists row,
    committed (snd r)
    = {| driver_documents := driver_documents Sample.one_expired ++ [row];
         driver_profiles := driver_profiles Sample.one_expired |} /\
    status row = "pending" /\
    driver_id row = "driver-1".
Proof.
  cbv zeta.
  pose proof (upload_outcomes Sample.s3 Sample.upload_license Sample.driver
                Sample.env_ok (Sample.conn Sample.one_expired) eq_refl) as H.
  cbv zeta in H. revert H.
  destruct (handleUploadRequest Sample.s3 Sample.upload_license Sample.driver
              Sample.env_ok (Sample.conn Sample.one_expired))
    as [[resp | e] c'] eqn:E; cbn [fst snd]; intros H.
  - destruct H as [[H _] | [_ (row & url & Hc & _ & _ & _ & _ & Hst & Hdrv & _)]].
    + exfalso. injection E as <- _. discriminate H.
    + exists row. split; [exact Hc|]. split; [exact Hst | exact Hdrv].
  - discriminate E.
Defined.

End UploadFacts.

(** ** More on the review handler *)

Module ReviewMore.

Import Review ReviewEffect Session.

#[local] Arguments sql_update_document : simpl never.
#[local] Arguments sql_update_profile_column : simpl never.
#[local] Arguments sql_select_approved : simpl never.
#[local] Arguments sql_mark_complete : simpl never.
#[local] Arguments Js.includes : simpl never.
#[local] Arguments Js.truthy : simpl never.
#[local] Arguments String.eqb : simpl never.
#[local] Arguments columnMap : simpl never.
#[local] Arguments forallb : simpl never.
#[local] Arguments filter : simpl never.
#[local] Arguments reviewDataOf : simpl never.

(** *** A valid request in an environment without failures *)

Lemma update_hits_known documentId rd now st :
  existsb (fun d => (id d =? documentId)%string) (driver_documents st) = true ->
  fst (sql_update_document documentId rd now st) <> [].
Proof.
  unfold sql_update_document; cbn [fst]. intros Hex Hnil.
  apply existsb_exists in Hex. destruct Hex as (d & Hin & Hid).
  apply map_eq_nil in Hnil.
  assert (Hd : In (if (id d =? documentId)%string then set_review now rd d else d)
                  (filter (fun d0 => (id d0 =? documentId)%string)
                     (map (fun d0 => if (id d0 =? documentId)%string
                                     then set_review now rd d0 else d0)
                          (driver_documents st)))).
  { apply filter_In. split.
    - apply in_map_iff. exists d. split; [reflexivity | exact Hin].
    - rewrite Hid. cbn. exact Hid. }
  rewrite Hnil in Hd. contradiction.
Qed.

Lemma update_misses_unknown documentId rd now st :
  existsb (fun d => (id d =? documentId)%string) (driver_documents st) = false ->
  fst (sql_update_document documentId rd now st) = [].
Proof.
  unfold sql_update_document; cbn [fst]. intros Hex.
  destruct (filter _ _) as [|d' rest] eqn:Hf; [reflexivity|]. exfalso.
  assert (Hin : In d' (d' :: rest)) by (left; reflexivity).
  rewrite <- Hf in Hin. apply filter_In in Hin. destruct Hin as [Hin Hhit].
  apply in_map_iff in Hin. destruct Hin as (d & Hd & Hin).
  assert (Hnone : (id d =? documentId)%string = false).
  { destruct (id d =? documentId)%string eqn:E; [|reflexivity].
    rewrite <- Hex. symmetry. apply existsb_exists. exists d. split; assumption. }
  rewrite Hnone in Hd. subst d'. rewrite Hnone in Hhit. discriminate.
Qed.

(** X3. A well-formed review request by an administrator, on an idle
    connection that can be reached and with no statement failing.  If some
    document has the requested id the call is answered 200.  If none has,
    the call throws 'Document not found' after BEGIN, the update and
    ROLLBACK, and the tables are as before; no 404 is produced. *)
Theorem review_of_known_and_unknown_id env event user c b documentId newStatus :
  tx c = Idle ->
  connects env = true ->
  (forall k, fails env k = false) ->
  isAdmin user = true ->
  pathParameters_documentId event = Some documentId ->
  documentId <> "" ->
  body event = Parsed b ->
  b_status b = Some newStatus ->
  In newStatus validStatuses ->
  (newStatus = "rejected" -> Js.truthy (b_rejectionReason b) = true) ->
  let r := handleReviewDocument event user env c in
  if existsb (fun d => (id d =? documentId)%string)
             (driver_documents (committed c))
  then exists document vs,
         fst r = Return {| statusCode := 200;
                           response_body :=
                             Reviewed "Document reviewed successfully"
                                      document vs |}
  else fst r = Throw "Document not found" /\
       committed (snd r) = committed c /\
       tx (snd r) = Idle /\
       new_statements c (snd r)
       = [BEGIN; UpdateDocumentStatus documentId; ROLLBACK].
Proof.
  destruct c as [st t n lg]. cbn [tx seq committed log].
  intros -> Hconn Hclean Hadm Hid Hne Hb Hs Hvalid Hreason.
  unfold handleReviewDocument.
  rewrite Hadm, Hid, Hb, Hs. cbn [negb].
  assert (Htid : Js.truthy (Some documentId) = true).
  { unfold Js.truthy. apply negb_true_iff. apply String.eqb_neq. exact Hne. }
  rewrite Htid. cbn [negb].
  assert (Hnz : Js.truthy (Some newStatus) = true).
  { unfold Js.truthy. apply negb_true_iff. apply String.eqb_neq. intros ->.
    repeat (destruct Hvalid as [Hvalid | Hvalid]; [discriminate|]).
    contradiction. }
  rewrite Hnz, (proj2 (ExpiryFacts.includes_In validStatuses newStatus) Hvalid).
  cbn [negb orb].
  assert (Hrej : (newStatus =? "rejected")%string
                 && negb (Js.truthy (b_rejectionReason b)) = false).
  { destruct (newStatus =? "rejected")%string eqn:E; [|reflexivity].
    apply String.eqb_eq in E. rewrite (Hreason E). reflexivity. }
  rewrite Hrej.
  cbv beta delta [bind try_catch getDbConnection query_BEGIN updateDocumentStatus
    updateDriverProfile checkAllDocumentsApproved
    query query_ROLLBACK query_COMMIT throw ret]. cbn.
  rewrite Hconn. cbn. rewrite !Hclean. cbn.
  match goal with
  | |- context [sql_update_document documentId ?rd (clock env n) st] =>
      pose proof (update_hits_known documentId rd (clock env n) st) as Hhit;
      pose proof (update_misses_unknown documentId rd (clock env n) st) as Hmiss;
      destruct (sql_update_document documentId rd (clock env n) st)
        as [rows st1] eqn:Hupd
  end.
  cbn [fst] in Hhit, Hmiss.
  destruct (existsb (fun d => (id d =? documentId)%string) (driver_documents st)).
  - destruct rows as [|document rows]; [exfalso; apply Hhit; reflexivity|].
    cbn. destruct (newStatus =? "approved")%string; cbn.
    + destruct (columnMap (r_document_type document)); cbn; rewrite ?Hclean; cbn.
      * destruct (sql_update_profile_column _ _ _ _ _) as [[] st2]. cbn.
        rewrite ?Hclean. cbn.
        destruct (sql_select_approved _ _ _ _) as [sel st3]. cbn.
        destruct (forallb _ _); cbn; rewrite ?Hclean; cbn.
        -- destruct (sql_mark_complete _ _ _) as [upd st4]. cbn.
           rewrite ?Hclean. cbn. eexists. eexists. reflexivity.
        -- eexists. eexists. reflexivity.
      * destruct (sql_select_approved _ _ _ _) as [sel st3]. cbn.
        destruct (forallb _ _); cbn; rewrite ?Hclean; cbn.
        -- destruct (sql_mark_complete _ _ _) as [upd st4]. cbn.
           rewrite ?Hclean. cbn. eexists. eexists. reflexivity.
        -- eexists. eexists. reflexivity.
    + rewrite ?Hclean. cbn. eexists. eexists. reflexivity.
  - rewrite (Hmiss eq_refl). cbn. rewrite ?Hclean. cbn.
    repeat split.
    unfold new_statements. cbn.
    rewrite <- !app_assoc. rewrite skipn_app, skipn_all, Nat.sub_diag.
    reflexivity.
Qed.

Lemma review_of_known_and_unknown_id_witness :
  let r := handleReviewDocument
             (Sample.review_event "nowhere" "approved" None None)
             (Sample.admin "admin-2") Sample.env_ok
             (Sample.conn Sample.four_approved) in
  fst r = Throw "Document not found" /\
  committed (snd r) = Sample.four_approved /\
  tx (snd r) = Idle /\
  new_statements (Sample.conn Sample.four_approved) (snd r)
  = [BEGIN; UpdateDocumentStatus "nowhere"; ROLLBACK].
Proof.
  exact (review_of_known_and_unknown_id Sample.env_ok
           (Sample.review_event "nowhere" "approved" None None)
           (Sample.admin "admin-2") (Sample.conn Sample.four_approved)
           (Sample.review_body "approved" None None) "nowhere" "approved"
           eq_refl eq_refl (fun _ => eq_refl) eq_refl eq_refl
           ltac:(discriminate) eq_refl eq_refl (or_introl eq_refl)
           ltac:(discriminate)).
Defined.

(** *** What the handler can answer *)

Section ReturnsOnly.

Context {A : Type} (Q : A -> Prop).

Lemma returns_only_ret a : Q a -> Outcomes.returns_only Q (ret a).
Proof. intros H env c a' c' E. injection E as <- _. exact H. Qed.

Lemma returns_only_throw e : Outcomes.returns_only Q (@throw A e).
Proof. intros env c a' c' E. discriminate. Qed.

Lemma returns_only_bind {B : Type} (m : Async B) (k : B -> Async A) :
  (forall b, Outcomes.returns_only Q (k b)) ->
  Outcomes.returns_only Q (bind m k).
Proof.
  intros Hk env c a c' E. unfold bind in E.
  destruct (m env c) as [[b | e] c1]; [|discriminate].
  eapply Hk, E.
Qed.

Lemma returns_only_try_catch (m : Async A) (h : string -> Async A) :
  Outcomes.returns_only Q m ->
  (forall e, Outcomes.returns_only Q (h e)) ->
  Outcomes.returns_only Q (try_catch m h).
Proof.
  intros Hm Hh env c a c' E. unfold try_catch in E.
  destruct (m env c) as [[b | e] c1] eqn:Em.
  - injection E as <- <-. eapply Hm, Em.
  - eapply Hh, E.
Qed.

End ReturnsOnly.

(** What the review handler can return, and that an answer other than
    200 comes before the connection is used. *)
Lemma handleReviewDocument_returns env event user c :
  forall resp c',
    handleReviewDocument event user env c = (Return resp, c') ->
    (statusCode resp = 200 \/ statusCode resp = 400 \/ statusCode resp = 403) /\
    (statusCode resp <> 200 ->
     c' = c /\ exists e, response_body resp = ErrorBody e).
Proof.
  intros resp c'. unfold handleReviewDocument.
  destruct (negb (isAdmin user)).
  { intros E. injection E as <- <-. cbn. eauto 6. }
  destruct (negb (Js.truthy (pathParameters_documentId event))).
  { intros E. injection E as <- <-. cbn. eauto 6. }
  destruct (body event) as [|b]; [discriminate|].
  destruct (negb (Js.truthy (b_status b)) || _).
  { intros E. injection E as <- <-. cbn. eauto 6. }
  destruct (_ && _).
  { intros E. injection E as <- <-. cbn. eauto 6. }
  intros E.
  assert (H200 : statusCode resp = 200).
  { match type of E with
    | ?m env c = _ =>
        assert (Hr : Outcomes.returns_only (fun r => statusCode r = 200) m);
          [|exact (Hr _ _ _ _ E)]
    end.
    apply returns_only_bind. intros _.
    apply returns_only_try_catch.
    - apply returns_only_bind. intros _.
      apply returns_only_bind. intros document.
      destruct (_ =? "approved")%string.
      + repeat (apply returns_only_bind; intros ?).
        apply returns_only_ret. reflexivity.
      + apply returns_only_bind. intros _.
        apply returns_only_ret. reflexivity.
    - intros e. apply returns_only_bind. intros _. apply returns_only_throw. }
  split; [left; exact H200 | intros Hne; contradiction].
Qed.

Lemma handleReviewDocument_forbidden env event user c :
  isAdmin user = false ->
  handleReviewDocument event user env c
  = (Return {| statusCode := 403;
               response_body := ErrorBody "Forbidden: Admin access required" |},
     c).
Proof. intros Hadm. unfold handleReviewDocument. rewrite Hadm. reflexivity. Qed.

(** X4. The review handler returns 200, 400 or 403 and nothing else,
    whatever the state of the connection.  A 400 or 403 comes before the
    connection is used, so the connection is exactly as before.  A caller
    who is not an administrator gets 403 for every request, even a malformed
    one. *)
Theorem review_answers env event user c :
  (forall resp c',
      handleReviewDocument event user env c = (Return resp, c') ->
      (statusCode resp = 200 \/ statusCode resp = 400 \/ statusCode resp = 403) /\
      (statusCode resp <> 200 ->
       c' = c /\ exists e, response_body resp = ErrorBody e)) /\
  (isAdmin user = false ->
   handleReviewDocument event user env c
   = (Return {| statusCode := 403;
                response_body := ErrorBody "Forbidden: Admin access required" |},
      c)).
Proof.
  split;
    [apply handleReviewDocument_returns | apply handleReviewDocument_forbidden].
Qed.

(** *** The profile rows a review may touch *)

Lemma only_driver_refl driverId p : Outcomes.only_driver driverId p p.
Proof. split; auto. Qed.

Lemma only_driver_map driverId (f : Profile -> Profile) profiles0 profiles :
  (forall p, user_id (f p) = user_id p) ->
  Forall2 (Outcomes.only_driver driverId) profiles0 profiles ->
  Forall2 (Outcomes.only_driver driverId) profiles0
    (map (fun p => if (user_id p =? driverId)%string then f p else p) profiles).
Proof.
  intros Hf H. induction H as [|p0 p l0 l [Hu Hk] _ IH]; cbn [map]; constructor;
    [|exact IH].
  destruct (user_id p =? driverId)%string eqn:E.
  - split; [rewrite Hf; exact Hu|]. intros Hne.
    apply String.eqb_eq in E. rewrite <- Hu in Hne. contradiction.
  - split; assumption.
Qed.

Lemma only_driver_all_refl driverId profiles :
  Forall2 (Outcomes.only_driver driverId) profiles profiles.
Proof. induction profiles; constructor; auto using only_driver_refl. Qed.

Lemma reference_writes_only_driver document documentId now st profiles0 :
  Forall2 (Outcomes.only_driver (r_driver_id document)) profiles0
          (driver_profiles st) ->
  Forall2 (Outcomes.only_driver (r_driver_id document)) profiles0
          (driver_profiles (reference_writes document documentId now st)).
Proof.
  intros H. unfold reference_writes.
  destruct (columnMap (r_document_type document)) as [col|]; [|exact H].
  unfold sql_update_profile_column; cbn [snd driver_profiles].
  apply only_driver_map; [reflexivity | exact H].
Qed.

Lemma recompute_writes_only_driver driverId now st profiles0 :
  Forall2 (Outcomes.only_driver driverId) profiles0 (driver_profiles st) ->
  Forall2 (Outcomes.only_driver driverId) profiles0
          (driver_profiles (recompute_writes driverId now st)).
Proof.
  intros H. unfold recompute_writes.
  destruct (allApprovedIn driverId now st); [|exact H].
  unfold sql_mark_complete; cbn [snd driver_profiles].
  apply only_driver_map; [reflexivity | exact H].
Qed.

(** X5. A review answered 200 leaves the profile rows of every driver
    other than the owner of the reviewed document exactly as they were, and
    keeps the number and the users of the rows.  When the new status is not
    'approved' (the answer carries no verification status) the profiles
    table is not touched at all. *)
Theorem review_touches_only_the_owner
    env event user c resp c' message document vs :
  tx c = Idle ->
  handleReviewDocument event user env c = (Return resp, c') ->
  response_body resp = Reviewed message document vs ->
  Forall2 (Outcomes.only_driver (r_driver_id document))
          (driver_profiles (committed c)) (driver_profiles (committed c')) /\
  (vs = None -> driver_profiles (committed c') = driver_profiles (committed c)).
Proof.
  intros Hidle Hrun Hbody.
  destruct (ReviewFacts.handleReviewDocument_cases env event user c Hidle)
    as [(resp' & Hout & _ & Hc) | [(e & Hout & _) |
        (b & documentId & document' & _ & _ & _ & _ & _ & Hrow & Hout & _ & Hc & _)]];
    rewrite Hrun in *; cbn [fst snd] in *.
  - injection Hout as <-. subst c'.
    split; [apply only_driver_all_refl | reflexivity].
  - discriminate.
  - injection Hout as ->. cbn in Hbody. injection Hbody as _ <- Hvs.
    rewrite Hc. clear Hc Hrun.
    unfold review_verification in Hvs. unfold review_writes.
    pose proof (ReviewFacts.sql_update_document_profiles documentId
                  (reviewDataOf user b) (clock env (seq c)) (committed c)) as Hp.
    destruct (sql_update_document documentId (reviewDataOf user b)
                (clock env (seq c)) (committed c)) as [rows st1].
    cbn [snd] in Hp.
    destruct rows as [|row rows]; [discriminate|].
    cbn in Hrow. injection Hrow as ->.
    destruct (rd_status (reviewDataOf user b) =? "approved")%string.
    + split; [|intros ->; discriminate].
      apply recompute_writes_only_driver, reference_writes_only_driver.
      rewrite Hp. apply only_driver_all_refl.
    + rewrite Hp. split; [apply only_driver_all_refl | reflexivity].
Qed.

Lemma review_touches_only_the_owner_witness :
  driver_profiles
    (committed
       (snd (handleReviewDocument
               (Sample.review_event "lic" "pending" None None)
               (Sample.admin "admin-2") Sample.env_ok
               (Sample.conn Sample.one_reviewed))))
  = driver_profiles (committed (Sample.conn Sample.one_reviewed)).
Proof.
  exact (proj2
    (review_touches_only_the_owner Sample.env_ok
       (Sample.review_event "lic" "pending" None None)
       (Sample.admin "admin-2") (Sample.conn Sample.one_reviewed)
       _ _ _ _ _ eq_refl eq_refl eq_refl) eq_refl).
Defined.

(** *** Completeness in terms of the documents *)

Lemma allApprovedIn_iff driverId now st :
  allApprovedIn driverId now st = true <->
  forall t, In t requiredDocs ->
            exists d, In d (driver_documents st) /\
                      driver_id d = driverId /\
                      document_type d = t /\
                      status d = "approved".
Proof.
  unfold allApprovedIn, sql_select_approved. cbn [fst].
  rewrite forallb_forall. split.
  - intros H t Ht. specialize (H t Ht).
    apply ExpiryFacts.includes_In in H.
    apply in_map_iff in H. destruct H as ([ty stt] & Hfst & Hin). cbn in Hfst.
    apply in_map_iff in Hin. destruct Hin as (d & Hd & Hin).
    apply filter_In in Hin. destruct Hin as [Hin Hcond].
    apply andb_true_iff in Hcond. destruct Hcond as [Hcond Hst].
    apply andb_true_iff in Hcond. destruct Hcond as [Hdrv _].
    exists d. injection Hd as Hty _.
    repeat split; auto.
    + apply String.eqb_eq, Hdrv.
    + congruence.
    + apply String.eqb_eq, Hst.
  - intros H t Ht. destruct (H t Ht) as (d & Hin & Hdrv & Hty & Hst).
    apply ExpiryFacts.includes_In.
    apply in_map_iff. exists (document_type d, status d). split; [exact Hty|].
    apply in_map_iff. exists d. split; [reflexivity|].
    apply filter_In. split; [exact Hin|].
    rewrite Hdrv, Hst, Hty, !String.eqb_refl.
    rewrite (proj2 (ExpiryFacts.includes_In requiredDocs t) Ht). reflexivity.
Qed.

Lemma selected_type_iff driverId now st t :
  In t requiredDocs ->
  Js.includes (map fst (fst (sql_select_approved driverId requiredDocs now st))) t
  = true <->
  exists d, In d (driver_documents st) /\
            driver_id d = driverId /\
            document_type d = t /\
            status d = "approved".
Proof.
  intros Ht. unfold sql_select_approved. cbn [fst].
  rewrite ExpiryFacts.includes_In. split.
  - intros H.
    apply in_map_iff in H. destruct H as ([ty stt] & Hfst & Hin). cbn in Hfst.
    apply in_map_iff in Hin. destruct Hin as (d & Hd & Hin).
    apply filter_In in Hin. destruct Hin as [Hin Hcond].
    apply andb_true_iff in Hcond. destruct Hcond as [Hcond Hst].
    apply andb_true_iff in Hcond. destruct Hcond as [Hdrv _].
    exists d. injection Hd as Hty _.
    repeat split; auto.
    + apply String.eqb_eq, Hdrv.
    + congruence.
    + apply String.eqb_eq, Hst.
  - intros (d & Hin & Hdrv & Hty & Hst).
    apply in_map_iff. exists (document_type d, status d). split; [exact Hty|].
    apply in_map_iff. exists d. split; [reflexivity|].
    apply filter_In. split; [exact Hin|].
    rewrite Hdrv, Hst, Hty, !String.eqb_refl.
    rewrite (proj2 (ExpiryFacts.includes_In requiredDocs t) Ht). reflexivity.
Qed.

(** X6. The completeness check of the review lambda, on an idle connection
    or inside a block.  It returns when neither of its two statements fails.
    When it returns, its verdict is "all approved" exactly when, among the
    documents the session sees, the driver has an approved document of each
    of license, insurance, registration and profile_photo.  A negative
    verdict lists exactly the required types without such a document and
    comes with no write at all; a positive verdict comes with the
    completeness update of the driver's profile rows. *)
Theorem all_approved_iff env c driverId :
  let approved t :=
    exists d, In d (driver_documents (visible c)) /\
              driver_id d = driverId /\
              document_type d = t /\
              status d = "approved" in
  let required := ["license"; "insurance"; "registration"; "profile_photo"] in
  (tx c <> Aborted ->
   fails env (seq c) = false ->
   fails env (S (seq c)) = false ->
   exists v c1, checkAllDocumentsApproved driverId env c = (Return v, c1)) /\
  (forall v c1,
      checkAllDocumentsApproved driverId env c = (Return v, c1) ->
      (allDocumentsApproved v = true <->
       forall t, In t required -> approved t) /\
      (forall missing,
          v = NotAllApproved missing ->
          (forall t, In t missing <-> In t required /\ ~ approved t) /\
          visible c1 = visible c /\
          committed c1 = committed c /\
          log c1 = (log c ++ [SelectApprovedRequired driverId])%list) /\
      (forall ps,
          v = AllApproved ps ->
          visible c1
          = snd (sql_mark_complete driverId
                   (statement_time env c (S (seq c))) (visible c)) /\
          log c1 = (log c ++ [SelectApprovedRequired driverId;
                              UpdateProfileComplete driverId])%list)).
Proof.
  cbv zeta. split.
  - destruct c as [st t n lg]. cbn [tx seq]. intros Hna F0 F1.
    cbv beta delta [checkAllDocumentsApproved bind query ret]. cbn.
    rewrite F0.
    destruct t as [| work started |]; cbn; [| |contradiction Hna; reflexivity].
    + destruct (sql_select_approved _ _ _ _) as [sel st']. cbn.
      destruct (forallb _ _); cbn; rewrite ?F1; cbn.
      * destruct (sql_mark_complete _ _ _) as [upd st2]. cbn.
        eexists. eexists. reflexivity.
      * eexists. eexists. reflexivity.
    + destruct (sql_select_approved _ _ _ _) as [sel st']. cbn.
      destruct (forallb _ _); cbn; rewrite ?F1; cbn.
      * destruct (sql_mark_complete _ _ _) as [upd st2]. cbn.
        eexists. eexists. reflexivity.
      * eexists. eexists. reflexivity.
  - intros v c1 Hrun.
    destruct (ReviewFacts.checkAllDocumentsApproved_returns env c driverId v c1
                Hrun) as (Hall & Hno & Hyes).
    cbv zeta in Hall, Hno, Hyes.
    split; [|split].
    + rewrite Hall. apply allApprovedIn_iff.
    + intros missing ->. cbn in Hall. symmetry in Hall.
      destruct (Hno Hall) as (Hv & Hvis & Hc & Hlog).
      split; [|split; [exact Hvis | split; [exact Hc | exact Hlog]]].
      unfold recompute_result in Hv. rewrite Hall in Hv. injection Hv as ->.
      intros t. rewrite filter_In. cbv beta. split.
      * intros [Ht Hn]. split; [exact Ht|]. intros Happ.
        apply (selected_type_iff driverId 0 (visible c) t Ht) in Happ.
        change (negb (Js.includes
                        (map fst (fst (sql_select_approved driverId requiredDocs
                                         0 (visible c)))) t) = true) in Hn.
        rewrite Happ in Hn. discriminate Hn.
      * intros [Ht Hn]. split; [exact Ht|].
        destruct (Js.includes _ t) eqn:E; [|reflexivity].
        exfalso. apply Hn.
        apply (selected_type_iff driverId 0 (visible c) t Ht). exact E.
    + intros ps ->. cbn in Hall. symmetry in Hall. exact (Hyes Hall).
Qed.

(** *** An approval that completes the set *)

Lemma sql_mark_complete_status driverId now st p :
  In p (driver_profiles (snd (sql_mark_complete driverId now st))) ->
  user_id p = driverId ->
  profile_status p <> "pending_documents".
Proof.
  unfold sql_mark_complete; cbn [snd driver_profiles]. intros Hin Hid.
  apply in_map_iff in Hin. destruct Hin as (p0 & <- & _).
  destruct (user_id p0 =? driverId)%string eqn:E.
  - cbn. destruct (profile_status p0 =? "pending_documents")%string eqn:Es.
    + discriminate.
    + apply String.eqb_neq, Es.
  - apply String.eqb_neq in E. contradiction.
Qed.

Lemma sql_mark_complete_no_row driverId now st :
  hd_error (fst (sql_mark_complete driverId now st)) = None <->
  forall p, In p (driver_profiles (snd (sql_mark_complete driverId now st))) ->
            user_id p <> driverId.
Proof.
  unfold sql_mark_complete; cbn [fst snd driver_profiles].
  set (l := map _ (driver_profiles st)).
  split.
  - intros H p Hin Hid.
    assert (Hf : In p (filter (fun p => (user_id p =? driverId)%string) l)).
    { apply filter_In. split; [exact Hin|]. apply String.eqb_eq, Hid. }
    destruct (filter _ l) as [|q rest]; [contradiction|]. discriminate H.
  - intros H.
    destruct (filter (fun p => (user_id p =? driverId)%string) l)
      as [|q rest] eqn:Hf; [reflexivity|]. exfalso.
    assert (Hq : In q (q :: rest)) by (left; reflexivity).
    rewrite <- Hf in Hq. apply filter_In in Hq. destruct Hq as [Hin Hid].
    apply (H q Hin). apply String.eqb_eq, Hid.
Qed.

(** X7. When a review is answered 200 with the verdict "all approved",
    the owner of the reviewed document has, in the committed tables, an
    approved document of each required type; every profile row of the owner
    says documents_complete, carries the time of the review's BEGIN in
    documents_verified_at and is not 'pending_documents' any more; and the
    answer carries no profile row exactly when the owner has none. *)
Theorem approval_completing_the_set
    env event user c resp c' message document ps :
  tx c = Idle ->
  handleReviewDocument event user env c = (Return resp, c') ->
  response_body resp = Reviewed message document (Some (AllApproved ps)) ->
  (forall t, In t requiredDocs ->
             exists d, In d (driver_documents (committed c')) /\
                       driver_id d = r_driver_id document /\
                       document_type d = t /\
                       status d = "approved") /\
  (forall p, In p (driver_profiles (committed c')) ->
             user_id p = r_driver_id document ->
             documents_complete p = true /\
             documents_verified_at p = Some (clock env (seq c)) /\
             profile_status p <> "pending_documents") /\
  (ps = None <->
   forall p, In p (driver_profiles (committed c')) ->
             user_id p <> r_driver_id document).
Proof.
  intros Hidle Hrun Hbody.
  destruct (ReviewFacts.handleReviewDocument_cases env event user c Hidle)
    as [(resp' & Hout & Hne & Hc) | [(e & Hout & _) |
        (b & documentId & document' & _ & _ & _ & _ & _ & Hrow & Hout & _ & Hc & _)]];
    rewrite Hrun in *; cbn [fst snd] in *.
  - injection Hout as <-.
    pose proof (handleReviewDocument_returns env event user c) as Hans.
    destruct (Hans _ _ Hrun) as [_ Herr].
    destruct (Herr Hne) as (_ & e & He). rewrite He in Hbody. discriminate.
  - discriminate.
  - injection Hout as ->. cbn in Hbody. injection Hbody as _ Hd Hvs. subst document'.
    rewrite Hc. clear Hc Hrun.
    unfold review_verification in Hvs. unfold review_writes.
    destruct (sql_update_document documentId (reviewDataOf user b)
                (clock env (seq c)) (committed c)) as [rows st1].
    destruct rows as [|row rows]; [discriminate|].
    cbn in Hrow. injection Hrow as ->.
    destruct (rd_status (reviewDataOf user b) =? "approved")%string;
      [|discriminate].
    injection Hvs as Hvs. unfold recompute_result in Hvs.
    unfold recompute_writes.
    set (st2 := reference_writes document documentId (clock env (seq c)) st1) in *.
    destruct (allApprovedIn (r_driver_id document) (clock env (seq c)) st2)
      eqn:Hall; [|discriminate].
    injection Hvs as <-.
    split; [|split].
    + apply (allApprovedIn_iff (r_driver_id document) (clock env (seq c)) st2).
      exact Hall.
    + intros p Hin Hid.
      destruct (ReviewFacts.sql_mark_complete_stamps _ _ _ _ Hin Hid) as [H1 H2].
      split; [exact H1|]. split; [exact H2|].
      eapply sql_mark_complete_status; eassumption.
    + apply sql_mark_complete_no_row.
Qed.

Lemma approval_completing_the_set_witness :
  exists d,
    In d (driver_documents
            (committed
               (snd (handleReviewDocument
                       (Sample.review_event "pho" "approved" None None)
                       (Sample.admin "admin-2") Sample.env_ok
                       (Sample.conn Sample.four_approved))))) /\
    driver_id d = "driver-1" /\
    document_type d = "license" /\
    status d = "approved".
Proof.
  destruct (approval_completing_the_set Sample.env_ok
              (Sample.review_event "pho" "approved" None None)
              (Sample.admin "admin-2") (Sample.conn Sample.four_approved)
              _ _ _ _ _ eq_refl eq_refl eq_refl) as (H & _).
  exact (H "license" (or_introl eq_refl)).
Defined.

End ReviewMore.

(** ** Caller identity and routing of the review lambda *)

Module RouteFacts.

Import ReviewRoute Outcomes.

(** *** Substring tests *)

Lemma prefix_iff p s :
  String.prefix p s = true <-> exists b, s = (p ++ b)%string.
Proof.
  revert s. induction p as [|a p IH]; intros s.
  - split; [intros _; exists s; reflexivity | destruct s; reflexivity].
  - destruct s as [|c s]; cbn.
    + split; [discriminate | intros (b & Hb); discriminate].
    + destruct (Ascii.ascii_dec a c) as [<- | Hne].
      * rewrite IH. split; intros (b & Hb); exists b; congruence.
      * split; [discriminate|]. intros (b & Hb). congruence.
Qed.

Lemma contains_unfold sub s :
  Js.contains sub s =
  if String.prefix sub s then true
  else match s with
       | EmptyString => false
       | String _ rest => Js.contains sub rest
       end.
Proof. destruct s; reflexivity. Qed.

Lemma contains_iff sub s :
  Js.contains sub s = true <-> exists a b, s = (a ++ sub ++ b)%string.
Proof.
  split.
  - induction s as [|c s IH]; rewrite contains_unfold;
      destruct (String.prefix sub _) eqn:E.
    + intros _. apply prefix_iff in E. destruct E as (b & Hb).
      exists "", b. exact Hb.
    + discriminate.
    + intros _. apply prefix_iff in E. destruct E as (b & Hb).
      exists "", b. exact Hb.
    + intros H. destruct (IH H) as (a & b & Hs).
      exists (String c a), b. cbn. rewrite Hs. reflexivity.
  - intros (a & b & ->). induction a as [|c a IH].
    + rewrite contains_unfold.
      rewrite (proj2 (prefix_iff sub ("" ++ sub ++ b))); [reflexivity|].
      exists b. reflexivity.
    + rewrite contains_unfold. destruct (String.prefix sub _); [reflexivity|].
      exact IH.
Qed.

(** X8. Without JWT claims the caller is refused with 'Missing JWT
    claims'.  With claims the user id is the subject, and the caller counts
    as administrator exactly when the roles claim contains the letters
    "admin" somewhere -- as a role of its own or inside another role name. *)
Theorem admin_is_a_substring_test :
  Review.extractUserFromEvent None = Throw "Missing JWT claims" /\
  forall cl,
    exists u,
      Review.extractUserFromEvent (Some cl) = Return u /\
      Review.userId u = Review.sub cl /\
      (Review.isAdmin u = true <->
       exists roles a b,
         Review.custom_roles cl = Some roles /\
         roles = (a ++ "admin" ++ b)%string).
Proof.
  split; [reflexivity|]. intros cl. eexists. split; [reflexivity|].
  split; [reflexivity|]. cbn.
  destruct (Review.custom_roles cl) as [roles|].
  - rewrite contains_iff. split.
    + intros (a & b & H). exists roles, a, b. split; [reflexivity | exact H].
    + intros (roles' & a & b & E & H). injection E as <-. exists a, b. exact H.
  - split; [discriminate|]. intros (roles & a & b & E & _). discriminate.
Qed.

(** *** The route pattern *)

Lemma stripPrefix_iff p s r :
  stripPrefix p s = Some r <-> s = (p ++ r)%string.
Proof.
  revert s. induction p as [|a p IH]; intros s; cbn.
  - split; [intros E; injection E as <-; reflexivity | intros ->; reflexivity].
  - destruct s as [|c s].
    + split; discriminate.
    + destruct (Ascii.eqb a c) eqn:E.
      * apply Ascii.eqb_eq in E. subst c. rewrite IH.
        split; [intros ->; reflexivity | intros H; injection H as ->; reflexivity].
      * apply Ascii.eqb_neq in E. split; [discriminate|].
        intros H. injection H as H _. congruence.
Qed.

Lemma segmentThenReview_iff s :
  forall seen,
    segmentThenReview s seen = true <->
    exists seg, s = (seg ++ "/review")%string /\ noSlash seg /\
                (seen = true \/ seg <> "").
Proof.
  induction s as [|a s IH]; intros seen; cbn [segmentThenReview].
  - split; [discriminate|]. intros (seg & H & _). destruct seg; discriminate.
  - destruct (Ascii.eqb a "/") eqn:E.
    + apply Ascii.eqb_eq in E. subst a. split.
      * intros H. apply andb_true_iff in H. destruct H as [Hseen Heq].
        apply String.eqb_eq in Heq. exists "". split; [exact Heq|].
        split; [intros a []|left; exact Hseen].
      * intros (seg & Hs & Hno & Hseen). destruct seg as [|b seg].
        -- cbn in Hs. rewrite Hs. cbn.
           destruct Hseen as [-> | Hne]; [reflexivity | contradiction].
        -- cbn in Hs. injection Hs as <- _.
           exfalso. apply (Hno "/"%char); [left|]; reflexivity.
    + apply Ascii.eqb_neq in E. rewrite IH. split.
      * intros (seg & Hs & Hno & _). exists (String a seg).
        split; [cbn; rewrite Hs; reflexivity|].
        split; [|right; discriminate].
        intros b [<- | Hb]; [exact E | apply Hno, Hb].
      * intros (seg & Hs & Hno & _). destruct seg as [|b seg].
        -- cbn in Hs. injection Hs as -> _. contradiction.
        -- cbn in Hs. injection Hs as <- Hs. exists seg.
           split; [exact Hs|]. split; [|left; reflexivity].
           intros c Hc. apply Hno. right. exact Hc.
Qed.

Lemma reviewRouteAt_iff s :
  reviewRouteAt s = true <->
  exists seg, s = ("/admin/documents/" ++ seg ++ "/review")%string /\
              seg <> "" /\ noSlash seg.
Proof.
  unfold reviewRouteAt.
  destruct (stripPrefix "/admin/documents/" s) as [rest|] eqn:E.
  - apply stripPrefix_iff in E. rewrite segmentThenReview_iff. split.
    + intros (seg & Hr & Hno & [Hs | Hne]); [discriminate|].
      exists seg. rewrite E, Hr. auto.
    + intros (seg & Hs & Hne & Hno). exists seg.
      rewrite E in Hs. apply stripPrefix_iff in Hs.
      rewrite (proj2 (stripPrefix_iff "/admin/documents/"
                        ("/admin/documents/" ++ rest) rest) eq_refl) in Hs.
      injection Hs as ->. auto.
  - split; [discriminate|]. intros (seg & Hs & _).
    apply stripPrefix_iff in Hs. rewrite Hs in E. discriminate.
Qed.

Lemma matchesReviewRoute_unfold path :
  matchesReviewRoute path =
  if reviewRouteAt path then true
  else match path with
       | EmptyString => false
       | String _ rest => matchesReviewRoute rest
       end.
Proof. destruct path; reflexivity. Qed.

(** X9. A path reaches the review route exactly when it ends in
    "/admin/documents/<segment>/review" with a non-empty segment that holds
    no slash; anything may come before. *)
Theorem review_route_paths path :
  matchesReviewRoute path = true <->
  exists pre seg,
    path = (pre ++ "/admin/documents/" ++ seg ++ "/review")%string /\
    seg <> "" /\ noSlash seg.
Proof.
  split.
  - induction path as [|c path IH]; rewrite matchesReviewRoute_unfold;
      destruct (reviewRouteAt _) eqn:E.
    + apply reviewRouteAt_iff in E. destruct E as (seg & Hs & H).
      intros _. exists "", seg. auto.
    + discriminate.
    + apply reviewRouteAt_iff in E. destruct E as (seg & Hs & H).
      intros _. exists "", seg. auto.
    + intros H. destruct (IH H) as (pre & seg & Hs & Hne & Hno).
      exists (String c pre), seg. cbn. rewrite Hs. auto.
  - intros (pre & seg & -> & Hne & Hno). induction pre as [|c pre IH].
    + rewrite matchesReviewRoute_unfold.
      rewrite (proj2 (reviewRouteAt_iff _)); [reflexivity|].
      exists seg. auto.
    + rewrite matchesReviewRoute_unfold.
      destruct (reviewRouteAt _); [reflexivity | exact IH].
Qed.

(** *** The exported handler *)

(** X10. The review lambda always answers, with one of 200, 400, 403,
    404 and 500.  A 400, 403 or 404 leaves the connection untouched.  It
    answers 200 only to a PUT on the review route by a caller whose roles
    claim contains "admin".  Without claims it answers 500 without using
    the connection.  A 500 is exactly an answer with the generic body
    'Internal server error', and the underlying message is included only
    when LOG_LEVEL is DEBUG.  Every answer carries the CORS origin header. *)
Theorem review_lambda_answers lvl event env c :
  let r := handler lvl event env c in
  In (http_statusCode (fst r)) [200; 400; 403; 404; 500] /\
  (In (http_statusCode (fst r)) [400; 403; 404] -> snd r = c) /\
  (http_statusCode (fst r) = 200 ->
   http_method event = "PUT" /\
   matchesReviewRoute (requestPath event) = true /\
   exists cl roles,
     jwt_claims event = Some cl /\
     Review.custom_roles cl = Some roles /\
     Js.contains "admin" roles = true) /\
  (jwt_claims event = None -> http_statusCode (fst r) = 500 /\ snd r = c) /\
  (http_statusCode (fst r) = 500 <->
   exists m, http_body (fst r) = InternalServerError "Internal server error" m) /\
  (forall e m, http_body (fst r) = InternalServerError e m ->
               lvl <> "DEBUG" -> m = None) /\
  In ("Access-Control-Allow-Origin", "*") (http_headers (fst r)).
Proof.
  cbv zeta. unfold handler, requestPath.
  assert (Hlvl : forall e m,
             (if (lvl =? "DEBUG")%string then Some e else None) = m ->
             lvl <> "DEBUG" -> m = @None string).
  { intros e m <- Hne. apply String.eqb_neq in Hne. rewrite Hne. reflexivity. }
  destruct (jwt_claims event) as [cl|]; cbn [Review.extractUserFromEvent].
  2:{ cbn. repeat split; auto; try discriminate; try tauto;
        try (eexists; reflexivity).
      intros e m E. injection E as _ E. eapply Hlvl, E. }
  set (user := {| Review.userId := Review.sub cl; Review.isAdmin := _ |}).
  destruct ((http_method event =? "PUT")%string && matchesReviewRoute _) eqn:Hroute.
  2:{ cbn. repeat split; auto; try discriminate; try tauto.
      intros (m & H). discriminate. }
  apply andb_true_iff in Hroute. destruct Hroute as [Hput Hpath].
  apply String.eqb_eq in Hput.
  pose proof (ReviewMore.handleReviewDocument_returns env (request event) user c)
    as Hans.
  pose proof (ReviewMore.handleReviewDocument_forbidden env (request event) user c)
    as Hforbid.
  destruct (Review.handleReviewDocument (request event) user env c)
    as [[resp | e] c'] eqn:Hrun; cbn.
  - destruct (Hans resp c' eq_refl) as [Hcode Hsame].
    split; [destruct Hcode as [-> | [-> | ->]]; cbn; auto|].
    split.
    { intros Hin. apply Hsame.
      destruct Hin as [H | [H | [H | []]]]; rewrite <- H; discriminate. }
    split.
    { intros H200. split; [exact Hput|]. split; [exact Hpath|]. exists cl.
      destruct (Review.isAdmin user) eqn:Hadm.
      - subst user. cbn in Hadm.
        destruct (Review.custom_roles cl) as [roles|]; [|discriminate].
        exists roles. auto.
      - specialize (Hforbid eq_refl). injection Hforbid as E _.
        rewrite E in H200. discriminate H200. }
    split; [discriminate|].
    split.
    { split.
      - intros H500.
        destruct Hcode as [H | [H | H]]; rewrite H in H500; discriminate.
      - intros (m & H). discriminate. }
    split; [discriminate | auto].
  - repeat split; auto; try discriminate; try tauto;
      try (eexists; reflexivity).
    + intros [H | [H | [H | []]]]; discriminate.
    + intros e' m E. injection E as _ E. eapply Hlvl, E.
Qed.

End RouteFacts.

(** ** The verification status query *)

Module VerificationFacts.

Import Verification Session.

Lemma insert_by_created_In d l x :
  In x (insert_by_created d l) <-> x = d \/ In x l.
Proof.
  induction l as [|h t IH]; cbn.
  - split; [intros [<- | []]; auto | intros [-> | []]; auto].
  - destruct (created_at d <=? created_at h); cbn; rewrite ?IH;
      intuition (subst; auto).
Qed.

Lemma newest_first_In l x : In x (newest_first l) <-> In x l.
Proof.
  unfold newest_first.
  assert (H : forall acc, In x (fold_left (fun acc d => insert_by_created d acc) l acc)
                          <-> In x l \/ In x acc).
  { induction l as [|d l IH]; intros acc; cbn.
    - tauto.
    - rewrite IH, insert_by_created_In. intuition (subst; auto). }
  rewrite H. cbn. tauto.
Qed.

Lemma newest_first_length l : length (newest_first l) = length l.
Proof.
  unfold newest_first.
  assert (Hi : forall d acc, length (insert_by_created d acc) = S (length acc)).
  { intros d acc. induction acc as [|h t IH]; cbn; [reflexivity|].
    destruct (created_at d <=? created_at h); cbn; [rewrite IH|]; reflexivity. }
  assert (H : forall acc,
             length (fold_left (fun acc d => insert_by_created d acc) l acc)
             = (length l + length acc)%nat).
  { induction l as [|d l IH]; intros acc; cbn; [reflexivity|].
    rewrite IH, Hi. lia. }
  rewrite H. cbn. lia.
Qed.

(** A type reported as not missing has an approved document of the driver. *)
Lemma not_missing_is_approved driverId now st t :
  isMissing (sql_driver_documents driverId now st) t = false ->
  exists d, In d (driver_documents st) /\
            driver_id d = driverId /\
            document_type d = t /\
            status d = "approved".
Proof.
  unfold isMissing, findType. intros H.
  destruct (find _ _) as [row|] eqn:Hf; [|discriminate].
  apply negb_false_iff, String.eqb_eq in H.
  apply find_some in Hf. destruct Hf as [Hin Hty].
  apply String.eqb_eq in Hty.
  unfold sql_driver_documents in Hin. apply in_map_iff in Hin.
  destruct Hin as (d & <- & Hin). cbn in H, Hty.
  apply newest_first_In, filter_In in Hin. destruct Hin as [Hin Hdrv].
  apply String.eqb_eq in Hdrv. exists d. auto.
Qed.

#[local] Arguments sql_driver_documents : simpl never.
#[local] Arguments sql_profile : simpl never.
#[local] Arguments ReviewEffect.allApprovedIn : simpl never.
#[local] Arguments filter : simpl never.
#[local] Arguments String.eqb : simpl never.

(** X11. The verification status query never changes a table, whatever
    fails and whatever the state of the connection.  Asked about anyone but
    the caller it answers 403
    without using the connection.  When it answers 200, the summary is about
    the caller, lists the four required types in order, counts the caller's
    documents, and says verificationComplete exactly when no required type
    is missing; and when it says so, the completeness check of the review
    lambda would find all required documents approved on the same tables. *)
Theorem verification_status_query pathDriverId user env c :
  let r := handleGetVerificationStatus pathDriverId user env c in
  committed (snd r) = committed c /\
  (pathDriverId <> Some (Upload.userId user) ->
   r = (Return {| statusCode := 403; response_body := ErrorBody "Forbidden" |}, c)) /\
  (forall resp,
      fst r = Return resp ->
      statusCode resp = 200 ->
      exists sm,
        response_body resp = StatusBody sm /\
        pathDriverId = Some (Upload.userId user) /\
        driverId sm = Upload.userId user /\
        map fst (requiredDocuments sm) = requiredDocs /\
        totalDocuments sm
        = length (filter (fun d => (driver_id d =? Upload.userId user)%string)
                         (driver_documents (visible c))) /\
        (verificationComplete sm = true <-> missingDocuments sm = []) /\
        (verificationComplete sm = true ->
         ReviewEffect.allApprovedIn (Upload.userId user) 0 (visible c) = true)).
Proof.
  cbv zeta. unfold handleGetVerificationStatus.
  destruct (negb _) eqn:Hown.
  { cbn. repeat split; auto. intros resp E. injection E as <-. discriminate. }
  assert (Hpath : pathDriverId = Some (Upload.userId user)).
  { apply negb_false_iff in Hown. destruct pathDriverId as [i|]; [|discriminate].
    apply String.eqb_eq in Hown. rewrite Hown. reflexivity. }
  destruct c as [st t n lg]. unfold visible. cbn [tx committed log seq].
  cbv beta delta [bind getDbConnection select ret]. cbn.
  destruct (connects env); cbn.
  2:{ repeat split; auto; [contradiction | discriminate]. }
  destruct (fails env n); cbn.
  { repeat split; auto; [contradiction | discriminate]. }
  assert (Hsum : forall now now' store resp,
             Return
               {| statusCode := 200;
                  response_body :=
                    StatusBody
                      {| driverId := Upload.userId user;
                         verificationComplete :=
                           (length (filter (isMissing (sql_driver_documents
                                                         (Upload.userId user) now store))
                                           requiredDocs) =? 0)%nat;
                         documentsComplete :=
                           match hd_error (sql_profile (Upload.userId user) now' store) with
                           | Some row => q_documents_complete row
                           | None => false
                           end;
                         verifiedAt :=
                           match hd_error (sql_profile (Upload.userId user) now' store) with
                           | Some row => q_documents_verified_at row
                           | None => None
                           end;
                         profileStatus :=
                           option_map q_profile_status
                             (hd_error (sql_profile (Upload.userId user) now' store));
                         requiredDocuments :=
                           map (fun docType =>
                                  (docType,
                                   statusOf (sql_driver_documents
                                               (Upload.userId user) now store) docType))
                               requiredDocs;
                         missingDocuments :=
                           filter (isMissing (sql_driver_documents
                                                (Upload.userId user) now store))
                                  requiredDocs;
                         totalDocuments :=
                           length (sql_driver_documents (Upload.userId user) now store);
                         allDocuments :=
                           sql_driver_documents (Upload.userId user) now store |} |}
             = Return resp ->
             statusCode resp = 200 ->
             exists sm,
               response_body resp = StatusBody sm /\
               pathDriverId = Some (Upload.userId user) /\
               driverId sm = Upload.userId user /\
               map fst (requiredDocuments sm) = requiredDocs /\
               totalDocuments sm
               = length (filter (fun d => (driver_id d =? Upload.userId user)%string)
                                (driver_documents store)) /\
               (verificationComplete sm = true <-> missingDocuments sm = []) /\
               (verificationComplete sm = true ->
                ReviewEffect.allApprovedIn (Upload.userId user) 0 store = true)).
  { intros now now' store resp E _. injection E as <-.
    eexists. split; [reflexivity|]. cbn.
    split; [exact Hpath|]. split; [reflexivity|].
    split; [reflexivity|].
    split.
    { unfold sql_driver_documents. rewrite length_map, newest_first_length.
      reflexivity. }
    assert (Hnil : forall l : list string, (length l =? 0)%nat = true <-> l = []).
    { intros l. destruct l; cbn; split; auto; discriminate. }
    split; [apply Hnil|].
    intros Hc. apply Hnil in Hc.
    apply ReviewMore.allApprovedIn_iff. intros ty Hty.
    apply (not_missing_is_approved (Upload.userId user) now store ty).
    destruct (isMissing _ ty) eqn:Hm; [|reflexivity].
    assert (Hin : In ty (filter (isMissing (sql_driver_documents
                                              (Upload.userId user) now store))
                                requiredDocs)).
    { apply filter_In. split; [exact Hty | exact Hm]. }
    rewrite Hc in Hin. contradiction. }
  destruct t as [| work started |]; cbn.
  - destruct (fails env (S n)); cbn.
    + repeat split; auto; [contradiction | discriminate].
    + repeat split; auto; [contradiction|]. apply Hsum.
  - destruct (fails env (S n)); cbn.
    + repeat split; auto; [contradiction | discriminate].
    + repeat split; auto; [contradiction|]. apply Hsum.
  - repeat split; auto; [contradiction | discriminate].
Qed.

End VerificationFacts.

(** ** More on the expiry sweep *)

Module ExpiryMore.

Import Expiry Session Sweep SweepEffect.

(** *** The near-expiry selection *)

Lemma expiring_iff daysAhead now d :
  expiring daysAhead now d = true <->
  status d = "approved" /\
  (exists e, expiry_date d = Some e /\
             Sql.CURRENT_DATE now <= e <= Sql.CURRENT_DATE now + daysAhead) /\
  expiration_notified_at d = None.
Proof.
  unfold expiring. rewrite !andb_true_iff, String.eqb_eq.
  destruct (expiry_date d) as [e|], (expiration_notified_at d) as [t|].
  - split; [intros [_ H]; discriminate | intros (_ & _ & H); discriminate].
  - rewrite andb_true_iff, !Z.leb_le. split.
    + intros [[Hs He] _]. split; [exact Hs|]. split; [|reflexivity].
      exists e. split; [reflexivity | exact He].
    + intros (Hs & (e' & E & He) & _). injection E as <-. auto.
  - split; [intros [_ H]; discriminate | intros (_ & _ & H); discriminate].
  - split; [intros [[_ H] _]; discriminate|].
    intros (_ & (e' & E & _) & _). discriminate.
Qed.

Lemma insert_by_expiry_In r l x :
  In x (insert_by_expiry r l) <-> x = r \/ In x l.
Proof.
  induction l as [|h t IH]; cbn.
  - intuition (subst; auto).
  - destruct (e_expiry_date h <=? e_expiry_date r); cbn; rewrite ?IH;
      intuition (subst; auto).
Qed.

Lemma order_by_expiry_In l x : In x (order_by_expiry l) <-> In x l.
Proof.
  unfold order_by_expiry.
  assert (H : forall acc,
             In x (fold_left (fun acc r => insert_by_expiry r acc) l acc)
             <-> In x l \/ In x acc).
  { induction l as [|r l IH]; intros acc; cbn.
    - tauto.
    - rewrite IH, insert_by_expiry_In. intuition (subst; auto). }
  rewrite H. cbn. tauto.
Qed.

Lemma insert_by_expiry_length r l :
  length (insert_by_expiry r l) = S (length l).
Proof.
  induction l as [|h t IH]; cbn; [reflexivity|].
  destruct (e_expiry_date h <=? e_expiry_date r); cbn; [rewrite IH|]; reflexivity.
Qed.

Lemma order_by_expiry_length l : length (order_by_expiry l) = length l.
Proof.
  unfold order_by_expiry.
  assert (H : forall acc,
             length (fold_left (fun acc r => insert_by_expiry r acc) l acc)
             = (length l + length acc)%nat).
  { induction l as [|r l IH]; intros acc; cbn; [reflexivity|].
    rewrite IH, insert_by_expiry_length. lia. }
  rewrite H. cbn. lia.
Qed.

Lemma insert_by_expiry_sorted r l :
  StronglySorted by_expiry l -> StronglySorted by_expiry (insert_by_expiry r l).
Proof.
  induction 1 as [|h t Hs IH Hall]; cbn.
  - constructor; constructor.
  - destruct (e_expiry_date h <=? e_expiry_date r) eqn:E.
    + apply Z.leb_le in E. constructor; [exact IH|].
      apply Forall_forall. intros x Hx. apply insert_by_expiry_In in Hx.
      destruct Hx as [-> | Hx]; [exact E|].
      rewrite Forall_forall in Hall. apply Hall, Hx.
    + apply Z.leb_gt in E. constructor; [constructor; assumption|].
      constructor; [unfold by_expiry; lia|].
      rewrite Forall_forall in Hall |- *. intros x Hx.
      specialize (Hall x Hx). unfold by_expiry in *. lia.
Qed.

Lemma order_by_expiry_sorted l : StronglySorted by_expiry (order_by_expiry l).
Proof.
  unfold order_by_expiry.
  assert (H : forall acc, StronglySorted by_expiry acc ->
                          StronglySorted by_expiry
                            (fold_left (fun acc r => insert_by_expiry r acc) l acc)).
  { induction l as [|r l IH]; intros acc Hacc; cbn; [exact Hacc|].
    apply IH, insert_by_expiry_sorted, Hacc. }
  apply H. constructor.
Qed.

(** X12. The near-expiry query changes nothing and returns, in order of
    non-decreasing expiry date, one row per selected document, the selected
    documents being exactly those that are approved, expire between the
    current date and [daysAhead] days later (both ends included) and have no
    notification time yet: a document that was notified before is never
    returned again. *)
Theorem expiring_documents_found daysAhead now st :
  snd (sql_find_expiring daysAhead now st) = st /\
  StronglySorted by_expiry (fst (sql_find_expiring daysAhead now st)) /\
  length (fst (sql_find_expiring daysAhead now st))
  = length (filter (expiring daysAhead now) (driver_documents st)) /\
  (forall r,
      In r (fst (sql_find_expiring daysAhead now st)) <->
      exists d,
        In d (driver_documents st) /\
        r = expiring_row now d /\
        status d = "approved" /\
        (exists e, expiry_date d = Some e /\
                   Sql.CURRENT_DATE now <= e <= Sql.CURRENT_DATE now + daysAhead) /\
        expiration_notified_at d = None).
Proof.
  unfold sql_find_expiring; cbn [fst snd].
  split; [reflexivity|]. split; [apply order_by_expiry_sorted|].
  split; [rewrite order_by_expiry_length, length_map; reflexivity|].
  intros r. rewrite order_by_expiry_In, in_map_iff. split.
  - intros (d & <- & Hin). apply filter_In in Hin. destruct Hin as [Hin Hex].
    apply expiring_iff in Hex. exists d. split; [exact Hin|].
    split; [reflexivity | exact Hex].
  - intros (d & Hin & -> & Hex). exists d. split; [reflexivity|].
    apply filter_In. split; [exact Hin|]. apply expiring_iff, Hex.
Qed.

(** *** Stamping the notified documents *)

Lemma expiring_same_day daysAhead now now' d :
  Sql.CURRENT_DATE now' = Sql.CURRENT_DATE now ->
  expiring daysAhead now' d = expiring daysAhead now d.
Proof. intros H. unfold expiring. rewrite H. reflexivity. Qed.

Lemma found_ids_iff daysAhead now st i :
  In i (map e_id (fst (sql_find_expiring daysAhead now st))) <->
  exists d, In d (driver_documents st) /\
            expiring daysAhead now d = true /\ id d = i.
Proof.
  unfold sql_find_expiring; cbn [fst]. rewrite in_map_iff. split.
  - intros (r & <- & Hr). apply order_by_expiry_In, in_map_iff in Hr.
    destruct Hr as (d & <- & Hin). apply filter_In in Hin.
    exists d. cbn. tauto.
  - intros (d & Hin & Hex & <-). exists (expiring_row now d).
    split; [reflexivity|]. apply order_by_expiry_In, in_map_iff.
    exists d. split; [reflexivity|]. apply filter_In. auto.
Qed.

Lemma unique_id_In (docs : list Document) d d' :
  NoDup (map id docs) -> In d docs -> In d' docs -> id d = id d' -> d = d'.
Proof.
  induction docs as [|h t IH]; cbn; intros Hnd Hd Hd' E; [contradiction|].
  apply NoDup_cons_iff in Hnd. destruct Hnd as [Hh Hnd].
  destruct Hd as [<- | Hd], Hd' as [<- | Hd']; auto.
  - exfalso. apply Hh. rewrite E. apply in_map, Hd'.
  - exfalso. apply Hh. rewrite <- E. apply in_map, Hd.
Qed.

(** X13. Stamping the documents the near-expiry query returned.  Every
    document that was selected gets the notification time; afterwards a
    query on the same date returns nothing, so a second run on that day
    notifies nobody.  When document ids are unique, the selected documents
    are the only rows that change. *)
Theorem notified_documents_are_stamped daysAhead now stamp now' st :
  Sql.CURRENT_DATE now' = Sql.CURRENT_DATE now ->
  let ids := map e_id (fst (sql_find_expiring daysAhead now st)) in
  let st' := snd (sql_mark_notified ids stamp st) in
  fst (sql_find_expiring daysAhead now' st') = [] /\
  driver_documents st'
  = map (fun d => if Js.includes ids (id d) then set_notified stamp d else d)
        (driver_documents st) /\
  (forall d, In d (driver_documents st) ->
             expiring daysAhead now d = true ->
             Js.includes ids (id d) = true) /\
  (NoDup (map id (driver_documents st)) ->
   forall d, In d (driver_documents st) ->
             expiring daysAhead now d = false ->
             Js.includes ids (id d) = false).
Proof.
  intros Hday ids st'.
  assert (Hfound : forall d, In d (driver_documents st) ->
                             expiring daysAhead now d = true ->
                             Js.includes ids (id d) = true).
  { intros d Hin Hex. apply ExpiryFacts.includes_In. subst ids.
    apply found_ids_iff. exists d. auto. }
  split; [|split; [reflexivity|split; [exact Hfound|]]].
  - assert (Hnone : forall d', In d' (driver_documents st') ->
                               expiring daysAhead now' d' = false).
    { intros d' Hin. subst st'. unfold sql_mark_notified in Hin.
      cbn [snd driver_documents] in Hin. apply in_map_iff in Hin.
      destruct Hin as (d & <- & Hin).
      destruct (Js.includes ids (id d)) eqn:Hi.
      - unfold expiring. cbn. apply andb_false_r.
      - rewrite (expiring_same_day daysAhead now now' d Hday).
        destruct (expiring daysAhead now d) eqn:Hex; [|reflexivity].
        rewrite (Hfound d Hin Hex) in Hi. discriminate. }
    unfold sql_find_expiring; cbn [fst].
    assert (Hf : filter (expiring daysAhead now') (driver_documents st') = []).
    { induction (driver_documents st') as [|d l IH]; [reflexivity|]. cbn.
      rewrite (Hnone d (or_introl eq_refl)). apply IH.
      intros d' Hd'. apply Hnone. right. exact Hd'. }
    rewrite Hf. reflexivity.
  - intros Hnd d Hin Hex.
    destruct (Js.includes ids (id d)) eqn:Hi; [|reflexivity].
    apply ExpiryFacts.includes_In in Hi. subst ids.
    apply found_ids_iff in Hi. destruct Hi as (d2 & Hin2 & Hex2 & Hid).
    rewrite (unique_id_In _ d2 d Hnd Hin2 Hin Hid) in Hex2. congruence.
Qed.

Lemma notified_documents_are_stamped_witness :
  fst (sql_find_expiring 30 8640002
         (snd (sql_mark_notified
                 (map e_id (fst (sql_find_expiring 30 8640000 Sample.two_lapsed)))
                 8640001 Sample.two_lapsed)))
  = [].
Proof.
  exact (proj1 (notified_documents_are_stamped 30 8640000 8640001 8640002
                  Sample.two_lapsed eq_refl)).
Defined.

(** *** A sweep that has nothing to demote *)

(** X14. A sweep on an idle connection whose demotion update finds no
    approved document past its expiry date leaves every profile row as it
    is, whatever fails and whatever the stored aggregates say: the sweep
    does not repair a profile that is out of date with its documents. *)
Theorem sweep_without_demotion_keeps_profiles lvl env c :
  tx c = Idle ->
  filter (past_expiry (clock env (seq c))) (driver_documents (committed c)) = [] ->
  driver_profiles (committed (snd (handler lvl env c)))
  = driver_profiles (committed c).
Proof.
  intros Hidle Hnone.
  set (P := fun st => driver_profiles st = driver_profiles (committed c)).
  unfold handler. unfold attempt at 1. unfold getDbConnection.
  destruct (connects env); [|reflexivity].
  unfold attempt at 1.
  destruct (fails env (seq c)) eqn:Hok.
  { unfold markExpiredDocuments, query. rewrite Hok. reflexivity. }
  rewrite (ExpiryFacts.markExpiredDocuments_idle env c Hidle Hok).
  rewrite ExpiryFacts.sql_mark_expired_returning, Hnone. cbn [map].
  match goal with
  | |- context [attempt lvl ?res ?m ?k env ?c1] =>
      assert (Hp : preserves P (attempt lvl res m k))
  end.
  { apply ExpiryFacts.preserves_attempt; [apply SessionFacts.preserves_ret|].
    intros updated. apply ExpiryFacts.preserves_attempt.
    - apply SessionFacts.preserves_query. intros now st H. exact H.
    - intros expiringDocs. destruct expiringDocs.
      + intros env' c' H. exact H.
      + apply ExpiryFacts.preserves_attempt.
        * unfold markNotificationSent. cbn [map].
          apply SessionFacts.preserves_query. intros now st H. exact H.
        * intros _ env' c' H. exact H. }
  apply Hp. split; [reflexivity | exact I].
Qed.

Lemma sweep_without_demotion_keeps_profiles_witness :
  driver_profiles
    (committed (snd (handler "INFO" Sample.env_ok
                       (Sample.conn Sample.four_approved))))
  = driver_profiles (committed (Sample.conn Sample.four_approved)).
Proof.
  exact (sweep_without_demotion_keeps_profiles "INFO" Sample.env_ok
           (Sample.conn Sample.four_approved) eq_refl eq_refl).
Defined.

(** *** A sweep in which nothing fails *)

Lemma uniqueFrom_complete arr :
  forall seen x, In x arr -> In x seen \/ In x (Js.uniqueFrom seen arr).
Proof.
  induction arr as [|a arr IH]; intros seen x Hin; [contradiction|]. cbn.
  destruct (Js.includes seen a) eqn:E.
  - destruct Hin as [<- | Hin]; [|apply IH, Hin].
    left. apply ExpiryFacts.includes_In, E.
  - destruct Hin as [<- | Hin]; [right; left; reflexivity|].
    destruct (IH (a :: seen) x Hin) as [[<- | Hs] | Hu].
    + right. left. reflexivity.
    + left. exact Hs.
    + right. right. exact Hu.
Qed.

Lemma newSet_In_iff arr x : In x (Js.newSet arr) <-> In x arr.
Proof.
  split; [apply ExpiryFacts.newSet_In|]. intros Hin.
  destruct (uniqueFrom_complete arr [] x Hin) as [[] | H]. exact H.
Qed.

Lemma includes_false arr x : ~ In x arr -> Js.includes arr x = false.
Proof.
  intros H. destruct (Js.includes arr x) eqn:E; [|reflexivity].
  apply ExpiryFacts.includes_In in E. contradiction.
Qed.

Lemma includes_cons d rest x :
  Js.includes (d :: rest) x = (d =? x)%string || Js.includes rest x.
Proof. reflexivity. Qed.

Lemma allApprovedFor_documents driverId st st' :
  driver_documents st = driver_documents st' ->
  allApprovedFor driverId st = allApprovedFor driverId st'.
Proof.
  intros H. unfold allApprovedFor, sql_check_approved. cbn [fst].
  rewrite H. reflexivity.
Qed.

Lemma pass_rel_nil st p : pass_rel [] st p p.
Proof. unfold pass_rel. reflexivity. Qed.

Lemma pass_rel_hit d rest st st2 now p p' :
  ~ In d rest ->
  allApprovedFor d st = false ->
  driver_documents st2 = driver_documents st ->
  pass_rel rest st2
           (if (user_id p =? d)%string then set_incomplete now p else p) p' ->
  pass_rel (d :: rest) st p p'.
Proof.
  intros Hd Hall Hdocs. unfold pass_rel. rewrite includes_cons.
  destruct (user_id p =? d)%string eqn:E.
  - apply String.eqb_eq in E. cbn [user_id set_incomplete].
    rewrite E, (includes_false rest d Hd), String.eqb_refl, Hall. cbn.
    intros ->. exists now. reflexivity.
  - rewrite String.eqb_sym, E. cbn [orb].
    rewrite (allApprovedFor_documents (user_id p) st2 st Hdocs). auto.
Qed.

Lemma pass_rel_skip d rest st p p' :
  ~ In d rest ->
  allApprovedFor d st = true ->
  pass_rel rest st p p' ->
  pass_rel (d :: rest) st p p'.
Proof.
  intros Hd Hall. unfold pass_rel. rewrite includes_cons.
  destruct (user_id p =? d)%string eqn:E.
  - apply String.eqb_eq in E.
    rewrite E, (includes_false rest d Hd), String.eqb_refl, Hall. cbn. auto.
  - rewrite String.eqb_sym, E. cbn [orb]. auto.
Qed.

Lemma Forall2_map_l {A B : Type} (R R' : A -> B -> Prop) (f : A -> A) l l' :
  (forall a b, R (f a) b -> R' a b) ->
  Forall2 R (map f l) l' -> Forall2 R' l l'.
Proof.
  intros H. revert l'. induction l as [|a l IH]; intros l' HF; cbn in HF;
    inversion HF; subst; constructor; auto.
Qed.

Lemma checks_of_one d driverId :
  checks_of driverId [SelectApprovedRequired d]
  = count_occ string_dec [d] driverId.
Proof.
  cbn. destruct (string_dec d driverId) as [->|Hne].
  - rewrite String.eqb_refl. reflexivity.
  - apply String.eqb_neq in Hne. rewrite Hne. reflexivity.
Qed.

Section CleanRun.

Variable env : Env.
Hypothesis Hclean : forall k, fails env k = false.

Lemma query_clean {A : Type} (s : Stmt) (run : Z -> Store -> A * Store) c :
  tx c = Idle ->
  query s run env c
  = (Return (fst (run (clock env (seq c)) (committed c))),
     sent s c Idle (snd (run (clock env (seq c)) (committed c)))).
Proof.
  intros H. unfold query. rewrite Hclean, H.
  destruct (run (clock env (seq c)) (committed c)). reflexivity.
Qed.

(** The loop of the profile pass, run to its end. *)
Lemma forDriverIds_clean driverIds :
  NoDup driverIds ->
  forall results c,
    tx c = Idle ->
    exists results' c',
      forDriverIds driverIds results env c = (Return results', c') /\
      tx c' = Idle /\
      driver_documents (committed c') = driver_documents (committed c) /\
      Forall2 (pass_rel driverIds (committed c))
              (driver_profiles (committed c)) (driver_profiles (committed c')) /\
      length results'
      = (length results
         + length (filter (fun d => negb (allApprovedFor d (committed c)))
                          driverIds))%nat /\
      exists delta,
        log c' = (log c ++ delta)%list /\
        forall driverId,
          checks_of driverId delta = count_occ string_dec driverIds driverId.
Proof.
  induction 1 as [|d rest Hd Hnd IH]; intros results c Hidle.
  - exists results, c. cbn. repeat split; auto.
    + induction (driver_profiles (committed c)); constructor;
        auto using pass_rel_nil.
    + exists []. rewrite app_nil_r. split; reflexivity.
  - cbn [forDriverIds]. unfold bind at 1. rewrite (query_clean _ _ c Hidle).
    set (c1 := sent (SelectApprovedRequired d) c Idle _).
    assert (Hc1 : committed c1 = committed c) by reflexivity.
    change (forallb _ requiredDocs) with (allApprovedFor d (committed c)).
    assert (Hcount : forall driverId,
               count_occ string_dec (d :: rest) driverId
               = (count_occ string_dec [d] driverId
                  + count_occ string_dec rest driverId)%nat).
    { intros driverId. cbn. destruct (string_dec d driverId); reflexivity. }
    destruct (allApprovedFor d (committed c)) eqn:Hall; cbn [negb].
    + destruct (IH results c1 eq_refl)
        as (results' & c' & Hrun & Ht & Hdocs & Hrel & Hlen & delta & Hlog & Hchk).
      exists results', c'. rewrite Hc1 in *.
      split; [exact Hrun|]. split; [exact Ht|]. split; [exact Hdocs|].
      split.
      { eapply Forall2_impl; [|exact Hrel].
        intros p p'. apply pass_rel_skip; assumption. }
      split.
      { rewrite Hlen. cbn [filter]. rewrite Hall. reflexivity. }
      exists ([SelectApprovedRequired d] ++ delta)%list. split.
      * rewrite Hlog. subst c1. cbn [log sent]. rewrite <- app_assoc. reflexivity.
      * intros driverId. rewrite ExpiryFacts.checks_of_app, Hcount, Hchk,
          checks_of_one. reflexivity.
    + unfold bind at 1. rewrite (query_clean _ _ c1 eq_refl).
      set (c2 := sent (UpdateProfileIncomplete d) c1 Idle _).
      destruct (IH (results ++ [hd_error (fst (sql_mark_incomplete d
                                                (clock env (seq c1))
                                                (committed c1)))])%list
                   c2 eq_refl)
        as (results' & c' & Hrun & Ht & Hdocs & Hrel & Hlen & delta & Hlog & Hchk).
      exists results', c'.
      assert (Hdocs2 : driver_documents (committed c2)
                       = driver_documents (committed c)) by reflexivity.
      split; [exact Hrun|]. split; [exact Ht|].
      split; [rewrite Hdocs; exact Hdocs2|].
      split.
      { apply (Forall2_map_l
                 (pass_rel rest (committed c2))
                 (pass_rel (d :: rest) (committed c))
                 (fun p => if (user_id p =? d)%string
                           then set_incomplete (clock env (seq c1)) p else p)).
        - intros p p'. apply pass_rel_hit; assumption.
        - exact Hrel. }
      split.
      { rewrite Hlen, length_app. cbn [filter length]. rewrite Hall. cbn [negb length].
        rewrite (filter_ext (fun d0 => negb (allApprovedFor d0 (committed c2)))
                            (fun d0 => negb (allApprovedFor d0 (committed c)))).
        - lia.
        - intros d0. rewrite (allApprovedFor_documents d0 _ _ Hdocs2). reflexivity. }
      exists ([SelectApprovedRequired d; UpdateProfileIncomplete d] ++ delta)%list.
      split.
      * rewrite Hlog. subst c2 c1. cbn [log sent]. rewrite <- !app_assoc.
        reflexivity.
      * intros driverId. rewrite ExpiryFacts.checks_of_app, Hcount, Hchk.
        f_equal. rewrite <- checks_of_one. cbn.
        destruct (d =? driverId)%string; reflexivity.
Qed.

(** The profile pass as the handler runs it. *)
Lemma profile_pass_clean rows c1 :
  tx c1 = Idle ->
  exists updated c2,
    match rows with
    | [] => ret None
    | _ => updatedProfiles <- updateDriverProfilesForExpiredDocs rows ;;
           ret (Some (length updatedProfiles))
    end env c1 = (Return updated, c2) /\
    tx c2 = Idle /\
    driver_documents (committed c2) = driver_documents (committed c1) /\
    Forall2 (pass_rel (Js.newSet (map x_driver_id rows)) (committed c1))
            (driver_profiles (committed c1)) (driver_profiles (committed c2)) /\
    match updated with Some k => k | None => 0%nat end
    = length (filter (fun d => negb (allApprovedFor d (committed c1)))
                     (Js.newSet (map x_driver_id rows))) /\
    exists delta,
      log c2 = (log c1 ++ delta)%list /\
      forall driverId,
        checks_of driverId delta
        = if Js.includes (map x_driver_id rows) driverId then 1%nat else 0%nat.
Proof.
  intros Hidle. destruct rows as [|x rest].
  - exists None, c1. cbn. repeat split; auto.
    + induction (driver_profiles (committed c1)); constructor;
        auto using pass_rel_nil.
    + exists []. rewrite app_nil_r. split; reflexivity.
  - set (rows := x :: rest). set (ids := Js.newSet (map x_driver_id rows)).
    destruct (forDriverIds_clean ids (ExpiryFacts.newSet_NoDup _) [] c1 Hidle)
      as (results' & c2 & Hrun & Ht & Hdocs & Hrel & Hlen & delta & Hlog & Hchk).
    exists (Some (length results')), c2.
    split.
    { unfold bind, updateDriverProfilesForExpiredDocs. fold rows. fold ids.
      subst rows. cbv beta iota. fold ids. rewrite Hrun. reflexivity. }
    split; [exact Ht|]. split; [exact Hdocs|]. split; [exact Hrel|].
    split; [rewrite Hlen; reflexivity|].
    exists delta. split; [exact Hlog|].
    intros driverId. rewrite Hchk.
    pose proof (ExpiryFacts.newSet_NoDup (map x_driver_id rows)) as Hnd.
    rewrite (NoDup_count_occ string_dec) in Hnd. specialize (Hnd driverId).
    fold ids in Hnd.
    destruct (Js.includes (map x_driver_id rows) driverId) eqn:Hin.
    + apply (proj1 (ExpiryFacts.includes_In _ _)) in Hin.
      apply (proj2 (newSet_In_iff _ _)) in Hin. fold ids in Hin.
      apply (proj1 (count_occ_In string_dec _ _)) in Hin. lia.
    + destruct (Nat.eq_dec (count_occ string_dec ids driverId) 0) as [E | E];
        [exact E|].
      assert (Hpos : (count_occ string_dec ids driverId > 0)%nat) by lia.
      apply (proj2 (count_occ_In string_dec _ _)) in Hpos.
      apply (proj1 (newSet_In_iff _ _)) in Hpos.
      apply (proj2 (ExpiryFacts.includes_In _ _)) in Hpos.
      rewrite Hpos in Hin. discriminate.
Qed.

(** The whole handler, when it can connect and nothing fails. *)
Lemma handler_clean lvl c :
  tx c = Idle ->
  connects env = true ->
  let rows := fst (sql_mark_expired (clock env (seq c)) (committed c)) in
  let st1 := snd (sql_mark_expired (clock env (seq c)) (committed c)) in
  let ids := Js.newSet (map x_driver_id rows) in
  exists c2 found c3,
    tx c2 = Idle /\
    driver_documents (committed c2) = driver_documents st1 /\
    Forall2 (pass_rel ids st1)
            (driver_profiles (committed c)) (driver_profiles (committed c2)) /\
    (exists delta,
        log c2 = (log c ++ UpdateMarkExpired :: delta)%list /\
        forall driverId,
          checks_of driverId delta
          = if Js.includes (map x_driver_id rows) driverId
            then 1%nat else 0%nat) /\
    found = fst (sql_find_expiring 30 (clock env (seq c2)) (committed c2)) /\
    tx c3 = Idle /\
    committed c3
    = match found with
      | [] => committed c2
      | _ => snd (sql_mark_notified (map e_id found) (clock env (S (seq c2)))
                    (committed c2))
      end /\
    log c3
    = (log c2 ++ SelectExpiring :: match found with
                                   | [] => []
                                   | _ => [UpdateNotificationSent]
                                   end)%list /\
    handler lvl env c
    = ({| statusCode := 200;
          response_body :=
            Completed "Document expiry check completed"
              {| expiringDocuments := length found;
                 expiredDocuments := length rows;
                 notificationsSent := length found;
                 profilesUpdated :=
                   length (filter (fun d => negb (allApprovedFor d st1)) ids);
                 errors := [] |} |},
       c3).
Proof.
  intros Hidle Hconn rows st1 ids.
  set (c1 := sent UpdateMarkExpired c Idle st1).
  destruct (profile_pass_clean rows c1 eq_refl)
    as (updated & c2 & Hrun & Ht & Hdocs & Hrel & Hupd & delta & Hlog & Hchk).
  set (found := fst (sql_find_expiring 30 (clock env (seq c2)) (committed c2))).
  assert (Hend : exists c3,
             tx c3 = Idle /\
             committed c3
             = match found with
               | [] => committed c2
               | _ => snd (sql_mark_notified (map e_id found)
                             (clock env (S (seq c2))) (committed c2))
               end /\
             log c3
             = (log c2 ++ SelectExpiring :: match found with
                                            | [] => []
                                            | _ => [UpdateNotificationSent]
                                            end)%list /\
             handler lvl env c
             = ({| statusCode := 200;
                   response_body :=
                     Completed "Document expiry check completed"
                       {| expiringDocuments := length found;
                          expiredDocuments := length rows;
                          notificationsSent := length found;
                          profilesUpdated :=
                            length (filter
                                      (fun d => negb (allApprovedFor d st1))
                                      ids);
                          errors := [] |} |},
                c3)).
  { unfold handler. unfold attempt at 1. unfold getDbConnection. rewrite Hconn.
    unfold attempt at 1.
    rewrite (ExpiryFacts.markExpiredDocuments_idle env c Hidle (Hclean _)).
    fold rows. fold st1. fold c1.
    unfold attempt at 1. rewrite Hrun.
    unfold attempt at 1. unfold findExpiringDocuments.
    rewrite (query_clean _ _ c2 Ht).
    assert (Hsnd : snd (sql_find_expiring 30 (clock env (seq c2))
                          (committed c2))
                   = committed c2) by reflexivity.
    rewrite Hsnd. fold found.
    assert (Hnum : match updated with Some k => k | None => 0%nat end
                   = length (filter (fun d => negb (allApprovedFor d st1)) ids))
      by exact Hupd.
    clearbody found.
    destruct found as [|r rest].
    - eexists. split; [|split; [|split; [|unfold completed; cbn [fst snd];
                                  rewrite <- Hnum; destruct updated;
                                  reflexivity]]]; reflexivity.
    - unfold attempt at 1. unfold markNotificationSent. cbn [map].
      rewrite (query_clean _ _ (sent SelectExpiring c2 Idle (committed c2))
                 eq_refl).
      eexists. split; [|split; [|split;
                                  [|unfold completed, sendExpirationNotifications;
                                    cbn [fst snd];
                                    rewrite <- Hnum; destruct updated;
                                    reflexivity]]];
        [reflexivity | reflexivity |].
      cbn [log sent]. rewrite <- app_assoc. reflexivity. }
  destruct Hend as (c3 & Ht3 & Hc3 & Hlog3 & Hrun3).
  exists c2, found, c3.
  split; [exact Ht|]. split; [exact Hdocs|]. split; [exact Hrel|].
  split.
  { exists delta. split; [|exact Hchk]. rewrite Hlog. subst c1. cbn [log sent].
    rewrite <- app_assoc. reflexivity. }
  split; [reflexivity|]. split; [exact Ht3|]. split; [exact Hc3|].
  split; [exact Hlog3 | exact Hrun3].
Qed.

End CleanRun.

(** *** What a sweep without failures does *)

Lemma filter_none {A : Type} (f : A -> bool) l :
  (forall x, In x l -> f x = false) <-> filter f l = [].
Proof.
  induction l as [|a l IH]; cbn; [tauto|]. split.
  - intros H. rewrite (H a (or_introl eq_refl)). apply IH. auto.
  - destruct (f a) eqn:E; [discriminate|]. intros H x [<- | Hx]; [exact E|].
    apply IH; assumption.
Qed.

Lemma find_expiring_none daysAhead now st :
  fst (sql_find_expiring daysAhead now st) = [] <->
  forall d, In d (driver_documents st) -> expiring daysAhead now d = false.
Proof.
  rewrite filter_none. unfold sql_find_expiring; cbn [fst]. split.
  - intros H. apply (f_equal (@length _)) in H.
    rewrite order_by_expiry_length, length_map in H.
    apply length_zero_iff_nil, H.
  - intros ->. reflexivity.
Qed.

Lemma none_expiring_after_notified daysAhead now stamp now' st :
  Sql.CURRENT_DATE now' = Sql.CURRENT_DATE now ->
  fst (sql_find_expiring daysAhead now'
         (snd (sql_mark_notified
                 (map e_id (fst (sql_find_expiring daysAhead now st)))
                 stamp st)))
  = [].
Proof.
  intros Hday. apply find_expiring_none. intros d' Hin.
  unfold sql_mark_notified in Hin. cbn [snd driver_documents] in Hin.
  apply in_map_iff in Hin. destruct Hin as (d & <- & Hin).
  destruct (Js.includes _ (id d)) eqn:Hi.
  - unfold expiring. cbn. apply andb_false_r.
  - rewrite (expiring_same_day daysAhead now now' d Hday).
    destruct (expiring daysAhead now d) eqn:Hex; [|reflexivity].
    assert (Hyes : Js.includes
                     (map e_id (fst (sql_find_expiring daysAhead now st)))
                     (id d) = true).
    { apply ExpiryFacts.includes_In, found_ids_iff. exists d. auto. }
    rewrite Hyes in Hi. discriminate.
Qed.

Lemma past_expiry_after_notified ids stamp now st :
  (forall d, In d (driver_documents st) -> past_expiry now d = false) ->
  forall d, In d (driver_documents (snd (sql_mark_notified ids stamp st))) ->
            past_expiry now d = false.
Proof.
  intros H d' Hin. unfold sql_mark_notified in Hin.
  cbn [snd driver_documents] in Hin. apply in_map_iff in Hin.
  destruct Hin as (d & <- & Hin). specialize (H d Hin).
  destruct (Js.includes ids (id d)); exact H.
Qed.

Lemma pass_rel_nil_inv st l l' : Forall2 (pass_rel [] st) l l' -> l' = l.
Proof.
  induction 1 as [|p p' l l' Hp _ IH]; [reflexivity|].
  unfold pass_rel in Hp. cbn in Hp. subst. reflexivity.
Qed.

Lemma newSet_length arr : (length (Js.newSet arr) <= length arr)%nat.
Proof.
  apply NoDup_incl_length; [apply ExpiryFacts.newSet_NoDup|].
  intros x. apply ExpiryFacts.newSet_In.
Qed.

Lemma includes_newSet arr x : Js.includes (Js.newSet arr) x = Js.includes arr x.
Proof.
  apply Bool.eq_iff_eq_true.
  rewrite !ExpiryFacts.includes_In. apply newSet_In_iff.
Qed.

Lemma affected_includes now st driverId :
  Js.includes (Js.newSet (map x_driver_id (fst (sql_mark_expired now st))))
              driverId
  = affected now st driverId.
Proof.
  apply Bool.eq_iff_eq_true.
  rewrite ExpiryFacts.includes_In, newSet_In_iff, in_map_iff.
  unfold affected. rewrite existsb_exists. split.
  - intros (r & <- & Hr). rewrite ExpiryFacts.sql_mark_expired_returning in Hr.
    apply in_map_iff in Hr. destruct Hr as (d & <- & Hd).
    apply filter_In in Hd. destruct Hd as [Hin Hdue].
    exists d. split; [exact Hin|]. rewrite Hdue. apply String.eqb_refl.
  - intros (d & Hin & Hd). apply andb_true_iff in Hd. destruct Hd as [Hdue Hid].
    apply String.eqb_eq in Hid. exists (expired_row d).
    split; [exact Hid|]. rewrite ExpiryFacts.sql_mark_expired_returning.
    apply in_map, filter_In. auto.
Qed.

Lemma allApprovedFor_iff driverId st :
  allApprovedFor driverId st = true <->
  forall t, In t requiredDocs ->
            exists d, In d (driver_documents st) /\
                      driver_id d = driverId /\ document_type d = t /\
                      status d = "approved".
Proof.
  unfold allApprovedFor. rewrite forallb_forall.
  split; intros H t Ht; specialize (H t Ht).
  - apply (proj1 (ExpiryFacts.includes_In _ _)) in H.
    unfold sql_check_approved in H. cbn [fst] in H.
    rewrite map_map in H. cbn [fst] in H. apply in_map_iff in H.
    destruct H as (d & <- & Hd). apply filter_In in Hd.
    destruct Hd as [Hin Hd]. rewrite !andb_true_iff, !String.eqb_eq in Hd.
    exists d. tauto.
  - destruct H as (d & Hin & Hdrv & Htype & Hst).
    apply ExpiryFacts.includes_In. unfold sql_check_approved. cbn [fst].
    rewrite map_map. cbn [fst]. apply in_map_iff. exists d.
    split; [exact Htype|]. apply filter_In. split; [exact Hin|].
    rewrite !andb_true_iff, !String.eqb_eq. split; [split|]; auto.
    rewrite Htype. apply ExpiryFacts.includes_In. exact Ht.
Qed.

Lemma Forall2_two {A B : Type} (R : A -> B -> Prop) a1 a2 l :
  Forall2 R [a1; a2] l -> exists b1 b2, l = [b1; b2] /\ R a1 b1 /\ R a2 b2.
Proof.
  intros H. inversion H as [|x b1 l1 l2 H1 Hrest]; subst.
  inversion Hrest as [|y b2 l3 l4 H2 Hnil]; subst.
  inversion Hnil; subst. exists b1, b2. auto.
Qed.

(** X15. A sweep that connects and in which no statement fails rewrites the
    profiles as follows.  The row of a driver who owned a document the
    demotion update expired, and who after that update lacks an approved
    document of some required type, keeps its user and its document
    references and [documents_verified_at], has [documents_complete] set to
    false, and its status becomes pending_documents if it was active and is
    kept otherwise; every other row is left as it was.  The required types
    are license, insurance, registration and profile photo. *)
Theorem clean_sweep_demotes_profiles lvl env c :
  (forall k, fails env k = false) ->
  connects env = true ->
  tx c = Idle ->
  let now := clock env (seq c) in
  let st1 := snd (sql_mark_expired now (committed c)) in
  Forall2
    (fun p p' =>
       if affected now (committed c) (user_id p)
          && negb (allApprovedFor (user_id p) st1)
       then (exists t, p' = set_incomplete t p) /\
            user_id p' = user_id p /\
            documents_complete p' = false /\
            profile_status p'
            = (if (profile_status p =? "active")%string
               then "pending_documents" else profile_status p) /\
            documents_verified_at p' = documents_verified_at p /\
            license_document p' = license_document p /\
            insurance_document p' = insurance_document p /\
            registration_document p' = registration_document p /\
            inspection_document p' = inspection_document p /\
            profile_photo_document p' = profile_photo_document p
       else p' = p)
    (driver_profiles (committed c))
    (driver_profiles (committed (snd (handler lvl env c)))) /\
  (forall driverId,
      allApprovedFor driverId st1 = true <->
      forall t, In t ["license"; "insurance"; "registration"; "profile_photo"] ->
                exists d, In d (driver_documents st1) /\
                          driver_id d = driverId /\ document_type d = t /\
                          status d = "approved").
Proof.
  intros Hclean Hconn Hidle now st1.
  split; [|intros driverId; apply allApprovedFor_iff].
  destruct (handler_clean env Hclean lvl c Hidle Hconn)
    as (c2 & found & c3 & _ & _ & Hrel & _ & _ & _ & Hc3 & _ & Hrun).
  rewrite Hrun. cbn [snd].
  assert (Hp : driver_profiles (committed c3) = driver_profiles (committed c2)).
  { rewrite Hc3. destruct found; reflexivity. }
  rewrite Hp. revert Hrel. apply Forall2_impl. intros p p'. unfold pass_rel.
  rewrite affected_includes.
  destruct (affected _ _ _ && negb _); [|auto].
  intros (t & ->). split; [exists t; reflexivity|]. repeat split.
Qed.

Lemma clean_sweep_demotes_profiles_witness :
  map ReviewEffect.aggregate (driver_profiles Sample.two_lapsed)
  = [("driver-a", true, "active"); ("driver-b", true, "active")] /\
  map ReviewEffect.aggregate
      (driver_profiles
         (committed (snd (handler "INFO" Sample.env_ok
                            (Sample.conn Sample.two_lapsed)))))
  = [("driver-a", false, "pending_documents");
     ("driver-b", false, "pending_documents")].
Proof.
  split; [reflexivity|].
  destruct (Forall2_two _ _ _ _
              (proj1 (clean_sweep_demotes_profiles "INFO" Sample.env_ok
                        (Sample.conn Sample.two_lapsed)
                        (fun _ => eq_refl) eq_refl eq_refl)))
    as (pa & pb & Hl & (_ & Hua & Hca & Hsa & _) & (_ & Hub & Hcb & Hsb & _)).
  rewrite Hl. unfold ReviewEffect.aggregate. cbn [map].
  rewrite Hua, Hca, Hsa, Hub, Hcb, Hsb. reflexivity.
Defined.

(** X16. The answer of a sweep that connects and in which no statement
    fails: status 200 and no error text; [expiredDocuments] counts the
    documents that were approved with an expiry date before the current
    date; [notificationsSent] equals [expiringDocuments], the number of
    un-notified approved documents within thirty days of expiry after the
    demotion; [profilesUpdated] counts the distinct owners of demoted
    documents who lack an approved required document, so it never exceeds
    [expiredDocuments].  The approved-documents check ran exactly once for
    each owner of a demoted document and for nobody else. *)
Theorem clean_sweep_report lvl env c :
  (forall k, fails env k = false) ->
  connects env = true ->
  tx c = Idle ->
  let now := clock env (seq c) in
  let st1 := snd (sql_mark_expired now (committed c)) in
  exists results k,
    fst (handler lvl env c)
    = {| statusCode := 200;
         response_body := Completed "Document expiry check completed" results |} /\
    errors results = [] /\
    expiredDocuments results
    = length (filter (past_expiry now) (driver_documents (committed c))) /\
    expiringDocuments results
    = length (filter (expiring 30 (clock env k)) (driver_documents st1)) /\
    notificationsSent results = expiringDocuments results /\
    profilesUpdated results
    = length (filter (fun d => negb (allApprovedFor d st1))
                     (Js.newSet
                        (map driver_id
                           (filter (past_expiry now)
                                   (driver_documents (committed c)))))) /\
    (profilesUpdated results <= expiredDocuments results)%nat /\
    forall driverId,
      checks_of driverId (new_statements c (snd (handler lvl env c)))
      = if affected now (committed c) driverId then 1%nat else 0%nat.
Proof.
  intros Hclean Hconn Hidle now st1.
  destruct (handler_clean env Hclean lvl c Hidle Hconn)
    as (c2 & found & c3 & _ & Hdocs & _ & (delta & Hlog & Hchk) & Hfound & _
        & _ & Hlog3 & Hrun).
  rewrite Hrun. cbn [fst snd].
  assert (Hrows : map x_driver_id
                    (fst (sql_mark_expired (clock env (seq c)) (committed c)))
                  = map driver_id
                      (filter (past_expiry now)
                              (driver_documents (committed c)))).
  { rewrite ExpiryFacts.sql_mark_expired_returning, map_map. reflexivity. }
  eexists. exists (seq c2). split; [reflexivity|]. cbn [errors expiredDocuments
    expiringDocuments notificationsSent profilesUpdated].
  split; [reflexivity|].
  split; [rewrite ExpiryFacts.sql_mark_expired_returning; apply length_map|].
  split.
  { rewrite Hfound. unfold sql_find_expiring; cbn [fst].
    rewrite order_by_expiry_length, length_map, Hdocs. reflexivity. }
  split; [reflexivity|].
  split; [rewrite Hrows; reflexivity|].
  split.
  { etransitivity; [apply filter_length_le|].
    etransitivity; [apply newSet_length|].
    rewrite length_map. apply Nat.le_refl. }
  intros driverId.
  rewrite (SessionFacts.new_statements_app c c3
             (UpdateMarkExpired :: delta ++
              SelectExpiring :: match found with
                                | [] => []
                                | _ => [UpdateNotificationSent]
                                end)%list).
  - change (UpdateMarkExpired :: delta ++ ?t)%list
      with ([UpdateMarkExpired] ++ delta ++ t)%list.
    rewrite !ExpiryFacts.checks_of_app, Hchk.
    rewrite <- (affected_includes now (committed c) driverId), includes_newSet.
    destruct (Js.includes _ driverId); destruct found; reflexivity.
  - rewrite Hlog3, Hlog, <- app_assoc. reflexivity.
Qed.

Lemma clean_sweep_report_witness :
  let c := Sample.conn Sample.two_lapsed in
  statusCode (fst (handler "INFO" Sample.env_ok c)) = 200 /\
  checks_of "driver-a" (new_statements c (snd (handler "INFO" Sample.env_ok c)))
  = 1%nat.
Proof.
  destruct (clean_sweep_report "INFO" Sample.env_ok
              (Sample.conn Sample.two_lapsed)
              (fun _ => eq_refl) eq_refl eq_refl)
    as (results & k & Hfst & _ & _ & _ & _ & _ & _ & Hchk).
  split; [rewrite Hfst; reflexivity | exact (Hchk "driver-a")].
Defined.

(** X17. Two sweeps on the same date, both connecting and without a failing
    statement: the second one finds nothing to demote and nothing to
    notify, reports zero for every count and leaves both tables exactly as
    the first one left them. *)
Theorem second_sweep_on_the_same_day lvl env c :
  (forall k, fails env k = false) ->
  connects env = true ->
  tx c = Idle ->
  (forall k, Sql.CURRENT_DATE (clock env k)
             = Sql.CURRENT_DATE (clock env (seq c))) ->
  let c1 := snd (handler lvl env c) in
  fst (handler lvl env c1)
  = {| statusCode := 200;
       response_body :=
         Completed "Document expiry check completed"
           {| expiringDocuments := 0; expiredDocuments := 0;
              notificationsSent := 0; profilesUpdated := 0;
              errors := [] |} |} /\
  committed (snd (handler lvl env c1)) = committed c1.
Proof.
  intros Hclean Hconn Hidle Hday c1.
  destruct (handler_clean env Hclean lvl c Hidle Hconn)
    as (c2 & found & c3 & _ & Hdocs & _ & _ & Hfound & Ht3 & Hc3 & _ & Hrun).
  assert (E1 : c1 = c3) by (unfold c1; rewrite Hrun; reflexivity).
  rewrite E1. clear E1 c1 Hrun.
  set (now := clock env (seq c)) in *.
  (* nothing is due any more *)
  assert (Hdue2 : forall now' d, Sql.CURRENT_DATE now' = Sql.CURRENT_DATE now ->
                    In d (driver_documents (committed c2)) ->
                    past_expiry now' d = false).
  { intros now' d Hd Hin. rewrite Hdocs in Hin.
    exact (ExpiryFacts.none_due_after_mark_expired now now' _ Hd d Hin). }
  assert (Hdue3 : forall d, In d (driver_documents (committed c3)) ->
                    past_expiry (clock env (seq c3)) d = false).
  { rewrite Hc3. destruct found.
    - intros d. apply Hdue2, Hday.
    - apply past_expiry_after_notified. intros d. apply Hdue2, Hday. }
  (* nothing is left to notify *)
  assert (Hnone3 : forall now', Sql.CURRENT_DATE now' = Sql.CURRENT_DATE now ->
                     fst (sql_find_expiring 30 now' (committed c3)) = []).
  { intros now' Hd. rewrite Hc3. destruct found as [|r rest] eqn:Hf.
    - apply find_expiring_none. intros d Hin.
      rewrite (expiring_same_day 30 (clock env (seq c2)) now' d).
      + symmetry in Hfound. revert d Hin. apply find_expiring_none.
        exact Hfound.
      + rewrite Hd. symmetry. apply Hday.
    - rewrite Hfound. apply none_expiring_after_notified.
      rewrite Hd. symmetry. apply Hday. }
  destruct (handler_clean env Hclean lvl c3 Ht3 Hconn)
    as (d2 & found' & d3 & _ & Hdocs' & Hrel' & _ & Hfound' & _ & Hd3 & _
        & Hrun').
  rewrite (ExpiryFacts.sql_mark_expired_nothing_due _ _ Hdue3) in *.
  cbn [fst snd map] in *. change (Js.newSet []) with (@nil string) in *.
  apply pass_rel_nil_inv in Hrel'.
  assert (Hst : committed d2 = committed c3).
  { destruct (committed d2), (committed c3). cbn in *. congruence. }
  assert (Hnil : found' = []).
  { rewrite Hfound', Hst. apply Hnone3, Hday. }
  rewrite Hrun'. cbn [fst snd]. rewrite Hnil in *. cbn [length filter].
  split; [reflexivity|]. rewrite Hd3. exact Hst.
Qed.

Lemma second_sweep_on_the_same_day_witness :
  let c1 := snd (handler "INFO" Cases.env_same_day
                   (Sample.conn Sample.two_lapsed)) in
  committed (snd (handler "INFO" Cases.env_same_day c1)) = committed c1.
Proof.
  exact (proj2 (second_sweep_on_the_same_day "INFO" Cases.env_same_day
                  (Sample.conn Sample.two_lapsed)
                  (fun _ => eq_refl) eq_refl eq_refl (fun _ => eq_refl))).
Defined.

(** *** A sweep that fails part of the way *)

Lemma query_idle {A : Type} (s : Stmt) (run : Z -> Store -> A * Store) env c :
  tx c = Idle ->
  query s run env c
  = if fails env (seq c)
    then (Throw "database error", sent s c Idle (committed c))
    else (Return (fst (run (clock env (seq c)) (committed c))),
          sent s c Idle (snd (run (clock env (seq c)) (committed c)))).
Proof.
  intros H. unfold query. rewrite H.
  destruct (fails env (seq c)); [reflexivity|].
  destruct (run (clock env (seq c)) (committed c)). reflexivity.
Qed.

(** The loop of the profile pass under any pattern of failures. *)
Lemma forDriverIds_run env driverIds :
  forall results c,
    tx c = Idle ->
    exists out c' delta,
      forDriverIds driverIds results env c = (out, c') /\
      tx c' = Idle /\
      driver_documents (committed c') = driver_documents (committed c) /\
      log c' = (log c ++ delta)%list /\
      Forall (fun s => pass_statement s = true) delta /\
      match out with
      | Return results' =>
          length results'
          = (length results
             + length (filter (fun d => negb (allApprovedFor d (committed c)))
                              driverIds))%nat
      | Throw e => e = "database error" /\ delta <> []
      end.
Proof.
  induction driverIds as [|d rest IH]; intros results c Hidle.
  - exists (Return results), c, []. cbn. rewrite app_nil_r, Nat.add_0_r.
    repeat split; auto.
  - cbn [forDriverIds]. unfold bind at 1. rewrite (query_idle _ _ env c Hidle).
    destruct (fails env (seq c)) eqn:F.
    { exists (Throw "database error"),
             (sent (SelectApprovedRequired d) c Idle (committed c)),
             [SelectApprovedRequired d].
      cbn. repeat split; auto. discriminate. }
    set (c1 := sent (SelectApprovedRequired d) c Idle _).
    assert (Hc1 : committed c1 = committed c) by reflexivity.
    change (forallb _ requiredDocs) with (allApprovedFor d (committed c)).
    cbn [filter].
    destruct (allApprovedFor d (committed c)) eqn:Hall; cbn [negb].
    + destruct (IH results c1 eq_refl)
        as (out & c' & delta & Hrun & Ht & Hdocs & Hlog & Hfor & Hres).
      exists out, c', (SelectApprovedRequired d :: delta).
      split; [exact Hrun|]. split; [exact Ht|]. split; [exact Hdocs|].
      split; [rewrite Hlog; subst c1; cbn [log sent];
              rewrite <- app_assoc; reflexivity|].
      split; [constructor; [reflexivity | exact Hfor]|].
      rewrite Hc1 in Hres. destruct out as [results' | e].
      * exact Hres.
      * split; [exact (proj1 Hres) | discriminate].
    + unfold bind at 1. rewrite (query_idle _ _ env c1 eq_refl).
      destruct (fails env (seq c1)) eqn:F1.
      { exists (Throw "database error"),
               (sent (UpdateProfileIncomplete d) c1 Idle (committed c1)),
               [SelectApprovedRequired d; UpdateProfileIncomplete d].
        cbn. rewrite <- app_assoc. repeat split; auto. discriminate. }
      set (c2 := sent (UpdateProfileIncomplete d) c1 Idle _).
      assert (Hdocs2 : driver_documents (committed c2)
                       = driver_documents (committed c)) by reflexivity.
      destruct (IH (results ++ [hd_error (fst (sql_mark_incomplete d
                                                (clock env (seq c1))
                                                (committed c1)))])%list
                   c2 eq_refl)
        as (out & c' & delta & Hrun & Ht & Hdocs & Hlog & Hfor & Hres).
      exists out, c',
        (SelectApprovedRequired d :: UpdateProfileIncomplete d :: delta).
      split; [exact Hrun|]. split; [exact Ht|].
      split; [rewrite Hdocs; exact Hdocs2|].
      split; [rewrite Hlog; subst c2 c1; cbn [log sent];
              rewrite <- !app_assoc; reflexivity|].
      split; [constructor; [reflexivity|];
              constructor; [reflexivity | exact Hfor]|].
      destruct out as [results' | e].
      * rewrite Hres, length_app. cbn [length].
        rewrite (filter_ext (fun d0 => negb (allApprovedFor d0 (committed c2)))
                            (fun d0 => negb (allApprovedFor d0 (committed c)))).
        -- lia.
        -- intros d0. rewrite (allApprovedFor_documents d0 _ _ Hdocs2).
           reflexivity.
      * split; [exact (proj1 Hres) | discriminate].
Qed.

(** The profile pass as the handler runs it, under any pattern of
    failures. *)
Lemma profile_pass_run env rows c1 :
  tx c1 = Idle ->
  exists updated c2 delta,
    match rows with
    | [] => ret None
    | _ => updatedProfiles <- updateDriverProfilesForExpiredDocs rows ;;
           ret (Some (length updatedProfiles))
    end env c1 = (updated, c2) /\
    tx c2 = Idle /\
    driver_documents (committed c2) = driver_documents (committed c1) /\
    log c2 = (log c1 ++ delta)%list /\
    Forall (fun s => pass_statement s = true) delta /\
    match updated with
    | Return u =>
        match u with Some k => k | None => 0%nat end
        = length (filter (fun d => negb (allApprovedFor d (committed c1)))
                         (Js.newSet (map x_driver_id rows)))
    | Throw e => e = "database error" /\ delta <> []
    end.
Proof.
  intros Hidle. destruct rows as [|x rest].
  - exists (Return None), c1, []. cbn. rewrite app_nil_r. repeat split; auto.
  - set (rows := x :: rest).
    destruct (forDriverIds_run env (Js.newSet (map x_driver_id rows)) [] c1 Hidle)
      as (out & c2 & delta & Hrun & Ht & Hdocs & Hlog & Hfor & Hres).
    unfold bind, updateDriverProfilesForExpiredDocs. fold rows.
    subst rows. cbv beta iota. rewrite Hrun.
    destruct out as [results' | e].
    + exists (Return (Some (length results'))), c2, delta.
      repeat (split; [first [reflexivity | assumption]|]). exact Hres.
    + exists (Throw e), c2, delta.
      repeat (split; [first [reflexivity | assumption]|]). exact Hres.
Qed.

Lemma last_pass_statement s delta d :
  delta <> [] ->
  Forall (fun s => pass_statement s = true) delta ->
  pass_statement (last (s :: delta) d) = true.
Proof.
  intros Hne Hfor. revert s. induction Hfor as [|x l Hx Hl IH]; intros s.
  - contradiction.
  - destruct l as [|y l]; [exact Hx|].
    change (last (s :: x :: y :: l) d) with (last (x :: y :: l) d).
    apply IH. discriminate.
Qed.

Lemma marked_expired_keeps_stamps now st :
  map expiration_notified_at (driver_documents (snd (sql_mark_expired now st)))
  = map expiration_notified_at (driver_documents st).
Proof.
  unfold sql_mark_expired; cbn [snd driver_documents]. rewrite map_map.
  apply map_ext. intros d. destruct (past_expiry now d); reflexivity.
Qed.

(** What the 500 answer of a sweep says, by the statement that failed. *)
Lemma handler_stages lvl env c :
  connects env = true ->
  tx c = Idle ->
  let now := clock env (seq c) in
  let due := filter (past_expiry now) (driver_documents (committed c)) in
  let st1 := snd (sql_mark_expired now (committed c)) in
  let lacking :=
    filter (fun d => negb (allApprovedFor d st1))
           (Js.newSet (map driver_id due)) in
  exists resp c' news,
    handler lvl env c = (resp, c') /\
    log c' = (log c ++ news)%list /\
    notificationsSent (results_of resp) = expiringDocuments (results_of resp) /\
    (statusCode resp = 500 ->
     response_body resp
     = Failed "Document expiry check failed"
              (if (lvl =? "DEBUG")%string then Some "database error" else None)
              (results_of resp) /\
     errors (results_of resp) = ["database error"] /\
     match last news COMMIT with
     | UpdateMarkExpired =>
         expiredDocuments (results_of resp) = 0%nat /\
         profilesUpdated (results_of resp) = 0%nat /\
         expiringDocuments (results_of resp) = 0%nat /\
         committed c' = committed c
     | SelectApprovedRequired _ | UpdateProfileIncomplete _ =>
         expiredDocuments (results_of resp) = length due /\
         profilesUpdated (results_of resp) = 0%nat /\
         expiringDocuments (results_of resp) = 0%nat
     | SelectExpiring =>
         expiredDocuments (results_of resp) = length due /\
         profilesUpdated (results_of resp) = length lacking /\
         expiringDocuments (results_of resp) = 0%nat
     | UpdateNotificationSent =>
         expiredDocuments (results_of resp) = length due /\
         profilesUpdated (results_of resp) = length lacking /\
         (0 < expiringDocuments (results_of resp))%nat /\
         (exists k,
             expiringDocuments (results_of resp)
             = length (filter (expiring 30 (clock env k))
                              (driver_documents st1))) /\
         map expiration_notified_at (driver_documents (committed c'))
         = map expiration_notified_at (driver_documents (committed c))
     | _ => False
     end).
Proof.
  intros Hconn Hidle now due st1 lacking.
  unfold handler. unfold attempt at 1. unfold getDbConnection. rewrite Hconn.
  unfold attempt at 1. unfold markExpiredDocuments.
  rewrite (query_idle _ _ env c Hidle).
  destruct (fails env (seq c)) eqn:F0.
  { exists (caught lvl
              {| expiringDocuments := 0; expiredDocuments := 0;
                 notificationsSent := 0; profilesUpdated := 0; errors := [] |}
              "database error"),
           (sent UpdateMarkExpired c Idle (committed c)), [UpdateMarkExpired].
    cbn. repeat split. }
  fold now. fold st1.
  set (rows := fst (sql_mark_expired now (committed c))).
  set (c1 := sent UpdateMarkExpired c Idle st1).
  assert (Hrows : length rows = length due).
  { subst rows. rewrite ExpiryFacts.sql_mark_expired_returning. apply length_map. }
  assert (Hids : map x_driver_id rows = map driver_id due).
  { subst rows. rewrite ExpiryFacts.sql_mark_expired_returning, map_map.
    reflexivity. }
  destruct (profile_pass_run env rows c1 eq_refl)
    as (updated & c2 & delta & Hrun & Ht & Hdocs & Hlog & Hfor & Hres).
  unfold attempt at 1. rewrite Hrun.
  destruct updated as [u | e].
  2:{ destruct Hres as [-> Hne].
      eexists. exists c2, (UpdateMarkExpired :: delta).
      split; [reflexivity|].
      split; [rewrite Hlog; subst c1; cbn [log sent];
              rewrite <- app_assoc; reflexivity|].
      split; [reflexivity|]. intros _.
      split; [reflexivity|]. split; [reflexivity|].
      pose proof (last_pass_statement UpdateMarkExpired delta COMMIT Hne Hfor)
        as Hlast.
      destruct (last (UpdateMarkExpired :: delta) COMMIT);
        try discriminate Hlast;
        cbn [caught results_of response_body expiredDocuments profilesUpdated
             expiringDocuments];
        (split; [exact Hrows|]); split; reflexivity. }
  assert (Hnum : match u with Some k => k | None => 0%nat end = length lacking).
  { rewrite Hres. subst lacking. rewrite Hids. reflexivity. }
  unfold attempt at 1. unfold findExpiringDocuments.
  rewrite (query_idle _ _ env c2 Ht).
  destruct (fails env (seq c2)) eqn:F2.
  { eexists. eexists. exists (UpdateMarkExpired :: delta ++ [SelectExpiring])%list.
    split; [reflexivity|].
    split; [cbn [log sent]; rewrite Hlog; subst c1; cbn [log sent];
            rewrite <- ?app_assoc; cbn [app]; rewrite <- ?app_assoc;
            cbn [app]; reflexivity|].
    split; [reflexivity|]. intros _.
    split; [reflexivity|]. split; [reflexivity|].
    rewrite app_comm_cons, last_last.
    cbn [caught results_of response_body expiredDocuments profilesUpdated
         expiringDocuments].
    split; [exact Hrows|].
    split; [rewrite <- Hnum; destruct u; reflexivity | reflexivity]. }
  set (found := fst (sql_find_expiring 30 (clock env (seq c2)) (committed c2))).
  assert (Hsnd : snd (sql_find_expiring 30 (clock env (seq c2)) (committed c2))
                 = committed c2) by reflexivity.
  rewrite Hsnd.
  assert (Hfound : length found
                   = length (filter (expiring 30 (clock env (seq c2)))
                                    (driver_documents st1))).
  { subst found. unfold sql_find_expiring; cbn [fst].
    rewrite order_by_expiry_length, length_map, Hdocs. reflexivity. }
  clearbody found.
  destruct found as [|row rest].
  { eexists. eexists. exists (UpdateMarkExpired :: delta ++ [SelectExpiring])%list.
    split; [reflexivity|].
    split; [cbn [log sent]; rewrite Hlog; subst c1; cbn [log sent];
            rewrite <- ?app_assoc; cbn [app]; rewrite <- ?app_assoc;
            cbn [app]; reflexivity|].
    split; [reflexivity|]. intros H. discriminate H. }
  unfold attempt at 1. unfold markNotificationSent. cbn [map].
  rewrite (query_idle _ _ env (sent SelectExpiring c2 Idle (committed c2)) eq_refl).
  destruct (fails env (seq (sent SelectExpiring c2 Idle (committed c2)))) eqn:F3.
  { eexists. eexists.
    exists ((UpdateMarkExpired :: delta ++ [SelectExpiring])
            ++ [UpdateNotificationSent])%list.
    split; [reflexivity|].
    split; [cbn [log sent]; rewrite Hlog; subst c1; cbn [log sent];
            rewrite <- ?app_assoc; cbn [app]; rewrite <- ?app_assoc;
            cbn [app]; reflexivity|].
    split; [reflexivity|]. intros _.
    split; [reflexivity|]. split; [reflexivity|].
    rewrite last_last.
    cbn [caught results_of response_body expiredDocuments profilesUpdated
         expiringDocuments sendExpirationNotifications committed sent].
    split; [exact Hrows|].
    split; [rewrite <- Hnum; destruct u; reflexivity|].
    split; [cbn; lia|].
    split; [exists (seq c2); exact Hfound|].
    rewrite Hdocs. subst c1. cbn [committed sent]. subst st1.
    apply marked_expired_keeps_stamps. }
  eexists. eexists.
  exists ((UpdateMarkExpired :: delta ++ [SelectExpiring])
          ++ [UpdateNotificationSent])%list.
  split; [reflexivity|].
  split; [cbn [log sent]; rewrite Hlog; subst c1; cbn [log sent];
          rewrite <- ?app_assoc; cbn [app]; rewrite <- ?app_assoc;
          cbn [app]; reflexivity|].
  split; [reflexivity|]. intros H. discriminate H.
Qed.

(** C9. A sweep on an idle connection.  If connecting fails, nothing is
    sent and the answer is 500 with that one error and every count zero.
    Otherwise the run ends with 200, no error and no failed statement, or
    with 500 and exactly one error message, and then the failing statement
    is the first one that failed and the last one sent: nothing after it
    runs in that sweep.  Nothing is rolled back: once the demotion update
    has gone through, the answer carries its count and the statuses it wrote
    are the statuses at the end of the run, whatever fails later.  The 500
    answer carries the counts of the steps that had finished, by the
    statement that failed: the demotion update -- every count zero, tables
    as before; a statement of the profile pass -- [expiredDocuments] only,
    [profilesUpdated] still zero whatever the pass already wrote; the
    near-expiry query -- [expiredDocuments] and [profilesUpdated]; the
    stamping update -- all four counts, although no document was stamped.
    [notificationsSent] equals [expiringDocuments] in every answer. *)
Theorem sweep_stops_at_first_failure lvl env c :
  tx c = Idle ->
  let r := handler lvl env c in
  let res := results_of (fst r) in
  let now := clock env (seq c) in
  let due := filter (past_expiry now) (driver_documents (committed c)) in
  let st1 := snd (sql_mark_expired now (committed c)) in
  let lacking :=
    filter (fun d => negb (allApprovedFor d st1))
           (Js.newSet (map driver_id due)) in
  (connects env = false ->
   statusCode (fst r) = 500 /\
   errors res = ["connection error"] /\
   snd r = c /\
   expiredDocuments res = 0%nat /\
   profilesUpdated res = 0%nat /\
   expiringDocuments res = 0%nat /\
   notificationsSent res = 0%nat) /\
  (connects env = true ->
   tx (snd r) = Idle /\
   ((statusCode (fst r) = 200 /\
     errors res = [] /\
     clean env (seq c) (seq (snd r)))
    \/
    (statusCode (fst r) = 500 /\
     (exists e, errors res = [e]) /\
     (seq c < seq (snd r))%nat /\
     fails env (pred (seq (snd r))) = true /\
     clean env (seq c) (pred (seq (snd r))))) /\
   (fails env (seq c) = false ->
    expiredDocuments res = length due /\
    map status (driver_documents (committed (snd r)))
    = map status (driver_documents st1)) /\
   notificationsSent res = expiringDocuments res /\
   (statusCode (fst r) = 500 ->
    response_body (fst r)
    = Failed "Document expiry check failed"
             (if (lvl =? "DEBUG")%string then Some "database error" else None)
             res /\
    errors res = ["database error"] /\
    match last (new_statements c (snd r)) COMMIT with
    | UpdateMarkExpired =>
        expiredDocuments res = 0%nat /\
        profilesUpdated res = 0%nat /\
        expiringDocuments res = 0%nat /\
        committed (snd r) = committed c
    | SelectApprovedRequired _ | UpdateProfileIncomplete _ =>
        expiredDocuments res = length due /\
        profilesUpdated res = 0%nat /\
        expiringDocuments res = 0%nat
    | SelectExpiring =>
        expiredDocuments res = length due /\
        profilesUpdated res = length lacking /\
        expiringDocuments res = 0%nat
    | UpdateNotificationSent =>
        expiredDocuments res = length due /\
        profilesUpdated res = length lacking /\
        (0 < expiringDocuments res)%nat /\
        (exists k,
            expiringDocuments res
            = length (filter (expiring 30 (clock env k))
                             (driver_documents st1))) /\
        map expiration_notified_at (driver_documents (committed (snd r)))
        = map expiration_notified_at (driver_documents (committed c))
    | _ => False
    end)).
Proof.
  intros Hidle. cbv zeta. split.
  - intros Hconn.
    assert (E : handler lvl env c
                = (caught lvl
                     {| expiringDocuments := 0; expiredDocuments := 0;
                        notificationsSent := 0; profilesUpdated := 0;
                        errors := [] |}
                     "connection error", c)).
    { unfold handler. unfold attempt at 1. unfold getDbConnection.
      rewrite Hconn. reflexivity. }
    rewrite E. cbn. repeat split.
  - intros Hconn.
    destruct (ExpiryFacts.handler_ends lvl env c Hconn Hidle) as (Ht & _ & Hends).
    split; [exact Ht|]. split; [exact Hends|].
    split.
    { intros Hok. split.
      - apply ExpiryFacts.handler_counts_demotions; assumption.
      - apply ExpiryFacts.handler_keeps_statuses; assumption. }
    destruct (handler_stages lvl env c Hconn Hidle)
      as (resp & c' & news & Hrun & Hlog & Hnot & H500).
    rewrite Hrun. cbn [fst snd].
    rewrite (SessionFacts.new_statements_app c c' news Hlog).
    split; [exact Hnot | exact H500].
Qed.

Lemma sweep_stops_at_first_failure_witness :
  let r := handler "INFO" (Sample.env_failing 3) (Sample.conn Sample.two_lapsed) in
  statusCode (fst r) = 500 /\
  errors (results_of (fst r)) = ["database error"] /\
  log (snd r)
  = [UpdateMarkExpired; SelectApprovedRequired "driver-a";
     UpdateProfileIncomplete "driver-a"; SelectApprovedRequired "driver-b"] /\
  expiredDocuments (results_of (fst r)) = 2%nat /\
  profilesUpdated (results_of (fst r)) = 0%nat /\
  expiringDocuments (results_of (fst r)) = 0%nat /\
  notificationsSent (results_of (fst r)) = 0%nat /\
  map ReviewEffect.aggregate (driver_profiles (committed (snd r)))
  = [("driver-a", false, "pending_documents"); ("driver-b", true, "active")] /\
  map status (driver_documents (committed (snd r)))
  = ["expired"; "expired"; "approved"].
Proof.
  cbv zeta.
  destruct (proj2 (sweep_stops_at_first_failure "INFO" (Sample.env_failing 3)
                     (Sample.conn Sample.two_lapsed) eq_refl) eq_refl)
    as (_ & _ & Hfirst & Hnot & H500).
  destruct (H500 eq_refl) as (_ & Herr & Hexp & Hprof & Hsoon).
  destruct (Hfirst eq_refl) as (_ & Hstatus).
  split; [reflexivity|]. split; [exact Herr|]. split; [reflexivity|].
  split; [rewrite Hexp; reflexivity|]. split; [exact Hprof|].
  split; [exact Hsoon|]. split; [rewrite Hnot; exact Hsoon|].
  split; [reflexivity|]. rewrite Hstatus. reflexivity.
Defined.

End ExpiryMore.
